(** * The x402 payment protocol: gasless SVM client, quote call, wire
      encoding and request lifecycle

    A shallow embedding of the TypeScript sources of the gasless Solana
    client ([createGaslessApprovalPayment], [createGaslessNativePayment],
    [createGaslessPaymentHeader]), of the scheme entry point
    [createPaymentHeader] and of the facilitator quote call
    [getPaymentQuote], with the properties stated about them.  The wire
    encoding of a payment payload and the request lifecycle of the resource
    server, whose code is not among these sources, are modelled from the
    specification.

    Asynchronous functions are embedded in a small monad [M] that records
    the externally visible activity of a call (RPC requests, signing
    requests, HTTP requests, dynamic imports) in a trace and that either
    returns a value or throws a JavaScript error.  Everything that the
    sources import from third-party packages, and every reply of the
    network and of the wallet, is a field of an environment record;
    theorems quantify over every environment. *)

From Stdlib Require Import ZArith Lia List Bool Ascii String.
From Stdlib Require Import Decimal DecimalString DecimalZ DecimalFacts.
From stdpp Require Import base option list gmap strings.
Import ListNotations.
Local Open Scope string_scope.
Local Open Scope list_scope.
Local Open Scope Z_scope.

(* ===================================================================== *)
(** ** JavaScript values used by the sources *)
(* ===================================================================== *)

Module Js.

(** A thrown object: the constructor name and the message. *)
Record JsError := mkJsError { err_name : string; err_message : string }.

(** [new Error(msg)] *)
Definition Error (msg : string) : JsError := mkJsError "Error" msg.

(** The outcome of a call that may throw. *)
Inductive Res (A : Type) : Type :=
| Ok (a : A)
| Throw (e : JsError).
Arguments Ok {A} a.
Arguments Throw {A} e.

Definition is_ok {A} (r : Res A) : bool :=
  match r with Ok _ => true | Throw _ => false end.

(** Truthiness of a value typed [string | undefined]: [undefined] and the
    empty string are falsy. *)
Definition truthy (v : option string) : bool :=
  match v with
  | None => false
  | Some s => negb (String.eqb s "")
  end.

(* --------------------------------------------------------------------- *)
(** *** [BigInt(string)] (ECMAScript StringToBigInt) *)

Definition is_ws (c : ascii) : bool :=
  let n := nat_of_ascii c in
  ((9 <=? n) && (n <=? 13))%nat || (n =? 32)%nat.

Fixpoint ltrim (s : string) : string :=
  match s with
  | String c r => if is_ws c then ltrim r else s
  | EmptyString => EmptyString
  end.

Fixpoint rtrim (s : string) : string :=
  match s with
  | EmptyString => EmptyString
  | String c r =>
      match rtrim r with
      | EmptyString => if is_ws c then EmptyString else String c EmptyString
      | r' => String c r'
      end
  end.

Definition trim (s : string) : string := rtrim (ltrim s).

(** The value of a digit character in a radix up to 16. *)
Definition digit_val (radix : Z) (c : ascii) : option Z :=
  let n := Z.of_nat (nat_of_ascii c) in
  let v :=
    if (48 <=? n) && (n <=? 57) then Some (n - 48)
    else if (97 <=? n) && (n <=? 102) then Some (n - 87)
    else if (65 <=? n) && (n <=? 70) then Some (n - 55)
    else None in
  match v with
  | Some d => if d <? radix then Some d else None
  | None => None
  end.

Fixpoint digits_acc (radix : Z) (s : string) (acc : Z) : option Z :=
  match s with
  | EmptyString => Some acc
  | String c r =>
      match digit_val radix c with
      | Some d => digits_acc radix r (acc * radix + d)
      | None => None
      end
  end.

(** One or more digits in the radix. *)
Definition digits (radix : Z) (s : string) : option Z :=
  match s with
  | EmptyString => None
  | _ => digits_acc radix s 0
  end.

Definition parse_bigint (s : string) : option Z :=
  match trim s with
  | EmptyString => Some 0
  | String "0" (String "x" r) | String "0" (String "X" r) => digits 16 r
  | String "0" (String "o" r) | String "0" (String "O" r) => digits 8 r
  | String "0" (String "b" r) | String "0" (String "B" r) => digits 2 r
  | String "-" r => Z.opp <$> digits 10 r
  | String "+" r => digits 10 r
  | t => digits 10 t
  end.

Definition BigInt (s : string) : Res Z :=
  match parse_bigint s with
  | Some z => Ok z
  | None => Throw (mkJsError "SyntaxError"
               ("Cannot convert " +:+ s +:+ " to a BigInt"))
  end.

(* --------------------------------------------------------------------- *)
(** *** [Number(bigint)]: the nearest IEEE-754 double (ties to even) *)

Definition round_half_even (z : Z) (k : Z) : Z :=
  let q := Z.shiftr z k in
  let r := z - Z.shiftl q k in
  let half := Z.shiftl 1 (k - 1) in
  let q' := if r <? half then q
            else if half <? r then q + 1
            else if Z.even q then q else q + 1 in
  Z.shiftl q' k.

Definition Number_of_BigInt (z : Z) : Z :=
  let a := Z.abs z in
  let bits := if a =? 0 then 0 else Z.log2 a + 1 in
  if bits <=? 53 then z
  else Z.sgn z * round_half_even a (bits - 53).

(* --------------------------------------------------------------------- *)
(** *** Typed arrays *)

(** [new Uint8Array(n)] *)
Definition Uint8Array_new (n : nat) : list Z := replicate n 0.

(** [a[i] = v] on a [Uint8Array]: the value is stored modulo 256; an index
    out of range is ignored. *)
Definition Uint8Array_set (i : nat) (v : Z) (a : list Z) : list Z :=
  <[i := v mod 256]> a.

(** The [n] low bytes of [z], least significant first. *)
Fixpoint le_bytes (n : nat) (z : Z) : list Z :=
  match n with
  | O => []
  | S k => Z.land z 255 :: le_bytes k (Z.shiftr z 8)
  end.

(** The unsigned value of a little-endian byte sequence. *)
Fixpoint le_value (bs : list Z) : Z :=
  match bs with
  | [] => 0
  | b :: r => b + 256 * le_value r
  end.

Fixpoint write_bytes (off : nat) (bs : list Z) (a : list Z) : list Z :=
  match bs with
  | [] => a
  | b :: r => write_bytes (S off) r (<[off := b]> a)
  end.

(** [new DataView(a.buffer, byteOffset, byteLength).setBigUint64(pos, v, true)]:
    the value is reduced modulo 2^64 (ToBigUint64) and stored little-endian;
    a position outside the view throws a [RangeError]. *)
Definition DataView_setBigUint64_le
    (byteOffset byteLength pos : nat) (v : Z) (a : list Z) : Res (list Z) :=
  if (pos + 8 <=? byteLength)%nat && (byteOffset + byteLength <=? length a)%nat
  then Ok (write_bytes (byteOffset + pos) (le_bytes 8 (v mod 2 ^ 64)) a)
  else Throw (mkJsError "RangeError" "Offset is outside the bounds of the DataView").

End Js.
Export Js.

(* ===================================================================== *)
(** ** JSON text *)
(* ===================================================================== *)

(** JSON values with integer numbers, their text as [JSON.stringify] writes
    it (no white space, members in insertion order), and a parser for JSON
    text whose numbers are integers.  Strings are sequences of 8-bit code
    units. *)
Module Json.

#[local] Unset Elimination Schemes.
Inductive json :=
| JNull
| JBool (b : bool)
| JNum (n : Z)
| JStr (s : string)
| JArr (l : list json)
| JObj (m : list (string * json)).
#[local] Set Elimination Schemes.

Definition dquote : ascii := "034"%char.
Definition backslash : ascii := "092"%char.

(* --------------------------------------------------------------------- *)
(** *** Writing *)

Definition hex_digit (n : nat) : ascii :=
  ascii_of_nat (if (n <? 10)%nat then 48 + n else 87 + n).

(** The escape of one code unit (QuoteJSONString). *)
Definition escape_char (c : ascii) (k : string) : string :=
  let n := nat_of_ascii c in
  if Ascii.eqb c dquote then String backslash (String dquote k)
  else if Ascii.eqb c backslash then String backslash (String backslash k)
  else if (n =? 8)%nat then String backslash (String "b" k)
  else if (n =? 9)%nat then String backslash (String "t" k)
  else if (n =? 10)%nat then String backslash (String "n" k)
  else if (n =? 12)%nat then String backslash (String "f" k)
  else if (n =? 13)%nat then String backslash (String "r" k)
  else if (n <? 32)%nat
  then String backslash (String "u" (String "0" (String "0"
         (String (hex_digit (n / 16)) (String (hex_digit (n mod 16)) k)))))
  else String c k.

Fixpoint escape (s : string) (k : string) : string :=
  match s with
  | EmptyString => k
  | String c r => escape_char c (escape r k)
  end.

(** The quoted string followed by [k]. *)
Definition emit_string (s : string) (k : string) : string :=
  String dquote (escape s (String dquote k)).

(** The decimal digits of an integer followed by [k]. *)
Definition emit_number (n : Z) (k : string) : string :=
  (DecimalString.NilEmpty.string_of_int (Z.to_int n) +:+ k)%string.

(** The text of a value followed by [k]. *)
Fixpoint emit (j : json) (k : string) : string :=
  match j with
  | JNull => String "n" (String "u" (String "l" (String "l" k)))
  | JBool true => String "t" (String "r" (String "u" (String "e" k)))
  | JBool false => String "f" (String "a" (String "l" (String "s" (String "e" k))))
  | JNum n => emit_number n k
  | JStr s => emit_string s k
  | JArr [] => String "[" (String "]" k)
  | JArr (x :: r) =>
      String "["
        (emit x
           ((fix emit_rest (l : list json) : string :=
               match l with
               | [] => String "]" k
               | y :: l' => String "," (emit y (emit_rest l'))
               end) r))
  | JObj [] => String "{" (String "}" k)
  | JObj ((key, x) :: r) =>
      String "{"
        (emit_string key (String ":"
           (emit x
              ((fix emit_rest (m : list (string * json)) : string :=
                  match m with
                  | [] => String "}" k
                  | (key', y) :: m' =>
                      String "," (emit_string key' (String ":" (emit y (emit_rest m'))))
                  end) r))))
  end.

(** The remaining elements of an array and its closing bracket: the inner
    loop of [emit] on arrays. *)
Fixpoint emit_elems (l : list json) (k : string) : string :=
  match l with
  | [] => String "]" k
  | y :: l' => String "," (emit y (emit_elems l' k))
  end.

(** The remaining members of an object and its closing brace. *)
Fixpoint emit_members (m : list (string * json)) (k : string) : string :=
  match m with
  | [] => String "}" k
  | (key, y) :: m' =>
      String "," (emit_string key (String ":" (emit y (emit_members m' k))))
  end.

(** [JSON.stringify(value)] *)
Definition stringify (j : json) : string := emit j "".

(* --------------------------------------------------------------------- *)
(** *** Reading *)

Definition is_json_ws (c : ascii) : bool :=
  let n := nat_of_ascii c in
  (n =? 32)%nat || (n =? 9)%nat || (n =? 10)%nat || (n =? 13)%nat.

Definition is_digit (c : ascii) : bool :=
  let n := nat_of_ascii c in (48 <=? n)%nat && (n <=? 57)%nat.

Definition digit_of (c : ascii) : option (Decimal.uint -> Decimal.uint) :=
  match nat_of_ascii c with
  | 48%nat => Some Decimal.D0 | 49%nat => Some Decimal.D1
  | 50%nat => Some Decimal.D2 | 51%nat => Some Decimal.D3
  | 52%nat => Some Decimal.D4 | 53%nat => Some Decimal.D5
  | 54%nat => Some Decimal.D6 | 55%nat => Some Decimal.D7
  | 56%nat => Some Decimal.D8 | 57%nat => Some Decimal.D9
  | _ => None
  end.

(** The longest prefix of decimal digits, and what follows it. *)
Fixpoint scan_uint (s : string) : Decimal.uint * string :=
  match s with
  | EmptyString => (Decimal.Nil, EmptyString)
  | String c r =>
      match digit_of c with
      | Some d => let '(u, rest) := scan_uint r in (d u, rest)
      | None => (Decimal.Nil, s)
      end
  end.

(** What may not follow the digits of an integer: more of a number. *)
Definition continues_number (s : string) : bool :=
  match s with
  | EmptyString => false
  | String c _ =>
      is_digit c || Ascii.eqb c "." || Ascii.eqb c "e" || Ascii.eqb c "E"
  end.

(** An integer without leading zeros; a fraction or an exponent is refused. *)
Definition parse_unsigned (s : string) : option (Z * string) :=
  let '(u, rest) := scan_uint s in
  if Decimal.uint_beq (Decimal.unorm u) u && negb (continues_number rest)
  then Some (Z.of_uint u, rest)
  else None.

Definition parse_number (s : string) : option (Z * string) :=
  match s with
  | String "-" r =>
      match parse_unsigned r with
      | Some (n, rest) => Some (- n, rest)
      | None => None
      end
  | _ => parse_unsigned s
  end.

Definition hex_val (c : ascii) : option nat :=
  let n := nat_of_ascii c in
  if (48 <=? n)%nat && (n <=? 57)%nat then Some (n - 48)%nat
  else if (97 <=? n)%nat && (n <=? 102)%nat then Some (n - 87)%nat
  else if (65 <=? n)%nat && (n <=? 70)%nat then Some (n - 55)%nat
  else None.

(** The code unit of [\uXXXX], when it fits 8 bits. *)
Definition unicode_escape (h1 h2 h3 h4 : ascii) : option ascii :=
  match hex_val h1, hex_val h2, hex_val h3, hex_val h4 with
  | Some a, Some b, Some c, Some d =>
      if ((a =? 0) && (b =? 0))%nat then Some (ascii_of_nat (16 * c + d)) else None
  | _, _, _, _ => None
  end.

Definition simple_escape (e : ascii) : option ascii :=
  if Ascii.eqb e dquote then Some dquote
  else if Ascii.eqb e backslash then Some backslash
  else if Ascii.eqb e "/" then Some "/"%char
  else if Ascii.eqb e "b" then Some "008"%char
  else if Ascii.eqb e "t" then Some "009"%char
  else if Ascii.eqb e "n" then Some "010"%char
  else if Ascii.eqb e "f" then Some "012"%char
  else if Ascii.eqb e "r" then Some "013"%char
  else None.

Definition cons_char (c : ascii) (r : option (string * string)) : option (string * string) :=
  match r with
  | Some (s, rest) => Some (String c s, rest)
  | None => None
  end.

(** The characters of a string up to its closing quote, and what follows. *)
Fixpoint parse_string_body (s : string) : option (string * string) :=
  match s with
  | EmptyString => None
  | String c r =>
      if Ascii.eqb c dquote then Some (EmptyString, r)
      else if Ascii.eqb c backslash then
        match r with
        | String e r' =>
            if Ascii.eqb e "u" then
              match r' with
              | String h1 (String h2 (String h3 (String h4 r''))) =>
                  match unicode_escape h1 h2 h3 h4 with
                  | Some ch => cons_char ch (parse_string_body r'')
                  | None => None
                  end
              | _ => None
              end
            else
              match simple_escape e with
              | Some ch => cons_char ch (parse_string_body r')
              | None => None
              end
        | EmptyString => None
        end
      else if (nat_of_ascii c <? 32)%nat then None
      else cons_char c (parse_string_body r)
  end.

Fixpoint strip_prefix (p s : string) : option string :=
  match p, s with
  | EmptyString, _ => Some s
  | String a p', String b s' => if Ascii.eqb a b then strip_prefix p' s' else None
  | String _ _, EmptyString => None
  end.

Definition literal (p : string) (j : json) (s : string) : option (json * string) :=
  match strip_prefix p s with
  | Some rest => Some (j, rest)
  | None => None
  end.

Fixpoint skip_ws (s : string) : string :=
  match s with
  | String c r => if is_json_ws c then skip_ws r else s
  | EmptyString => EmptyString
  end.

(** A value at the head of [s].  Every recursive call is on a shorter text,
    so [fuel] above the length of [s] is never exhausted. *)
Fixpoint parse_value (fuel : nat) (s : string) : option (json * string) :=
  match fuel with
  | O => None
  | S f =>
      match s with
      | EmptyString => None
      | String c r =>
          if is_digit c || Ascii.eqb c "-" then
            match parse_number s with
            | Some (n, rest) => Some (JNum n, rest)
            | None => None
            end
          else if is_json_ws c then parse_value f r
          else if Ascii.eqb c "n" then literal "ull" JNull r
          else if Ascii.eqb c "t" then literal "rue" (JBool true) r
          else if Ascii.eqb c "f" then literal "alse" (JBool false) r
          else if Ascii.eqb c dquote then
            match parse_string_body r with
            | Some (str, rest) => Some (JStr str, rest)
            | None => None
            end
          else if Ascii.eqb c "[" then
            match skip_ws r with
            | EmptyString => None
            | String c' r' =>
                if Ascii.eqb c' "]" then Some (JArr [], r')
                else
                  match parse_value f (String c' r') with
                  | Some (x, rest) =>
                      match parse_elems f rest with
                      | Some (l, rest') => Some (JArr (x :: l), rest')
                      | None => None
                      end
                  | None => None
                  end
            end
          else if Ascii.eqb c "{" then
            match skip_ws r with
            | EmptyString => None
            | String c' r' =>
                if Ascii.eqb c' "}" then Some (JObj [], r')
                else
                  match parse_member f (String c' r') with
                  | Some (kv, rest) =>
                      match parse_members f rest with
                      | Some (m, rest') => Some (JObj (kv :: m), rest')
                      | None => None
                      end
                  | None => None
                  end
            end
          else None
      end
  end

with parse_elems (fuel : nat) (s : string) : option (list json * string) :=
  match fuel with
  | O => None
  | S f =>
      match s with
      | EmptyString => None
      | String c r =>
          if is_json_ws c then parse_elems f r
          else if Ascii.eqb c "]" then Some ([], r)
          else if Ascii.eqb c "," then
            match parse_value f r with
            | Some (x, rest) =>
                match parse_elems f rest with
                | Some (l, rest') => Some (x :: l, rest')
                | None => None
                end
            | None => None
            end
          else None
      end
  end

with parse_member (fuel : nat) (s : string) : option ((string * json) * string) :=
  match fuel with
  | O => None
  | S f =>
      match s with
      | EmptyString => None
      | String c r =>
          if is_json_ws c then parse_member f r
          else if Ascii.eqb c dquote then
            match parse_string_body r with
            | Some (key, rest) =>
                match skip_ws rest with
                | EmptyString => None
                | String c' rest' =>
                    if Ascii.eqb c' ":" then
                      match parse_value f rest' with
                      | Some (x, rest'') => Some ((key, x), rest'')
                      | None => None
                      end
                    else None
                end
            | None => None
            end
          else None
      end
  end

with parse_members (fuel : nat) (s : string)
    : option (list (string * json) * string) :=
  match fuel with
  | O => None
  | S f =>
      match s with
      | EmptyString => None
      | String c r =>
          if is_json_ws c then parse_members f r
          else if Ascii.eqb c "}" then Some ([], r)
          else if Ascii.eqb c "," then
            match parse_member f r with
            | Some (kv, rest) =>
                match parse_members f rest with
                | Some (m, rest') => Some (kv :: m, rest')
                | None => None
                end
            | None => None
            end
          else None
      end
  end.

Fixpoint all_ws (s : string) : bool :=
  match s with
  | EmptyString => true
  | String c r => is_json_ws c && all_ws r
  end.

(** [JSON.parse(text)]: one value, then nothing but white space. *)
Definition parse (s : string) : option json :=
  match parse_value (S (String.length s)) s with
  | Some (j, rest) => if all_ws rest then Some j else None
  | None => None
  end.

(** [obj[key]] on a parsed object: the last member with that key. *)
Fixpoint member (key : string) (m : list (string * json)) : option json :=
  match m with
  | [] => None
  | (k, v) :: r =>
      match member key r with
      | Some v' => Some v'
      | None => if String.eqb k key then Some v else None
      end
  end.

(** Induction on JSON values, through the lists of arrays and objects. *)
Section JsonInd.

Variable P : json -> Prop.
Hypothesis Hnull : P JNull.
Hypothesis Hbool : forall b, P (JBool b).
Hypothesis Hnum : forall n, P (JNum n).
Hypothesis Hstr : forall s, P (JStr s).
Hypothesis Harr : forall l, Forall P l -> P (JArr l).
Hypothesis Hobj : forall m, Forall (fun kv => P (snd kv)) m -> P (JObj m).

Fixpoint json_ind (j : json) : P j :=
  match j with
  | JNull => Hnull
  | JBool b => Hbool b
  | JNum n => Hnum n
  | JStr s => Hstr s
  | JArr l =>
      Harr l ((fix all (l : list json) : Forall P l :=
                 match l with
                 | [] => List.Forall_nil P
                 | x :: r => @List.Forall_cons _ P x r (json_ind x) (all r)
                 end) l)
  | JObj m =>
      Hobj m ((fix all (m : list (string * json)) : Forall (fun kv => P (snd kv)) m :=
                 match m with
                 | [] => List.Forall_nil _
                 | kv :: r => @List.Forall_cons _ _ kv r (json_ind (snd kv)) (all r)
                 end) m)
  end.

End JsonInd.

(** What is written for [j] is longer than what follows it, and reads back
    as [j] followed by the rest. *)
Definition reads_back (j : json) : Prop :=
  forall k,
    (String.length k < String.length (emit j k))%nat /\
    forall fuel,
      continues_number k = false ->
      (String.length (emit j k) < fuel)%nat ->
      parse_value fuel (emit j k) = Some (j, k).

End Json.

(* ===================================================================== *)
(** ** Transactions, requests and events *)
(* ===================================================================== *)

Definition Address := string.
Definition Network := string.

(** A partial signer: only its address is visible to the client code; the
    signing itself happens inside the library call recorded by [EvSign]. *)
Record TransactionSigner := mkSigner { signer_address : Address }.

(** An account of an instruction.  [am_role] is the numeric role written in
    the source; [am_signer] is the signer object attached to the account,
    when there is one. *)
Record AccountMeta := mkAccountMeta {
  am_address : Address;
  am_role : Z;
  am_signer : option TransactionSigner
}.

Record Instruction := mkInstruction {
  ix_programAddress : Address;
  ix_accounts : list AccountMeta;
  ix_data : list Z
}.

(** The value of [rpc.getLatestBlockhash().send()]. *)
Record LatestBlockhash := mkLatestBlockhash {
  lb_blockhash : string;
  lb_lastValidBlockHeight : Z
}.

(** The fee payer slot of a transaction message: an address, with a signer
    only when the message was given one. *)
Record FeePayer := mkFeePayer {
  fp_address : Address;
  fp_signer : option TransactionSigner
}.

Record TransactionMessage := mkTransactionMessage {
  tm_version : Z;
  tm_feePayer : option FeePayer;
  tm_lifetime : option LatestBlockhash;
  tm_instructions : list Instruction
}.

(** [createTransactionMessage({ version })] *)
Definition createTransactionMessage (version : Z) : TransactionMessage :=
  mkTransactionMessage version None None [].

(** [setTransactionMessageFeePayer(address, tx)]: sets the address only. *)
Definition setTransactionMessageFeePayer
    (a : Address) (tx : TransactionMessage) : TransactionMessage :=
  mkTransactionMessage (tm_version tx) (Some (mkFeePayer a None))
    (tm_lifetime tx) (tm_instructions tx).

Definition setTransactionMessageLifetimeUsingBlockhash
    (b : LatestBlockhash) (tx : TransactionMessage) : TransactionMessage :=
  mkTransactionMessage (tm_version tx) (tm_feePayer tx) (Some b)
    (tm_instructions tx).

Definition appendTransactionMessageInstruction
    (ix : Instruction) (tx : TransactionMessage) : TransactionMessage :=
  mkTransactionMessage (tm_version tx) (tm_feePayer tx) (tm_lifetime tx)
    (tm_instructions tx ++ [ix]).

(** A compiled transaction with the signatures collected so far: a missing
    key reads as [undefined], [None] under a key is [null]. *)
Record Transaction := mkTransaction {
  tx_message : TransactionMessage;
  tx_signatures : gmap Address (option (list Z))
}.

Record RpcClient := mkRpcClient { rpc_endpoint : string }.

Record HttpRequest := mkHttpRequest {
  http_url : string;
  http_method : string;
  http_headers : list (string * string);
  http_body : string
}.

(** What a call does that is visible outside the process. *)
Inductive Event :=
| EvFetchMint (rpc : RpcClient) (mint : Address)
| EvFetchEncodedAccount (rpc : RpcClient) (account : Address)
| EvGetLatestBlockhash (rpc : RpcClient)
| EvSign (msg : TransactionMessage)
| EvFetch (req : HttpRequest)
| EvImport (module : string).

Definition is_network (ev : Event) : bool :=
  match ev with
  | EvFetchMint _ _ | EvFetchEncodedAccount _ _ | EvGetLatestBlockhash _
  | EvFetch _ => true
  | EvSign _ | EvImport _ => false
  end.

Definition is_signing (ev : Event) : bool :=
  match ev with EvSign _ => true | _ => false end.

Definition quiet (tr : list Event) : bool :=
  forallb (fun ev => negb (is_network ev || is_signing ev)) tr.

(* ===================================================================== *)
(** ** The monad of asynchronous calls *)
(* ===================================================================== *)

(** A computation: the trace of its events and its outcome. *)
Definition M (A : Type) : Type := (list Event * Res A)%type.

Definition trace {A} (m : M A) : list Event := fst m.
Definition outcome {A} (m : M A) : Res A := snd m.

#[global] Instance M_ret : MRet M := fun A a => ([], Ok a).
#[global] Instance M_bind : MBind M := fun A B f m =>
  match m with
  | (t, Ok a) => let r := f a in (t ++ fst r, snd r)
  | (t, Throw e) => (t, Throw e)
  end.

Definition throw {A} (e : JsError) : M A := ([], Throw e).

(** A library call without externally visible activity. *)
Definition lift {A} (r : Res A) : M A := ([], r).

(** A library call that performs the activity [ev]. *)
Definition perform {A} (ev : Event) (r : Res A) : M A := ([ev], r).


(* ===================================================================== *)
(** ** Protocol types (types/verify) *)
(* ===================================================================== *)

(** [extra] is an untyped record in the sources; the entries read by the
    SVM client are cast to [string], so it is a finite map to strings. *)
Record PaymentRequirements := mkPaymentRequirements {
  scheme : string;
  network : Network;
  asset : string;
  payTo : string;
  maxAmountRequired : string;
  resource : string;
  srcNetwork : option Network;
  srcTokenAddress : option string;
  srcAmountRequired : option string;
  extra : option (gmap string string)
}.

(** [paymentRequirements.extra?.key] *)
Definition extra_get (key : string) (req : PaymentRequirements) : option string :=
  match extra req with
  | Some m => m !! key
  | None => None
  end.

Record QuoteData := mkQuoteData {
  paymentAmount : string;
  facilitatorAddress : string;
  feePayerAddress : string
}.

Record QuoteResponse := mkQuoteResponse {
  success : bool;
  data : option QuoteData
}.

Record SvmConfig := mkSvmConfig { rpcUrl : option string }.
Record X402Config := mkX402Config { svmConfig : option SvmConfig }.

(** [config?.svmConfig?.rpcUrl] *)
Definition config_rpcUrl (config : option X402Config) : option string :=
  match config with
  | Some c => match svmConfig c with Some s => rpcUrl s | None => None end
  | None => None
  end.

Record SolanaApproval := mkSolanaApproval {
  approval_owner : Address;
  approval_delegate : string;
  approval_tokenAccount : Address;
  approval_tokenMint : string;
  approval_value : string;
  approval_serializedTransaction : string;
  approval_blockhash : string;
  approval_lastValidBlockHeight : Z
}.

Record ExactSolanaApprovalPayload := mkApprovalPayload {
  ap_signature : string;
  ap_approval : SolanaApproval
}.

Record SolanaTransfer := mkSolanaTransfer {
  transfer_owner : Address;
  transfer_destination : string;
  transfer_value : string;
  transfer_serializedTransaction : string;
  transfer_blockhash : string;
  transfer_lastValidBlockHeight : Z
}.

Record ExactSolanaNativePayload := mkNativePayload {
  np_signature : string;
  np_transfer : SolanaTransfer
}.

(** Modelled from the spec: the authorization-signature payload of the
    first "exact" scheme, whose type declaration is not among the sources:
    a signature over a transfer authorization that binds payer, payee,
    amount, validity window and a single-use nonce. *)
Record TransferAuthorization := mkTransferAuthorization {
  auth_from : string;
  auth_to : string;
  auth_value : string;
  auth_validAfter : string;
  auth_validBefore : string;
  auth_nonce : string
}.

Record ExactAuthorizationPayload := mkAuthorizationPayload {
  au_signature : string;
  au_authorization : TransferAuthorization
}.

(** The scheme-typed variant carried by a payment payload. *)
Inductive SchemePayload :=
| AuthorizationPayload (p : ExactAuthorizationPayload)
| ApprovalPayload (p : ExactSolanaApprovalPayload)
| NativePayload (p : ExactSolanaNativePayload).

Record PaymentPayload := mkPaymentPayload {
  x402Version : Z;
  pp_scheme : string;
  pp_network : Network;
  pp_payload : SchemePayload
}.

(* ===================================================================== *)
(** ** Base64 *)
(* ===================================================================== *)

(** The standard alphabet with [=] padding, on strings of 8-bit code units.
    A group of six bits is written most significant bit first. *)
Module Base64.

Definition bit (b : bool) : nat := if b then 1%nat else 0%nat.

Definition sextet_index (b5 b4 b3 b2 b1 b0 : bool) : nat :=
  (32 * bit b5 + 16 * bit b4 + 8 * bit b3 + 4 * bit b2 + 2 * bit b1 + bit b0)%nat.

(** [A-Z], [a-z], [0-9], [+], [/] *)
Definition alphabet (n : nat) : ascii :=
  if (n <? 26)%nat then ascii_of_nat (65 + n)
  else if (n <? 52)%nat then ascii_of_nat (71 + n)
  else if (n <? 62)%nat then ascii_of_nat (n - 4)
  else if (n =? 62)%nat then "+"%char
  else "/"%char.

Definition alphabet_index (c : ascii) : option nat :=
  let n := nat_of_ascii c in
  if (65 <=? n)%nat && (n <=? 90)%nat then Some (n - 65)%nat
  else if (97 <=? n)%nat && (n <=? 122)%nat then Some (n - 71)%nat
  else if (48 <=? n)%nat && (n <=? 57)%nat then Some (n + 4)%nat
  else if (n =? 43)%nat then Some 62%nat
  else if (n =? 47)%nat then Some 63%nat
  else None.

Definition sextet_char (b5 b4 b3 b2 b1 b0 : bool) : ascii :=
  alphabet (sextet_index b5 b4 b3 b2 b1 b0).

Definition Sextet : Type := (bool * bool * bool * bool * bool * bool)%type.

Definition char_sextet (c : ascii) : option Sextet :=
  match alphabet_index c with
  | Some n =>
      Some (Nat.testbit n 5, Nat.testbit n 4, Nat.testbit n 3,
            Nat.testbit n 2, Nat.testbit n 1, Nat.testbit n 0)
  | None => None
  end.

Definition pad : ascii := "="%char.

Fixpoint encode (s : string) : string :=
  match s with
  | EmptyString => EmptyString
  | String (Ascii a0 a1 a2 a3 a4 a5 a6 a7) EmptyString =>
      String (sextet_char a7 a6 a5 a4 a3 a2)
        (String (sextet_char a1 a0 false false false false)
           (String pad (String pad EmptyString)))
  | String (Ascii a0 a1 a2 a3 a4 a5 a6 a7)
      (String (Ascii b0 b1 b2 b3 b4 b5 b6 b7) EmptyString) =>
      String (sextet_char a7 a6 a5 a4 a3 a2)
        (String (sextet_char a1 a0 b7 b6 b5 b4)
           (String (sextet_char b3 b2 b1 b0 false false)
              (String pad EmptyString)))
  | String (Ascii a0 a1 a2 a3 a4 a5 a6 a7)
      (String (Ascii b0 b1 b2 b3 b4 b5 b6 b7)
         (String (Ascii c0 c1 c2 c3 c4 c5 c6 c7) r)) =>
      String (sextet_char a7 a6 a5 a4 a3 a2)
        (String (sextet_char a1 a0 b7 b6 b5 b4)
           (String (sextet_char b3 b2 b1 b0 c7 c6)
              (String (sextet_char c5 c4 c3 c2 c1 c0) (encode r))))
  end.

Definition is_empty (s : string) : bool :=
  match s with EmptyString => true | String _ _ => false end.

Definition byte1 (s1 s2 : Sextet) : ascii :=
  let '(x5, x4, x3, x2, x1, x0) := s1 in
  let '(y5, y4, _, _, _, _) := s2 in
  Ascii y4 y5 x0 x1 x2 x3 x4 x5.

Definition byte2 (s2 s3 : Sextet) : ascii :=
  let '(_, _, y3, y2, y1, y0) := s2 in
  let '(z5, z4, z3, z2, _, _) := s3 in
  Ascii z2 z3 z4 z5 y0 y1 y2 y3.

Definition byte3 (s3 s4 : Sextet) : ascii :=
  let '(_, _, _, _, z1, z0) := s3 in
  let '(w5, w4, w3, w2, w1, w0) := s4 in
  Ascii w0 w1 w2 w3 w4 w5 z0 z1.

(** Groups of four characters; padding is accepted in the last group only,
    and any other character outside the alphabet is refused. *)
Fixpoint decode (s : string) : option string :=
  match s with
  | EmptyString => Some EmptyString
  | String c1 (String c2 (String c3 (String c4 r))) =>
      match char_sextet c1, char_sextet c2 with
      | Some s1, Some s2 =>
          match char_sextet c3, char_sextet c4 with
          | Some s3, Some s4 =>
              match decode r with
              | Some t =>
                  Some (String (byte1 s1 s2)
                          (String (byte2 s2 s3) (String (byte3 s3 s4) t)))
              | None => None
              end
          | Some s3, None =>
              if Ascii.eqb c4 pad && is_empty r
              then Some (String (byte1 s1 s2) (String (byte2 s2 s3) EmptyString))
              else None
          | None, _ =>
              if Ascii.eqb c3 pad && Ascii.eqb c4 pad && is_empty r
              then Some (String (byte1 s1 s2) EmptyString)
              else None
          end
      | _, _ => None
      end
  | _ => None
  end.

End Base64.

(* ===================================================================== *)
(** ** The wire encoding of a payment payload *)
(* ===================================================================== *)

Module Wire.

Import Json.

Definition authorization_json (a : TransferAuthorization) : json :=
  JObj [ ("from", JStr (auth_from a));
         ("to", JStr (auth_to a));
         ("value", JStr (auth_value a));
         ("validAfter", JStr (auth_validAfter a));
         ("validBefore", JStr (auth_validBefore a));
         ("nonce", JStr (auth_nonce a)) ].

Definition approval_json (a : SolanaApproval) : json :=
  JObj [ ("owner", JStr (approval_owner a));
         ("delegate", JStr (approval_delegate a));
         ("tokenAccount", JStr (approval_tokenAccount a));
         ("tokenMint", JStr (approval_tokenMint a));
         ("value", JStr (approval_value a));
         ("serializedTransaction", JStr (approval_serializedTransaction a));
         ("blockhash", JStr (approval_blockhash a));
         ("lastValidBlockHeight", JNum (approval_lastValidBlockHeight a)) ].

Definition transfer_json (t : SolanaTransfer) : json :=
  JObj [ ("owner", JStr (transfer_owner t));
         ("destination", JStr (transfer_destination t));
         ("value", JStr (transfer_value t));
         ("serializedTransaction", JStr (transfer_serializedTransaction t));
         ("blockhash", JStr (transfer_blockhash t));
         ("lastValidBlockHeight", JNum (transfer_lastValidBlockHeight t)) ].

Definition scheme_payload_json (p : SchemePayload) : json :=
  match p with
  | AuthorizationPayload a =>
      JObj [ ("signature", JStr (au_signature a));
             ("authorization", authorization_json (au_authorization a)) ]
  | ApprovalPayload a =>
      JObj [ ("signature", JStr (ap_signature a));
             ("approval", approval_json (ap_approval a)) ]
  | NativePayload n =>
      JObj [ ("signature", JStr (np_signature n));
             ("transfer", transfer_json (np_transfer n)) ]
  end.

(** The object that [JSON.stringify] sees: the members of the payload in
    the order in which the builders write them. *)
Definition toJSON (p : PaymentPayload) : json :=
  JObj [ ("x402Version", JNum (x402Version p));
         ("scheme", JStr (pp_scheme p));
         ("network", JStr (pp_network p));
         ("payload", scheme_payload_json (pp_payload p)) ].

Definition str_member (key : string) (m : list (string * json)) : option string :=
  match member key m with
  | Some (JStr s) => Some s
  | _ => None
  end.

Definition num_member (key : string) (m : list (string * json)) : option Z :=
  match member key m with
  | Some (JNum n) => Some n
  | _ => None
  end.

Definition obj_member (key : string) (m : list (string * json))
    : option (list (string * json)) :=
  match member key m with
  | Some (JObj o) => Some o
  | _ => None
  end.

Definition authorization_of (m : list (string * json)) : option TransferAuthorization :=
  f ← str_member "from" m; t ← str_member "to" m; v ← str_member "value" m;
  va ← str_member "validAfter" m; vb ← str_member "validBefore" m;
  n ← str_member "nonce" m;
  Some (mkTransferAuthorization f t v va vb n).

Definition approval_of (m : list (string * json)) : option SolanaApproval :=
  o ← str_member "owner" m; d ← str_member "delegate" m;
  ta ← str_member "tokenAccount" m; tm ← str_member "tokenMint" m;
  v ← str_member "value" m; st ← str_member "serializedTransaction" m;
  b ← str_member "blockhash" m; h ← num_member "lastValidBlockHeight" m;
  Some (mkSolanaApproval o d ta tm v st b h).

Definition transfer_of (m : list (string * json)) : option SolanaTransfer :=
  o ← str_member "owner" m; d ← str_member "destination" m;
  v ← str_member "value" m; st ← str_member "serializedTransaction" m;
  b ← str_member "blockhash" m; h ← num_member "lastValidBlockHeight" m;
  Some (mkSolanaTransfer o d v st b h).

(** The variant is recognised by the one of [authorization], [approval] and
    [transfer] that the payload carries; any other shape is refused. *)
Definition scheme_payload_of (m : list (string * json)) : option SchemePayload :=
  sig ← str_member "signature" m;
  match obj_member "authorization" m, obj_member "approval" m,
        obj_member "transfer" m with
  | Some a, None, None =>
      a' ← authorization_of a; Some (AuthorizationPayload (mkAuthorizationPayload sig a'))
  | None, Some a, None =>
      a' ← approval_of a; Some (ApprovalPayload (mkApprovalPayload sig a'))
  | None, None, Some t =>
      t' ← transfer_of t; Some (NativePayload (mkNativePayload sig t'))
  | _, _, _ => None
  end.

Definition fromJSON (j : json) : option PaymentPayload :=
  match j with
  | JObj m =>
      v ← num_member "x402Version" m; s ← str_member "scheme" m;
      n ← str_member "network" m; pm ← obj_member "payload" m;
      p ← scheme_payload_of pm;
      Some (mkPaymentPayload v s n p)
  | _ => None
  end.

(** Modelled from the spec: [encodePayment] of [schemes/utils], which is
    not among the sources: the value of the [X-PAYMENT] header is the base64
    of the JSON text of the payment payload. *)
Definition encodePayment (p : PaymentPayload) : string :=
  Base64.encode (stringify (toJSON p)).

(** Modelled from the spec: the decoder of the [X-PAYMENT] header, which is
    not among the sources: base64-decode, parse the JSON text, and read the
    payload against the shape of its variant. *)
Definition decodePayment (header : string) : option PaymentPayload :=
  text ← Base64.decode header; j ← parse text; fromJSON j.

End Wire.

(* ===================================================================== *)
(** ** Imported packages *)
(* ===================================================================== *)

Definition TOKEN_PROGRAM_ADDRESS : Address :=
  "TokenkegQfeZyiNwAJbNbGKPFXCWuBvf9Ss623VQ5DA".
Definition TOKEN_2022_PROGRAM_ADDRESS : Address :=
  "TokenzQdBNbLqP5VEhdkAS6EPFLC1PHnBqCXEpPxuEb".

Record Mint := mkMint { programAddress : Address }.
Record MaybeEncodedAccount := mkMaybeAccount { exists_ : bool }.

Record PdaSeeds := mkPdaSeeds {
  seed_mint : Address;
  seed_owner : Address;
  seed_tokenProgram : Address
}.

Record ApproveInput := mkApproveInput {
  approve_account : Address;
  approve_delegate : Address;
  approve_owner : TransactionSigner;
  approve_amount : Z
}.

(** The functions imported from [@solana/kit], [@solana-program/token],
    [@solana-program/token-2022], [@scure/base] and [shared/svm/rpc], and the
    replies of the RPC node and of the wallet. *)
Record Env := mkEnv {
  getRpcClient : Network -> option string -> Res RpcClient;
  fetchMint : RpcClient -> Address -> Res Mint;
  findAssociatedTokenPda : PdaSeeds -> Res (Address * Z);
  findAssociatedTokenPda2022 : PdaSeeds -> Res (Address * Z);
  fetchEncodedAccount : RpcClient -> Address -> Res MaybeEncodedAccount;
  getApproveInstruction2022 : ApproveInput -> Address -> Res Instruction;
  getLatestBlockhash : RpcClient -> Res LatestBlockhash;
  partiallySignTransactionMessageWithSigners : TransactionMessage -> Res Transaction;
  getBase64EncodedWireTransaction : Transaction -> string;
  base58_encode : list Z -> string
}.

(* ===================================================================== *)
(** ** schemes/exact/svm/gasless-client *)
(* ===================================================================== *)

Definition SYSTEM_PROGRAM_ADDRESS : Address := "11111111111111111111111111111111".
Definition NATIVE_SOL_ADDRESS : string := "11111111111111111111111111111111".

Definition invalid_quote_response : JsError := Error "Invalid quote response".
Definition unknown_token_program : JsError :=
  Error "Asset was not created by a known token program".
Definition no_token_account : JsError :=
  Error "User does not have a token account for this asset".
Definition no_user_signature : JsError :=
  Error "Failed to get user's signature from transaction".
Definition fee_payer_required : JsError :=
  Error "feePayer is required in paymentRequirements.extra for gasless transactions".

(** [partiallySignedTransaction.signatures[address]], [None] when the entry
    is [undefined] or [null]. *)
Definition signature_of (tx : Transaction) (a : Address) : option (list Z) :=
  match tx_signatures tx !! a with
  | Some (Some sig) => Some sig
  | _ => None
  end.

(** The signers that a message carries: the signer of its fee payer slot,
    when it has one, and the signer objects attached to the accounts of its
    instructions. *)
Definition attached_signers (m : TransactionMessage) : list TransactionSigner :=
  match tm_feePayer m with
  | Some fp => option_list (fp_signer fp)
  | None => []
  end ++
  flat_map (fun ix => omap am_signer (ix_accounts ix)) (tm_instructions m).

(** The discipline of [partiallySignTransactionMessageWithSigners]: the
    library signs with the signers that it finds in the message, and it has
    no other; a signature is present only under the address of one of them. *)
Definition signs_attached_only (env : Env) : Prop :=
  forall m tx a sig,
    partiallySignTransactionMessageWithSigners env m = Ok tx ->
    signature_of tx a = Some sig ->
    exists s, In s (attached_signers m) /\ signer_address s = a.

(** The transaction message of a gasless payment: version 0, fee payer,
    lifetime, then the single instruction (the [pipe] of the source). *)
Definition gaslessTransactionMessage
    (feePayer : Address) (latestBlockhash : LatestBlockhash) (ix : Instruction)
    : TransactionMessage :=
  appendTransactionMessageInstruction ix
    (setTransactionMessageLifetimeUsingBlockhash latestBlockhash
       (setTransactionMessageFeePayer feePayer
          (createTransactionMessage 0))).

(** The 12 bytes built by [createGaslessNativePayment]: a zeroed array, four
    stores at indexes 0 to 3, and a little-endian 64-bit store in the view
    over bytes 4 to 11. *)
Definition transferInstructionData (lamports : Z) : Res (list Z) :=
  let a0 := Uint8Array_new 12 in
  let a1 := Uint8Array_set 0 2 a0 in
  let a2 := Uint8Array_set 1 0 a1 in
  let a3 := Uint8Array_set 2 0 a2 in
  let a4 := Uint8Array_set 3 0 a3 in
  DataView_setBigUint64_le 4 8 0 lamports a4.

(** The instruction literal of the source.  The roles are the numbers
    written there: 0 for the payer (annotated there as signer and writable)
    and 1 for the recipient; no signer object is attached to an account. *)
Definition transferInstruction
    (from to : Address) (data : list Z) : Instruction :=
  {| ix_programAddress := SYSTEM_PROGRAM_ADDRESS;
     ix_accounts := [ mkAccountMeta from 0 None; mkAccountMeta to 1 None ];
     ix_data := data |}.

Section GaslessClient.

Variable env : Env.
Variable encodePayment : PaymentPayload -> string.

Definition createGaslessApprovalPayment
    (client : TransactionSigner) (version : Z)
    (paymentRequirements : PaymentRequirements)
    (quoteResponse : QuoteResponse) (config : option X402Config)
    : M PaymentPayload :=
  (* if (!quoteResponse.success || !quoteResponse.data) throw ... *)
  match success quoteResponse, data quoteResponse with
  | true, Some d =>
      let paymentAmount := paymentAmount d in
      let facilitatorAddress := facilitatorAddress d in
      let feePayerAddress := feePayerAddress d in
      rpc ← lift (getRpcClient env (network paymentRequirements) (config_rpcUrl config));
      tokenMint ← perform (EvFetchMint rpc (asset paymentRequirements))
                          (fetchMint env rpc (asset paymentRequirements));
      let tokenProgramAddress := programAddress tokenMint in
      if negb (String.eqb tokenProgramAddress TOKEN_PROGRAM_ADDRESS) &&
         negb (String.eqb tokenProgramAddress TOKEN_2022_PROGRAM_ADDRESS)
      then throw unknown_token_program
      else
        let seeds := mkPdaSeeds (asset paymentRequirements) (signer_address client)
                                tokenProgramAddress in
        pda ← lift (if String.eqb tokenProgramAddress TOKEN_PROGRAM_ADDRESS
                    then findAssociatedTokenPda env seeds
                    else findAssociatedTokenPda2022 env seeds);
        let userTokenAccount := fst pda in
        maybeAccount ← perform (EvFetchEncodedAccount rpc userTokenAccount)
                               (fetchEncodedAccount env rpc userTokenAccount);
        if negb (exists_ maybeAccount) then throw no_token_account
        else
          amount ← lift (BigInt paymentAmount);
          approvalInstruction ←
            lift (getApproveInstruction2022 env
                    (mkApproveInput userTokenAccount facilitatorAddress client amount)
                    tokenProgramAddress);
          latestBlockhash ← perform (EvGetLatestBlockhash rpc)
                                    (getLatestBlockhash env rpc);
          let transactionMessage :=
            gaslessTransactionMessage feePayerAddress latestBlockhash
              approvalInstruction in
          partiallySignedTransaction ←
            perform (EvSign transactionMessage)
              (partiallySignTransactionMessageWithSigners env transactionMessage);
          let serializedTransaction :=
            getBase64EncodedWireTransaction env partiallySignedTransaction in
          match signature_of partiallySignedTransaction (signer_address client) with
          | None => throw no_user_signature
          | Some userSignature =>
              let approvalPayload :=
                {| ap_signature := base58_encode env userSignature;
                   ap_approval :=
                     {| approval_owner := signer_address client;
                        approval_delegate := facilitatorAddress;
                        approval_tokenAccount := userTokenAccount;
                        approval_tokenMint := asset paymentRequirements;
                        approval_value := paymentAmount;
                        approval_serializedTransaction := serializedTransaction;
                        approval_blockhash := lb_blockhash latestBlockhash;
                        approval_lastValidBlockHeight :=
                          Number_of_BigInt (lb_lastValidBlockHeight latestBlockhash) |} |} in
              mret {| x402Version := version;
                      pp_scheme := scheme paymentRequirements;
                      pp_network := network paymentRequirements;
                      pp_payload := ApprovalPayload approvalPayload |}
          end
  | _, _ => throw invalid_quote_response
  end.

Definition createGaslessNativePayment
    (client : TransactionSigner) (version : Z)
    (paymentRequirements : PaymentRequirements)
    (quoteResponse : QuoteResponse) (config : option X402Config)
    : M PaymentPayload :=
  (* if (!quoteResponse.success || !quoteResponse.data) throw ... *)
  match success quoteResponse, data quoteResponse with
  | true, Some d =>
      let paymentAmount := paymentAmount d in
      let facilitatorAddress := facilitatorAddress d in
      let feePayerAddress := feePayerAddress d in
      rpc ← lift (getRpcClient env (network paymentRequirements) (config_rpcUrl config));
      lamports ← lift (BigInt paymentAmount);
      transferInstructionData ← lift (transferInstructionData lamports);
      let transferInstruction :=
        transferInstruction (signer_address client) facilitatorAddress
          transferInstructionData in
      latestBlockhash ← perform (EvGetLatestBlockhash rpc)
                                (getLatestBlockhash env rpc);
      let transactionMessage :=
        gaslessTransactionMessage feePayerAddress latestBlockhash
          transferInstruction in
      partiallySignedTransaction ←
        perform (EvSign transactionMessage)
          (partiallySignTransactionMessageWithSigners env transactionMessage);
      let serializedTransaction :=
        getBase64EncodedWireTransaction env partiallySignedTransaction in
      match signature_of partiallySignedTransaction (signer_address client) with
      | None => throw no_user_signature
      | Some userSignature =>
          let transferPayload :=
            {| np_signature := base58_encode env userSignature;
               np_transfer :=
                 {| transfer_owner := signer_address client;
                    transfer_destination := facilitatorAddress;
                    transfer_value := paymentAmount;
                    transfer_serializedTransaction := serializedTransaction;
                    transfer_blockhash := lb_blockhash latestBlockhash;
                    transfer_lastValidBlockHeight :=
                      Number_of_BigInt (lb_lastValidBlockHeight latestBlockhash) |} |} in
          mret {| x402Version := version;
                  pp_scheme := scheme paymentRequirements;
                  pp_network := network paymentRequirements;
                  pp_payload := NativePayload transferPayload |}
      end
  | _, _ => throw invalid_quote_response
  end.

Definition createGaslessApprovalPaymentHeader
    (client : TransactionSigner) (version : Z)
    (paymentRequirements : PaymentRequirements)
    (quoteResponse : QuoteResponse) (config : option X402Config) : M string :=
  paymentPayload ← createGaslessApprovalPayment client version
                     paymentRequirements quoteResponse config;
  mret (encodePayment paymentPayload).

Definition createGaslessNativePaymentHeader
    (client : TransactionSigner) (version : Z)
    (paymentRequirements : PaymentRequirements)
    (quoteResponse : QuoteResponse) (config : option X402Config) : M string :=
  paymentPayload ← createGaslessNativePayment client version
                     paymentRequirements quoteResponse config;
  mret (encodePayment paymentPayload).

Definition createGaslessPaymentHeader
    (client : TransactionSigner) (version : Z)
    (paymentRequirements : PaymentRequirements)
    (facilitatorAddress : string) (config : option X402Config) : M string :=
  let isNativeSOL := String.eqb (asset paymentRequirements) NATIVE_SOL_ADDRESS in
  let feePayerAddress := extra_get "feePayer" paymentRequirements in
  let paymentAmount := maxAmountRequired paymentRequirements in
  match feePayerAddress with
  | Some feePayerAddress =>
      if String.eqb feePayerAddress "" then throw fee_payer_required
      else
        let quoteResponse :=
          {| success := true;
             data := Some {| paymentAmount := paymentAmount;
                             facilitatorAddress := facilitatorAddress;
                             feePayerAddress := feePayerAddress |} |} in
        if isNativeSOL
        then createGaslessNativePaymentHeader client version
               paymentRequirements quoteResponse config
        else createGaslessApprovalPaymentHeader client version
               paymentRequirements quoteResponse config
  | None => throw fee_payer_required
  end.

(* --------------------------------------------------------------------- *)
(** *** schemes/exact/svm/client *)

Definition facilitator_address_required : JsError :=
  Error ("SVM requires facilitatorAddress in paymentRequirements.extra. " +:+
         "The server must call /x402/quote to get this value. " +:+
         "Only gasless transactions are supported for SVM.").

Definition createPaymentHeader
    (client : TransactionSigner) (version : Z)
    (paymentRequirements : PaymentRequirements)
    (config : option X402Config) : M string :=
  let facilitatorAddress := extra_get "facilitatorAddress" paymentRequirements in
  match facilitatorAddress with
  | Some facilitatorAddress =>
      if String.eqb facilitatorAddress "" then throw facilitator_address_required
      else
        _ ← perform (EvImport "./gasless-client") (Ok tt);
        createGaslessPaymentHeader client version paymentRequirements
          facilitatorAddress config
  | None => throw facilitator_address_required
  end.

End GaslessClient.

(* ===================================================================== *)
(** ** client/getPaymentQuote *)
(* ===================================================================== *)

(** The outcome of reading the body of a response: the text, or a failure
    of the connection while the body is read (a [TypeError]). *)
Inductive BodyRead :=
| BodyText (text : string)
| BodyFailed (message : string).

Record Response := mkResponse {
  resp_status : Z;
  resp_body : BodyRead
}.

(** [response.ok] *)
Definition response_ok (r : Response) : bool :=
  (200 <=? resp_status r) && (resp_status r <=? 299).

(** The outcome of [fetch]: a response with any status, or a network error,
    on which the promise is rejected with a [TypeError]. *)
Inductive FetchReply :=
| Responded (r : Response)
| NetworkError (message : string).

Definition TypeError (message : string) : JsError := mkJsError "TypeError" message.

(** The network and [JSON.parse], whose result type is left open. *)
Record HttpEnv (JsValue : Type) := mkHttpEnv {
  fetch : HttpRequest -> FetchReply;
  JSON_parse : string -> Res JsValue
}.
Arguments fetch {JsValue} _ _.
Arguments JSON_parse {JsValue} _ _.

(** The decimal text of an integer, as a template literal prints it. *)
Definition string_of_Z (n : Z) : string :=
  DecimalString.NilEmpty.string_of_int (Z.to_int n).

(** [response.text()] *)
Definition response_text (r : Response) : Res string :=
  match resp_body r with
  | BodyText s => Ok s
  | BodyFailed m => Throw (TypeError m)
  end.

(** [response.json()] *)
Definition response_json {JsValue} (env : HttpEnv JsValue) (r : Response) : Res JsValue :=
  match resp_body r with
  | BodyText s => JSON_parse env s
  | BodyFailed m => Throw (TypeError m)
  end.

(** The [QuoteRequest] object literal of the source. *)
Definition quoteRequest
    (srcTokenAddress : string) (srcNetwork : Network)
    (dstTokenAddress : string) (dstNetwork : Network) (dstAmount : string)
    : Json.json :=
  Json.JObj [ ("srcTokenAddress", Json.JStr srcTokenAddress);
              ("srcNetwork", Json.JStr srcNetwork);
              ("dstTokenAddress", Json.JStr dstTokenAddress);
              ("dstNetwork", Json.JStr dstNetwork);
              ("dstAmount", Json.JStr dstAmount) ].

(** The request that [getPaymentQuote] hands to [fetch]. *)
Definition quoteHttpRequest
    (srcTokenAddress : string) (srcNetwork : Network)
    (dstTokenAddress : string) (dstNetwork : Network) (dstAmount : string)
    (facilitatorUrl : string) : HttpRequest :=
  {| http_url := facilitatorUrl +:+ "/x402/quote";
     http_method := "POST";
     http_headers := [("Content-Type", "application/json")];
     http_body :=
       Json.stringify
         (quoteRequest srcTokenAddress srcNetwork dstTokenAddress dstNetwork dstAmount) |}.

Definition quote_failed (status : Z) (errorText : string) : JsError :=
  Error ("Failed to get payment quote: " +:+ string_of_Z status +:+ " " +:+ errorText).

Definition getPaymentQuote {JsValue} (env : HttpEnv JsValue)
    (srcTokenAddress : string) (srcNetwork : Network)
    (dstTokenAddress : string) (dstNetwork : Network) (dstAmount : string)
    (facilitatorUrl : string) : M JsValue :=
  let request :=
    quoteHttpRequest srcTokenAddress srcNetwork dstTokenAddress dstNetwork
      dstAmount facilitatorUrl in
  response ← perform (EvFetch request)
               (match fetch env request with
                | Responded r => Ok r
                | NetworkError m => Throw (TypeError m)
                end);
  if negb (response_ok response) then
    errorText ← lift (response_text response);
    throw (quote_failed (resp_status response) errorText)
  else
    data ← lift (response_json env response);
    mret data.

(* ===================================================================== *)
(** ** The resource-server protocol core *)
(* ===================================================================== *)

Module ProtocolCore.

Record VerifyResult := mkVerifyResult {
  isValid : bool;
  invalidReason : option string
}.

Record SettleResult := mkSettleResult {
  settled : bool;
  transaction : string;
  settle_network : Network;
  payer : string;
  errorReason : option string
}.

(** The outcome of a facilitator call: an answer, or no answer at all. *)
Inductive Reply (A : Type) :=
| Answered (a : A)
| Unreachable.
Arguments Answered {A} a.
Arguments Unreachable {A}.

Inductive CoreError :=
| MalformedHeader
| NoMatchingRequirement
| VerificationFailed (reason : option string)
| TransportError.

(** The calls that leave the core while it handles one request. *)
Inductive ServerEvent :=
| CallVerify (p : PaymentPayload) (r : PaymentRequirements)
| ServeResource (resource : string)
| CallSettle (p : PaymentPayload) (r : PaymentRequirements).

Inductive Phase :=
| Received (header : option string)
| Challenged (accepts : list PaymentRequirements)
| Refused (e : CoreError)
| Matched (p : PaymentPayload) (r : PaymentRequirements)
| Verified (p : PaymentPayload) (r : PaymentRequirements)
| Served (p : PaymentPayload) (r : PaymentRequirements)
| Settled (p : PaymentPayload) (r : PaymentRequirements) (s : Reply SettleResult).

Record State := mkState {
  phase : Phase;
  log : list ServerEvent
}.

(** An offer matches a payload by scheme and network, a cross-asset offer by
    its source network. *)
Definition offer_matches (p : PaymentPayload) (r : PaymentRequirements) : bool :=
  String.eqb (scheme r) (pp_scheme p) &&
  (String.eqb (network r) (pp_network p) ||
   match srcNetwork r with
   | Some n => String.eqb n (pp_network p)
   | None => false
   end).

Definition verified_ok (v : Reply VerifyResult) : bool :=
  match v with
  | Answered a => isValid a
  | Unreachable => false
  end.

Section Core.

(** The route's offers, the wire decoder and the facilitator. *)
Variable accepts : list PaymentRequirements.
Variable decodePayment : string -> option PaymentPayload.
Variable verify : PaymentPayload -> PaymentRequirements -> Reply VerifyResult.
Variable settle : PaymentPayload -> PaymentRequirements -> Reply SettleResult.

(** Modelled from the spec: the request lifecycle of the resource-server
    core (the algorithm of section 4.1, steps 2 to 6), whose implementation
    is not among the sources.  One step is one decision or one outgoing
    call. *)
Inductive step : State -> State -> Prop :=
| step_challenge :
    step (mkState (Received None) [])
         (mkState (Challenged accepts) [])
| step_malformed h :
    decodePayment h = None ->
    step (mkState (Received (Some h)) [])
         (mkState (Refused MalformedHeader) [])
| step_no_match h p :
    decodePayment h = Some p ->
    find (offer_matches p) accepts = None ->
    step (mkState (Received (Some h)) [])
         (mkState (Refused NoMatchingRequirement) [])
| step_match h p r :
    decodePayment h = Some p ->
    find (offer_matches p) accepts = Some r ->
    step (mkState (Received (Some h)) [])
         (mkState (Matched p r) [])
| step_verify_ok p r v l :
    verify p r = Answered v ->
    isValid v = true ->
    step (mkState (Matched p r) l)
         (mkState (Verified p r) (l ++ [CallVerify p r]))
| step_verify_invalid p r v l :
    verify p r = Answered v ->
    isValid v = false ->
    step (mkState (Matched p r) l)
         (mkState (Refused (VerificationFailed (invalidReason v)))
                  (l ++ [CallVerify p r]))
| step_verify_unreachable p r l :
    verify p r = Unreachable ->
    step (mkState (Matched p r) l)
         (mkState (Refused TransportError) (l ++ [CallVerify p r]))
| step_serve p r l :
    step (mkState (Verified p r) l)
         (mkState (Served p r) (l ++ [ServeResource (resource r)]))
| step_settle p r l :
    step (mkState (Served p r) l)
         (mkState (Settled p r (settle p r)) (l ++ [CallSettle p r])).

(** What holds of the log in each phase. *)
Definition lifecycle (st : State) : Prop :=
  match phase st with
  | Received _ | Challenged _ | Matched _ _ => log st = []
  | Refused e =>
      log st = [] \/
      exists p r, log st = [CallVerify p r] /\ verified_ok (verify p r) = false
  | Verified p r =>
      log st = [CallVerify p r] /\ verified_ok (verify p r) = true
  | Served p r =>
      log st = [CallVerify p r; ServeResource (resource r)] /\
      verified_ok (verify p r) = true
  | Settled p r _ =>
      log st = [CallVerify p r; ServeResource (resource r); CallSettle p r] /\
      verified_ok (verify p r) = true
  end.

End Core.

Definition is_serve (ev : ServerEvent) : bool :=
  match ev with ServeResource _ => true | _ => false end.
Definition is_settle (ev : ServerEvent) : bool :=
  match ev with CallSettle _ _ => true | _ => false end.

End ProtocolCore.

(* ===================================================================== *)
(** ** Successful runs of the two payload builders *)
(* ===================================================================== *)

Section RunShapes.

Variable env : Env.

(** What a successful approval run has done, in order, and what it returns. *)
Inductive ApprovalRun (client : TransactionSigner) (version : Z)
    (req : PaymentRequirements) (q : QuoteResponse) (config : option X402Config)
    : list Event -> PaymentPayload -> Prop :=
| ApprovalRun_intro d rpc mint pda amount ix lb tx sig :
    success q = true ->
    data q = Some d ->
    getRpcClient env (network req) (config_rpcUrl config) = Ok rpc ->
    fetchMint env rpc (asset req) = Ok mint ->
    programAddress mint = TOKEN_PROGRAM_ADDRESS \/
      programAddress mint = TOKEN_2022_PROGRAM_ADDRESS ->
    (let seeds := mkPdaSeeds (asset req) (signer_address client)
                             (programAddress mint) in
     if String.eqb (programAddress mint) TOKEN_PROGRAM_ADDRESS
     then findAssociatedTokenPda env seeds
     else findAssociatedTokenPda2022 env seeds) = Ok pda ->
    fetchEncodedAccount env rpc (fst pda) = Ok (mkMaybeAccount true) ->
    BigInt (paymentAmount d) = Ok amount ->
    getApproveInstruction2022 env
      (mkApproveInput (fst pda) (facilitatorAddress d) client amount)
      (programAddress mint) = Ok ix ->
    getLatestBlockhash env rpc = Ok lb ->
    partiallySignTransactionMessageWithSigners env
      (gaslessTransactionMessage (feePayerAddress d) lb ix) = Ok tx ->
    signature_of tx (signer_address client) = Some sig ->
    ApprovalRun client version req q config
      [ EvFetchMint rpc (asset req);
        EvFetchEncodedAccount rpc (fst pda);
        EvGetLatestBlockhash rpc;
        EvSign (gaslessTransactionMessage (feePayerAddress d) lb ix) ]
      {| x402Version := version;
         pp_scheme := scheme req;
         pp_network := network req;
         pp_payload := ApprovalPayload
           {| ap_signature := base58_encode env sig;
              ap_approval :=
                {| approval_owner := signer_address client;
                   approval_delegate := facilitatorAddress d;
                   approval_tokenAccount := fst pda;
                   approval_tokenMint := asset req;
                   approval_value := paymentAmount d;
                   approval_serializedTransaction :=
                     getBase64EncodedWireTransaction env tx;
                   approval_blockhash := lb_blockhash lb;
                   approval_lastValidBlockHeight :=
                     Number_of_BigInt (lb_lastValidBlockHeight lb) |} |} |}.

(** What a successful native-transfer run has done, and what it returns. *)
Inductive NativeRun (client : TransactionSigner) (version : Z)
    (req : PaymentRequirements) (q : QuoteResponse) (config : option X402Config)
    : list Event -> PaymentPayload -> Prop :=
| NativeRun_intro d rpc lamports bytes lb tx sig :
    success q = true ->
    data q = Some d ->
    getRpcClient env (network req) (config_rpcUrl config) = Ok rpc ->
    BigInt (paymentAmount d) = Ok lamports ->
    transferInstructionData lamports = Ok bytes ->
    getLatestBlockhash env rpc = Ok lb ->
    partiallySignTransactionMessageWithSigners env
      (gaslessTransactionMessage (feePayerAddress d) lb
         (transferInstruction (signer_address client) (facilitatorAddress d) bytes))
      = Ok tx ->
    signature_of tx (signer_address client) = Some sig ->
    NativeRun client version req q config
      [ EvGetLatestBlockhash rpc;
        EvSign (gaslessTransactionMessage (feePayerAddress d) lb
                  (transferInstruction (signer_address client)
                     (facilitatorAddress d) bytes)) ]
      {| x402Version := version;
         pp_scheme := scheme req;
         pp_network := network req;
         pp_payload := NativePayload
           {| np_signature := base58_encode env sig;
              np_transfer :=
                {| transfer_owner := signer_address client;
                   transfer_destination := facilitatorAddress d;
                   transfer_value := paymentAmount d;
                   transfer_serializedTransaction :=
                     getBase64EncodedWireTransaction env tx;
                   transfer_blockhash := lb_blockhash lb;
                   transfer_lastValidBlockHeight :=
                     Number_of_BigInt (lb_lastValidBlockHeight lb) |} |} |}.

End RunShapes.

(** Accessors shared by the three payload shapes. *)
Definition payload_value (p : PaymentPayload) : string :=
  match pp_payload p with
  | AuthorizationPayload a => auth_value (au_authorization a)
  | ApprovalPayload a => approval_value (ap_approval a)
  | NativePayload n => transfer_value (np_transfer n)
  end.

Definition payload_recipient (p : PaymentPayload) : string :=
  match pp_payload p with
  | AuthorizationPayload a => auth_to (au_authorization a)
  | ApprovalPayload a => approval_delegate (ap_approval a)
  | NativePayload n => transfer_destination (np_transfer n)
  end.

(** The messages handed to the wallet for signing during a run. *)
Definition signed_messages (t : list Event) : list TransactionMessage :=
  omap (fun ev => match ev with EvSign m => Some m | _ => None end) t.

(** The token mints whose owning program a run has looked up. *)
Definition resolved_mints (t : list Event) : list Address :=
  omap (fun ev => match ev with EvFetchMint _ a => Some a | _ => None end) t.

(* ===================================================================== *)
(** ** A concrete environment *)
(* ===================================================================== *)

(** A wallet, an RPC node and the library functions with fixed replies, used
    to run the embedded functions on concrete inputs. *)
Module Sample.

Definition wallet : TransactionSigner :=
  mkSigner "9xQeWvG816bUx9EPjHmaT23yvVM2ZWbrrpZb9PusVFin".
Definition facilitator : Address := "FcLtrFee1111111111111111111111111111111111".
Definition sponsor : Address := "SpnsrPay11111111111111111111111111111111111".
Definition USDC : Address := "EPjFWdd5AufqSSqeM2qN1xzybapC8G4wEGGkZwyTDt1v".
Definition tokenAccount : Address := "AtaOfWa11et11111111111111111111111111111111".
Definition strayProgram : Address := "Stake11111111111111111111111111111111111111".
Definition strayAsset : Address := "StrayAsset111111111111111111111111111111111".

(** The approve instruction of [@solana-program/token-2022].  The library
    reads the keys [source], [delegate], [owner] and [amount] of its input.
    The object literal of the source has the key [account] and no key
    [source] (it is passed under [as any]), so the library is given no source
    account, and for an account that it is not given it puts the program
    address, read-only (role 0).  The delegate is read-only; the owner, a
    signer object, is a read-only signer (role 2) and stays attached to its
    account.  The data is the discriminator 4, then the amount as an
    unsigned 64-bit integer, refused when out of range. *)
Definition approveInstruction (i : ApproveInput) (program : Address) : Res Instruction :=
  if (0 <=? approve_amount i) && (approve_amount i <? 2 ^ 64)
  then Ok {| ix_programAddress := program;
             ix_accounts :=
               [ mkAccountMeta program 0 None;
                 mkAccountMeta (approve_delegate i) 0 None;
                 mkAccountMeta (signer_address (approve_owner i)) 2
                   (Some (approve_owner i)) ];
             ix_data := 4 :: le_bytes 8 (approve_amount i) |}
  else Throw (mkJsError "SolanaError" "Codec [u64] expected number to be in range").

(** The signature that a signer gives (its bytes play no part). *)
Definition signature (s : TransactionSigner) : list Z := [7; 7; 7; 7].

(** The addresses that have to sign a message: the fee payer, and the
    accounts with a signer role (2 or 3). *)
Definition signer_slots (m : TransactionMessage) : list Address :=
  match tm_feePayer m with
  | Some fp => [fp_address fp]
  | None => []
  end ++
  flat_map (fun ix => map am_address
                        (List.filter (fun a => 2 <=? am_role a) (ix_accounts ix)))
           (tm_instructions m).

(** [partiallySignTransactionMessageWithSigners] of [@solana/kit]: the
    compiled transaction has an empty slot ([null]) for every address that
    has to sign, and the signers that the message carries fill theirs.  An
    address without a signer object in the message gets no signature. *)
Definition sign (m : TransactionMessage) : Res Transaction :=
  Ok (mkTransaction m
        (foldr (fun s sigs => <[signer_address s := Some (signature s)]> sigs)
               (foldr (fun a sigs => <[a := None]> sigs) ∅ (signer_slots m))
               (attached_signers m))).

Definition env : Env :=
  {| getRpcClient := fun net url =>
       if String.eqb net "solana"
       then Ok (mkRpcClient (default "https://api.mainnet-beta.solana.com" url))
       else if String.eqb net "solana-devnet"
       then Ok (mkRpcClient (default "https://api.devnet.solana.com" url))
       else Throw (Error "Invalid network");
     fetchMint := fun _ a =>
       if String.eqb a USDC then Ok (mkMint TOKEN_PROGRAM_ADDRESS)
       else if String.eqb a strayAsset then Ok (mkMint strayProgram)
       else Throw (mkJsError "SolanaError" "Account not found");
     findAssociatedTokenPda := fun _ => Ok (tokenAccount, 254);
     findAssociatedTokenPda2022 := fun _ => Ok (tokenAccount, 254);
     fetchEncodedAccount := fun _ a => Ok (mkMaybeAccount (String.eqb a tokenAccount));
     getApproveInstruction2022 := approveInstruction;
     getLatestBlockhash := fun _ =>
       Ok (mkLatestBlockhash "GHtXQBsoZHVnNFa9YevAzFr17DJjgHXk3ycTKD5xD3Zi" 312345678);
     partiallySignTransactionMessageWithSigners := sign;
     getBase64EncodedWireTransaction := fun _ => "AgAAAA==";
     base58_encode := fun _ => "5VERv8NMvzbJMEkV8xnrLkEaWRtSz9CosKDYjCJjBRnb" |}.

Definition requirements (asset amount : string) (extra : option (gmap string string))
    : PaymentRequirements :=
  {| scheme := "exact";
     network := "solana";
     asset := asset;
     payTo := "0x209693Bc6afc0C5328bA36FaF03C514EF312287C";
     maxAmountRequired := amount;
     resource := "https://api.example.com/premium";
     srcNetwork := None;
     srcTokenAddress := None;
     srcAmountRequired := None;
     extra := extra |}.

Definition quote (amount : string) : QuoteResponse :=
  {| success := true;
     data := Some {| paymentAmount := amount;
                     facilitatorAddress := facilitator;
                     feePayerAddress := sponsor |} |}.

Definition quoted_extra : gmap string string :=
  <["facilitatorAddress" := facilitator]> (<["feePayer" := sponsor]> ∅).

Definition rpc : RpcClient := mkRpcClient "https://api.mainnet-beta.solana.com".
Definition latestBlockhash : LatestBlockhash :=
  mkLatestBlockhash "GHtXQBsoZHVnNFa9YevAzFr17DJjgHXk3ycTKD5xD3Zi" 312345678.

(** The approval of 500000 units of USDC and its run. *)
Definition approval_instruction : Instruction :=
  {| ix_programAddress := TOKEN_PROGRAM_ADDRESS;
     ix_accounts :=
       [ mkAccountMeta TOKEN_PROGRAM_ADDRESS 0 None;
         mkAccountMeta facilitator 0 None;
         mkAccountMeta (signer_address wallet) 2 (Some wallet) ];
     ix_data := [4; 32; 161; 7; 0; 0; 0; 0; 0] |}.

Definition approval_trace : list Event :=
  [ EvFetchMint rpc USDC;
    EvFetchEncodedAccount rpc tokenAccount;
    EvGetLatestBlockhash rpc;
    EvSign (gaslessTransactionMessage sponsor latestBlockhash approval_instruction) ].

Definition approval_payload : PaymentPayload :=
  {| x402Version := 1;
     pp_scheme := "exact";
     pp_network := "solana";
     pp_payload := ApprovalPayload
       {| ap_signature := "5VERv8NMvzbJMEkV8xnrLkEaWRtSz9CosKDYjCJjBRnb";
          ap_approval :=
            {| approval_owner := signer_address wallet;
               approval_delegate := facilitator;
               approval_tokenAccount := tokenAccount;
               approval_tokenMint := USDC;
               approval_value := "500000";
               approval_serializedTransaction := "AgAAAA==";
               approval_blockhash := "GHtXQBsoZHVnNFa9YevAzFr17DJjgHXk3ycTKD5xD3Zi";
               approval_lastValidBlockHeight := 312345678 |} |} |}.

(** The requests of a native transfer whose instruction data is [bytes].
    The transfer carries no signer, so the wallet's reply holds no signature
    of the payer. *)
Definition native_trace (bytes : list Z) : list Event :=
  [ EvGetLatestBlockhash rpc;
    EvSign (gaslessTransactionMessage sponsor latestBlockhash
              (transferInstruction (signer_address wallet) facilitator bytes)) ].

(** A facilitator that answers the quote request for USDC on Solana and
    rejects every other request, on a network that cannot reach hosts under
    [.invalid]. *)
Definition quote_body : string :=
  Json.stringify
    (Json.JObj
       [ ("success", Json.JBool true);
         ("data", Json.JObj [ ("paymentAmount", Json.JStr "500000");
                              ("facilitatorAddress", Json.JStr facilitator);
                              ("feePayerAddress", Json.JStr sponsor) ]) ]).

Definition http : HttpEnv Json.json :=
  {| fetch := fun r =>
       if String.eqb (http_url r) "https://mainnet.anyspend.com/x402/quote"
       then if String.eqb (http_body r)
                 (Json.stringify (quoteRequest USDC "solana"
                    "0x833589fCD6eDb6E08f4c7C32D4f71b54bdA02913" "base" "1000000"))
            then Responded (mkResponse 200 (BodyText quote_body))
            else Responded (mkResponse 400 (BodyText "unsupported pair"))
       else if String.eqb (http_url r) "https://facilitator.invalid/x402/quote"
       then NetworkError "fetch failed"
       else Responded (mkResponse 404 (BodyText "Not Found"));
     JSON_parse := fun s =>
       match Json.parse s with
       | Some j => Ok j
       | None => Throw (mkJsError "SyntaxError" "Unexpected token in JSON")
       end |}.

End Sample.

(* ===================================================================== *)
(** ** Further accessors and environments *)
(* ===================================================================== *)

(** The validity height that a payload reports: the [lastValidBlockHeight]
    of its approval or transfer. *)
Definition payload_lastValidBlockHeight (p : PaymentPayload) : option Z :=
  match pp_payload p with
  | AuthorizationPayload _ => None
  | ApprovalPayload a => Some (approval_lastValidBlockHeight (ap_approval a))
  | NativePayload n => Some (transfer_lastValidBlockHeight (np_transfer n))
  end.

(** The blockhash that a payload reports. *)
Definition payload_blockhash (p : PaymentPayload) : option string :=
  match pp_payload p with
  | AuthorizationPayload _ => None
  | ApprovalPayload a => Some (approval_blockhash (ap_approval a))
  | NativePayload n => Some (transfer_blockhash (np_transfer n))
  end.

(** The RPC requests of a run, in order. *)
Definition rpc_requests (t : list Event) : list Event :=
  filter (fun ev => is_network ev = true) t.

(** Variants of the concrete environment. *)
Module Scenarios.

(** A node on which the payer has no token account. *)
Definition env_without_account : Env :=
  {| getRpcClient := getRpcClient Sample.env;
     fetchMint := fetchMint Sample.env;
     findAssociatedTokenPda := findAssociatedTokenPda Sample.env;
     findAssociatedTokenPda2022 := findAssociatedTokenPda2022 Sample.env;
     fetchEncodedAccount := fun _ _ => Ok (mkMaybeAccount false);
     getApproveInstruction2022 := getApproveInstruction2022 Sample.env;
     getLatestBlockhash := getLatestBlockhash Sample.env;
     partiallySignTransactionMessageWithSigners :=
       partiallySignTransactionMessageWithSigners Sample.env;
     getBase64EncodedWireTransaction := getBase64EncodedWireTransaction Sample.env;
     base58_encode := base58_encode Sample.env |}.

(** A wallet whose reply holds the fee payer's empty slot only. *)
Definition env_unsigned : Env :=
  {| getRpcClient := getRpcClient Sample.env;
     fetchMint := fetchMint Sample.env;
     findAssociatedTokenPda := findAssociatedTokenPda Sample.env;
     findAssociatedTokenPda2022 := findAssociatedTokenPda2022 Sample.env;
     fetchEncodedAccount := fetchEncodedAccount Sample.env;
     getApproveInstruction2022 := getApproveInstruction2022 Sample.env;
     getLatestBlockhash := getLatestBlockhash Sample.env;
     partiallySignTransactionMessageWithSigners := fun m =>
       Ok (mkTransaction m
             (match tm_feePayer m with
              | Some fp => {[ fp_address fp := None ]}
              | None => ∅
              end));
     getBase64EncodedWireTransaction := getBase64EncodedWireTransaction Sample.env;
     base58_encode := base58_encode Sample.env |}.

(** A requirement paid from Base and settled on Solana. *)
Definition cross_chain_requirement : PaymentRequirements :=
  {| scheme := "exact";
     network := "solana";
     asset := Sample.USDC;
     payTo := Sample.facilitator;
     maxAmountRequired := "500000";
     resource := "https://api.example.com/premium";
     srcNetwork := Some "base";
     srcTokenAddress := None;
     srcAmountRequired := None;
     extra := None |}.

End Scenarios.

(* ===================================================================== *)
(** ** paywall/PaywallApp *)
(* ===================================================================== *)

(** [window.x402], as far as [PaywallApp] reads it.  The type [R] is the
    one of [x402.paymentRequirements], which is only handed on to
    [choosePaymentRequirement]. *)
Record X402Window (R : Type) := mkX402Window {
  x402_testnet : option bool;
  x402_paymentRequirements : R
}.
Arguments mkX402Window {R} _ _.
Arguments x402_testnet {R} _.
Arguments x402_paymentRequirements {R} _.

(** What the component renders. *)
Inductive PaywallView :=
| LoadingView
| EvmPaywall (paymentRequirement : PaymentRequirements)
| SolanaPaywall (paymentRequirement : PaymentRequirements)
| UnsupportedView.

(** [a || b] for [a] typed [string | undefined]. *)
Definition or_else (a : option string) (b : string) : string :=
  match a with
  | Some s => if String.eqb s "" then b else s
  | None => b
  end.

Section Paywall.

Context {R : Type}.

(** The functions of [paywallUtils]; [choosePaymentRequirement] may give
    nothing, which the component checks. *)
Variable choosePaymentRequirement : R -> bool -> option PaymentRequirements.
Variable isEvmNetwork : string -> bool.
Variable isSvmNetwork : string -> bool.

Definition PaywallApp (x402 : X402Window R) : PaywallView :=
  let testnet := default true (x402_testnet x402) in
  match choosePaymentRequirement (x402_paymentRequirements x402) testnet with
  | None => LoadingView
  | Some paymentRequirement =>
      let sourceNetwork :=
        or_else (srcNetwork paymentRequirement) (network paymentRequirement) in
      if isEvmNetwork sourceNetwork then EvmPaywall paymentRequirement
      else if isSvmNetwork sourceNetwork then SolanaPaywall paymentRequirement
      else UnsupportedView
  end.

End Paywall.

(* ===================================================================== *)
(** ** examples/fullstack/anyspend/apps/client: the displayed amounts *)
(* ===================================================================== *)

Module PriceInfo.

(** A run of [n] characters [0]. *)
Fixpoint zeros (n : nat) : string :=
  match n with
  | O => EmptyString
  | S n' => String "0" (zeros n')
  end.

(** [s.padStart(targetLength, "0")] *)
Definition padStart (targetLength : nat) (s : string) : string :=
  zeros (targetLength - String.length s) +:+ s.

(** [s.slice(0, n)] *)
Definition slice (n : nat) (s : string) : string := substring 0 n s.

(** [s.replace(/0+$/, "")]: the zeros at the end are removed. *)
Fixpoint strip_zeros (s : string) : string :=
  match s with
  | EmptyString => EmptyString
  | String c r =>
      match strip_zeros r with
      | EmptyString => if Ascii.eqb c "0" then EmptyString else String c EmptyString
      | r' => String c r'
      end
  end.

Definition division_by_zero : JsError := mkJsError "RangeError" "Division by zero".

Section Display.

(** [BigInt(10 ** d)].  The power is computed on Numbers, where
    exponentiation is implementation-approximated, and the conversion throws
    when the power is not finite. *)
Variable BigInt_pow10 : nat -> Res Z.

(** The text shown for an amount in base units of a token with
    [assetDecimals] decimals.  The same statements build [srcPriceStr] from
    [srcAmount] and [srcDecimals].  The quotient and the remainder of BigInts
    truncate towards zero. *)
Definition maxPriceStr (maxAmount : Z) (assetDecimals : nat) : Res string :=
  match BigInt_pow10 assetDecimals with
  | Throw e => Throw e
  | Ok maxDivisor =>
      if maxDivisor =? 0 then Throw division_by_zero
      else
        let maxIntegerPart := Z.quot maxAmount maxDivisor in
        let maxFractionalPart := Z.rem maxAmount maxDivisor in
        let maxPriceStr := string_of_Z maxIntegerPart in
        if 0 <? maxFractionalPart
        then
          let fracStr := padStart assetDecimals (string_of_Z maxFractionalPart) in
          let displayDecimals := slice 6 fracStr in
          Ok (maxPriceStr +:+ ("." +:+ strip_zeros displayDecimals))
        else Ok maxPriceStr
  end.

End Display.

(** The decimal digit of a value from 0 to 9. *)
Definition digit_char (v : Z) : ascii := ascii_of_nat (48 + Z.to_nat v).

(** The last [w] decimal digits of [v], the most significant first. *)
Fixpoint fixed_digits (w : nat) (v : Z) : string :=
  match w with
  | O => EmptyString
  | S w' => String (digit_char ((v / 10 ^ Z.of_nat w') mod 10)) (fixed_digits w' v)
  end.

(** The powers of ten as integers.  An engine gives them for the exponents
    up to 22, where the power is a representable Number. *)
Definition exact_pow10 (d : nat) : Res Z := Ok (10 ^ Z.of_nat d).

End PriceInfo.

(* ===================================================================== *)
(** * Properties *)
(* ===================================================================== *)

(** ** The monad *)

Lemma bind_ok {A B} (t : list Event) (a : A) (f : A -> M B) :
  (t, Ok a) ≫= f = (t ++ fst (f a), snd (f a)).
Proof. reflexivity. Qed.

Lemma bind_throw {A B} (t : list Event) (e : JsError) (f : A -> M B) :
  (t, Throw e) ≫= f = (t, Throw e).
Proof. reflexivity. Qed.

(** The monad laws. *)
Lemma mret_bind {A B} (a : A) (f : A -> M B) : mret a ≫= f = f a.
Proof. cbn. now destruct (f a). Qed.

Lemma bind_mret {A} (m : M A) : m ≫= mret = m.
Proof. destruct m as [t [a|e]]; cbn; [now rewrite app_nil_r | reflexivity]. Qed.

Lemma bind_assoc {A B C} (m : M A) (f : A -> M B) (g : B -> M C) :
  (m ≫= f) ≫= g = m ≫= (fun a => f a ≫= g).
Proof.
  destruct m as [t [a|e]]; cbn; [|reflexivity].
  destruct (f a) as [t1 [b|e]]; cbn; [|reflexivity].
  destruct (g b) as [t2 r]; cbn. now rewrite app_assoc.
Qed.

(** Inversion of a successful bind. *)
Lemma bind_inv_ok {A B} (m : M A) (f : A -> M B) (t : list Event) (b : B) :
  m ≫= f = (t, Ok b) ->
  exists t1 a t2, m = (t1, Ok a) /\ f a = (t2, Ok b) /\ t = t1 ++ t2.
Proof.
  destruct m as [t1 [a|e]]; cbn.
  - destruct (f a) as [t2 r] eqn:E; cbn. intros [= <- ->].
    exists t1, a, t2. auto.
  - intros [= _ ?].
Qed.

(* ===================================================================== *)
(** ** JSON text: reading back what was written *)
(* ===================================================================== *)

Module JsonFacts.

Import Json.

Lemma emit_arr x r k :
  emit (JArr (x :: r)) k = String "[" (emit x (emit_elems r k)).
Proof.
  cbn [emit]. do 2 f_equal. induction r as [|y r IH]; cbn [emit_elems]; congruence.
Qed.

Lemma emit_obj key x r k :
  emit (JObj ((key, x) :: r)) k
  = String "{" (emit_string key (String ":" (emit x (emit_members r k)))).
Proof.
  cbn [emit]. do 4 f_equal. induction r as [|[key' y] r IH]; cbn [emit_members];
    congruence.
Qed.

(** *** Numbers *)

Lemma not_digit_no_digit_of c : is_digit c = false -> digit_of c = None.
Proof.
  destruct c as [[] [] [] [] [] [] [] []]; cbn; intros H;
    first [reflexivity | discriminate H].
Qed.

Lemma append_nil (k : string) : "" +:+ k = k.
Proof. reflexivity. Qed.

Lemma append_cons (c : ascii) (s k : string) :
  String c s +:+ k = String c (s +:+ k).
Proof. reflexivity. Qed.

Lemma scan_uint_written (d : Decimal.uint) (k : string) :
  continues_number k = false ->
  scan_uint (NilEmpty.string_of_uint d +:+ k) = (d, k).
Proof.
  intros Hk. induction d; cbn [NilEmpty.string_of_uint];
    rewrite ?append_cons, ?append_nil; cbn [scan_uint];
    try (rewrite IHd; reflexivity).
  destruct k as [|c r]; [reflexivity|].
  cbn in Hk. apply orb_false_iff in Hk as [Hk _].
  apply orb_false_iff in Hk as [Hk _]. apply orb_false_iff in Hk as [Hk _].
  cbn [scan_uint]. now rewrite (not_digit_no_digit_of _ Hk).
Qed.

Lemma to_uint_normal (p : positive) : Decimal.unorm (Pos.to_uint p) = Pos.to_uint p.
Proof.
  assert (H : Decimal.norm (Z.to_int (Zpos p)) = Z.to_int (Zpos p)).
  { rewrite <- DecimalZ.to_of. now rewrite DecimalZ.of_to. }
  cbn in H. now injection H.
Qed.

Lemma uint_beq_refl (d : Decimal.uint) : Decimal.uint_beq d d = true.
Proof. induction d; cbn; auto. Qed.

Lemma parse_unsigned_written (d : Decimal.uint) (k : string) :
  Decimal.unorm d = d ->
  continues_number k = false ->
  parse_unsigned (NilEmpty.string_of_uint d +:+ k) = Some (Z.of_uint d, k).
Proof.
  intros Hd Hk. unfold parse_unsigned. rewrite (scan_uint_written _ _ Hk).
  rewrite Hd, uint_beq_refl, Hk. reflexivity.
Qed.

(** The first character of a written number. *)
Lemma written_int_head (n : Z) :
  exists c t, NilEmpty.string_of_int (Z.to_int n) = String c t /\
              (is_digit c || Ascii.eqb c "-") = true.
Proof.
  destruct n as [|p|p]; cbn [Z.to_int NilEmpty.string_of_int].
  - eexists _, _. split; reflexivity.
  - pose proof (to_uint_normal p) as Hn.
    destruct (Pos.to_uint p) eqn:E;
      try (eexists _, _; split; reflexivity).
    exfalso. cbn in Hn. discriminate Hn.
  - eexists _, _. split; reflexivity.
Qed.

Lemma emit_number_head (n : Z) (k : string) :
  exists c r, emit_number n k = String c r /\
              (is_digit c || Ascii.eqb c "-") = true.
Proof.
  unfold emit_number. destruct (written_int_head n) as (c & t & -> & H).
  exists c, (t +:+ k). now rewrite append_cons.
Qed.

Lemma parse_number_unsigned (d : Decimal.uint) (k : string) :
  Decimal.unorm d = d ->
  parse_number (NilEmpty.string_of_uint d +:+ k)
  = parse_unsigned (NilEmpty.string_of_uint d +:+ k).
Proof.
  intros Hd. destruct d; cbn [NilEmpty.string_of_uint];
    rewrite ?append_cons; try reflexivity.
  cbn in Hd. discriminate Hd.
Qed.

Lemma parse_number_written (n : Z) (k : string) :
  continues_number k = false ->
  parse_number (emit_number n k) = Some (n, k).
Proof.
  intros Hk. unfold emit_number.
  destruct n as [|p|p]; cbn [Z.to_int NilEmpty.string_of_int].
  - rewrite parse_number_unsigned by reflexivity.
    now rewrite parse_unsigned_written.
  - rewrite parse_number_unsigned by apply to_uint_normal.
    rewrite parse_unsigned_written by (apply to_uint_normal || assumption).
    do 2 f_equal. exact (DecimalZ.of_to (Zpos p)).
  - rewrite append_cons. cbn [parse_number].
    rewrite parse_unsigned_written by (apply to_uint_normal || assumption).
    do 2 f_equal.
    change (- Z.of_uint (Pos.to_uint p)) with (- Z.of_int (Z.to_int (Zpos p))).
    now rewrite DecimalZ.of_to.
Qed.

(** *** Strings *)

Lemma parse_escaped_char (c : ascii) (tail : string) :
  parse_string_body (escape_char c tail) = cons_char c (parse_string_body tail).
Proof. destruct c as [[] [] [] [] [] [] [] []]; reflexivity. Qed.

Lemma parse_string_written (s k : string) :
  parse_string_body (escape s (String dquote k)) = Some (s, k).
Proof.
  induction s as [|c r IH]; [reflexivity|].
  cbn [escape]. rewrite parse_escaped_char, IH. reflexivity.
Qed.

Lemma escape_char_longer (c : ascii) (k : string) :
  (String.length k < String.length (escape_char c k))%nat.
Proof.
  unfold escape_char.
  repeat match goal with |- context [if ?b then _ else _] => destruct b end;
    cbn [String.length]; lia.
Qed.

Lemma escape_longer (s k : string) :
  (String.length k <= String.length (escape s k))%nat.
Proof.
  induction s as [|c r IH]; cbn [escape]; [lia|].
  pose proof (escape_char_longer c (escape r k)). lia.
Qed.

Lemma emit_string_longer (s k : string) :
  (String.length k < String.length (emit_string s k))%nat.
Proof.
  unfold emit_string. cbn [String.length].
  pose proof (escape_longer s (String dquote k)) as H. cbn [String.length] in H. lia.
Qed.

Lemma append_longer (t k : string) :
  (String.length k <= String.length (t +:+ k))%nat.
Proof.
  induction t as [|a t IH]; rewrite ?append_nil, ?append_cons;
    cbn [String.length]; lia.
Qed.

Lemma emit_number_longer (n : Z) (k : string) :
  (String.length k < String.length (emit_number n k))%nat.
Proof.
  unfold emit_number. destruct (written_int_head n) as (c & t & -> & _).
  rewrite append_cons. cbn [String.length].
  pose proof (append_longer t k). lia.
Qed.

(** *** Values *)

Lemma number_head_facts (c : ascii) :
  (is_digit c || Ascii.eqb c "-") = true ->
  is_json_ws c = false /\ Ascii.eqb c "]" = false /\ Ascii.eqb c "}" = false.
Proof.
  destruct c as [[] [] [] [] [] [] [] []]; cbn; intros H;
    first [discriminate H | auto].
Qed.

(** The first character of a written value is neither white space nor a
    closing bracket. *)
Lemma emit_head (j : json) (k : string) :
  exists c r, emit j k = String c r /\
    is_json_ws c = false /\ Ascii.eqb c "]" = false /\ Ascii.eqb c "}" = false.
Proof.
  destruct j as [|[]|n|s|[|x l]|[|[key x] m]];
    try (eexists _, _; split; [reflexivity|]; cbn; auto; fail).
  destruct (emit_number_head n k) as (c & r & E & H).
  exists c, r. split; [exact E|]. now apply number_head_facts.
Qed.

Lemma parse_value_number f c r :
  (is_digit c || Ascii.eqb c "-") = true ->
  parse_value (S f) (String c r)
  = match parse_number (String c r) with
    | Some (n, rest) => Some (JNum n, rest)
    | None => None
    end.
Proof. intros H. cbn [parse_value]. now rewrite H. Qed.

Lemma parse_value_string f r :
  parse_value (S f) (String dquote r)
  = match parse_string_body r with
    | Some (str, rest) => Some (JStr str, rest)
    | None => None
    end.
Proof. reflexivity. Qed.

Lemma parse_value_array f c r :
  is_json_ws c = false ->
  Ascii.eqb c "]" = false ->
  parse_value (S f) (String "[" (String c r))
  = match parse_value f (String c r) with
    | Some (x, rest) =>
        match parse_elems f rest with
        | Some (l, rest') => Some (JArr (x :: l), rest')
        | None => None
        end
    | None => None
    end.
Proof.
  intros Hws Hb.
  change (parse_value (S f) (String "[" (String c r)))
    with (match skip_ws (String c r) with
          | EmptyString => None
          | String c' r' =>
              if Ascii.eqb c' "]" then Some (JArr [], r')
              else
                match parse_value f (String c' r') with
                | Some (x, rest) =>
                    match parse_elems f rest with
                    | Some (l, rest') => Some (JArr (x :: l), rest')
                    | None => None
                    end
                | None => None
                end
          end).
  cbn [skip_ws]. now rewrite Hws, Hb.
Qed.

Lemma parse_elems_comma f r :
  parse_elems (S f) (String "," r)
  = match parse_value f r with
    | Some (x, rest) =>
        match parse_elems f rest with
        | Some (l, rest') => Some (x :: l, rest')
        | None => None
        end
    | None => None
    end.
Proof. reflexivity. Qed.

Lemma parse_member_written f key r :
  parse_member (S f) (emit_string key (String ":" r))
  = match parse_value f r with
    | Some (x, rest) => Some ((key, x), rest)
    | None => None
    end.
Proof.
  unfold emit_string.
  change (parse_member (S f) (String dquote (escape key (String dquote (String ":" r)))))
    with (match parse_string_body (escape key (String dquote (String ":" r))) with
          | Some (key, rest) =>
              match skip_ws rest with
              | EmptyString => None
              | String c' rest' =>
                  if Ascii.eqb c' ":" then
                    match parse_value f rest' with
                    | Some (x, rest'') => Some ((key, x), rest'')
                    | None => None
                    end
                  else None
              end
          | None => None
          end).
  rewrite parse_string_written. reflexivity.
Qed.

Lemma parse_value_object f key r :
  parse_value (S f) (String "{" (emit_string key r))
  = match parse_member f (emit_string key r) with
    | Some (kv, rest) =>
        match parse_members f rest with
        | Some (m, rest') => Some (JObj (kv :: m), rest')
        | None => None
        end
    | None => None
    end.
Proof. reflexivity. Qed.

Lemma parse_members_comma f r :
  parse_members (S f) (String "," r)
  = match parse_member f r with
    | Some (kv, rest) =>
        match parse_members f rest with
        | Some (m, rest') => Some (kv :: m, rest')
        | None => None
        end
    | None => None
    end.
Proof. reflexivity. Qed.

Lemma elems_read_back (l : list json) :
  Forall reads_back l ->
  forall k,
    (String.length k < String.length (emit_elems l k))%nat /\
    continues_number (emit_elems l k) = false /\
    forall fuel,
      (String.length (emit_elems l k) < fuel)%nat ->
      parse_elems fuel (emit_elems l k) = Some (l, k).
Proof.
  induction 1 as [|y l Hy Hl IH]; intros k.
  - cbn [emit_elems String.length]. repeat split; [lia|].
    intros [|f] Hf; [lia|]. reflexivity.
  - cbn [emit_elems]. destruct (IH k) as (IHlen & IHc & IHp).
    destruct (Hy (emit_elems l k)) as (Hlen & Hp).
    cbn [String.length]. repeat split; [lia|].
    intros [|f] Hf; [lia|].
    rewrite parse_elems_comma.
    rewrite Hp by (assumption || lia).
    rewrite IHp by lia. reflexivity.
Qed.

Lemma members_read_back (m : list (string * json)) :
  Forall (fun kv => reads_back (snd kv)) m ->
  forall k,
    (String.length k < String.length (emit_members m k))%nat /\
    continues_number (emit_members m k) = false /\
    forall fuel,
      (String.length (emit_members m k) < fuel)%nat ->
      parse_members fuel (emit_members m k) = Some (m, k).
Proof.
  induction 1 as [|[key y] m Hy Hm IH]; intros k.
  - cbn [emit_members String.length]. repeat split; [lia|].
    intros [|f] Hf; [lia|]. reflexivity.
  - cbn [emit_members snd] in *. destruct (IH k) as (IHlen & IHc & IHp).
    destruct (Hy (emit_members m k)) as (Hlen & Hp).
    pose proof (emit_string_longer key (String ":" (emit y (emit_members m k)))) as Hs.
    cbn [String.length] in *. repeat split; [lia|].
    intros [|f] Hf; [lia|].
    rewrite parse_members_comma.
    destruct f as [|f]; [lia|].
    rewrite parse_member_written.
    rewrite Hp by (assumption || lia).
    rewrite IHp by lia. reflexivity.
Qed.

Theorem parse_value_emit (j : json) : reads_back j.
Proof.
  induction j as [| b | n | s | l Hl | m Hm] using json_ind; intros k.
  - split; [cbn; lia|]. intros [|f] _ Hf; [lia|]. reflexivity.
  - destruct b; (split; [cbn; lia|]); intros [|f] _ Hf; solve [lia | reflexivity].
  - split; [apply emit_number_longer|]. intros [|f] Hk Hf; [lia|].
    cbn [emit]. destruct (emit_number_head n k) as (c & r & E & H).
    rewrite E, (parse_value_number _ _ _ H), <- E.
    now rewrite parse_number_written.
  - split; [apply emit_string_longer|]. intros [|f] Hk Hf; [lia|].
    cbn [emit]. unfold emit_string. rewrite parse_value_string.
    now rewrite parse_string_written.
  - destruct Hl as [|x l Hx Hl].
    + split; [cbn; lia|]. intros [|f] _ Hf; [lia|]. reflexivity.
    + rewrite emit_arr.
      destruct (elems_read_back l Hl k) as (Hlen & Hc & Hp).
      destruct (Hx (emit_elems l k)) as (Hxlen & Hxp).
      cbn [String.length]. split; [lia|]. intros [|f] Hk Hf; [lia|].
      destruct (emit_head x (emit_elems l k)) as (c & r & E & Hws & Hb & _).
      rewrite E, (parse_value_array _ _ _ Hws Hb), <- E.
      rewrite Hxp by (assumption || lia).
      rewrite Hp by lia. reflexivity.
  - destruct Hm as [|[key x] m Hx Hm].
    + split; [cbn; lia|]. intros [|f] _ Hf; [lia|]. reflexivity.
    + rewrite emit_obj. cbn [snd] in Hx.
      destruct (members_read_back m Hm k) as (Hlen & Hc & Hp).
      destruct (Hx (emit_members m k)) as (Hxlen & Hxp).
      pose proof (emit_string_longer key (String ":" (emit x (emit_members m k)))) as Hs.
      cbn [String.length] in *. split; [lia|]. intros [|f] Hk Hf; [lia|].
      rewrite parse_value_object.
      destruct f as [|f]; [lia|].
      rewrite parse_member_written.
      rewrite Hxp by (assumption || lia).
      rewrite Hp by lia. reflexivity.
Qed.

(** [JSON.parse(JSON.stringify(j))] is [j]. *)
Theorem parse_stringify (j : json) : parse (stringify j) = Some j.
Proof.
  unfold parse, stringify.
  destruct (parse_value_emit j "") as [_ H].
  rewrite H; [reflexivity | reflexivity | lia].
Qed.

End JsonFacts.

(* ===================================================================== *)
(** ** Base64: decoding what was encoded *)
(* ===================================================================== *)

Module Base64Facts.

Import Base64.

Lemma char_sextet_char b5 b4 b3 b2 b1 b0 :
  char_sextet (sextet_char b5 b4 b3 b2 b1 b0) = Some (b5, b4, b3, b2, b1, b0).
Proof. destruct b5, b4, b3, b2, b1, b0; reflexivity. Qed.

Lemma char_sextet_pad : char_sextet pad = None.
Proof. reflexivity. Qed.

(** Induction on strings three characters at a time. *)
Lemma string_triples (P : string -> Prop) :
  P EmptyString ->
  (forall a, P (String a EmptyString)) ->
  (forall a b, P (String a (String b EmptyString))) ->
  (forall a b c r, P r -> P (String a (String b (String c r)))) ->
  forall s, P s.
Proof.
  intros H0 H1 H2 H3 s.
  assert (H : P s /\ (forall a, P (String a s)) /\
              (forall a b, P (String a (String b s)))).
  { induction s as [|c r (IH0 & IH1 & IH2)]; repeat split; auto. }
  exact (proj1 H).
Qed.

Theorem decode_encode (s : string) : decode (encode s) = Some s.
Proof.
  induction s as [| a | a b | a b c r IH] using string_triples.
  - reflexivity.
  - destruct a as [a0 a1 a2 a3 a4 a5 a6 a7]. cbn [encode decode].
    rewrite !char_sextet_char, char_sextet_pad. reflexivity.
  - destruct a as [a0 a1 a2 a3 a4 a5 a6 a7], b as [b0 b1 b2 b3 b4 b5 b6 b7].
    cbn [encode decode]. rewrite !char_sextet_char, char_sextet_pad. reflexivity.
  - destruct a as [a0 a1 a2 a3 a4 a5 a6 a7], b as [b0 b1 b2 b3 b4 b5 b6 b7],
      c as [c0 c1 c2 c3 c4 c5 c6 c7].
    cbn [encode decode]. rewrite !char_sextet_char, IH. reflexivity.
Qed.

End Base64Facts.

(** ** Successful runs of the two payload builders *)

Lemma lift_inv_ok {A} (r : Res A) (t : list Event) (a : A) :
  lift r = (t, Ok a) -> r = Ok a /\ t = [].
Proof. unfold lift. intros [= <- ->]. auto. Qed.

Lemma perform_inv_ok {A} (ev : Event) (r : Res A) (t : list Event) (a : A) :
  perform ev r = (t, Ok a) -> r = Ok a /\ t = [ev].
Proof. unfold perform. intros [= <- ->]. auto. Qed.

Lemma mret_inv_ok {A} (x : A) (t : list Event) (a : A) :
  (mret x : M A) = (t, Ok a) -> x = a /\ t = [].
Proof. intros [= <- ->]. auto. Qed.

(** Splits a successful run into the successful runs of its steps. *)
Ltac run_inv H :=
  repeat first
    [ discriminate H
    | let t1 := fresh "t" in let a := fresh "a" in let t2 := fresh "t" in
      let Hm := fresh "Hm" in
      apply bind_inv_ok in H as (t1 & a & t2 & Hm & H & ->);
      first [ apply lift_inv_ok in Hm as [Hm ->]
            | apply perform_inv_ok in Hm as [Hm ->] ] ].

Section Runs.

Variable env : Env.

Lemma approval_run client version req q config t p :
  createGaslessApprovalPayment env client version req q config = (t, Ok p) ->
  ApprovalRun env client version req q config t p.
Proof.
  unfold createGaslessApprovalPayment. intros H.
  destruct (success q) eqn:Hs; [|discriminate H].
  destruct (data q) as [d|] eqn:Hd; [|discriminate H].
  run_inv H.
  match type of H with (if ?c then _ else _) = _ =>
    destruct c eqn:Hk; [discriminate H|] end.
  run_inv H.
  match type of H with (if negb (exists_ ?m) then _ else _) = _ =>
    destruct m as [[|]]; cbn [exists_ negb] in H; [|discriminate H] end.
  run_inv H.
  match type of H with match ?x with _ => _ end = _ =>
    destruct x as [sig|] eqn:Hsig; [|discriminate H] end.
  apply mret_inv_ok in H as [<- ->]. cbn [app].
  eapply ApprovalRun_intro; eauto.
  apply andb_false_iff in Hk as [Hk|Hk]; apply negb_false_iff in Hk;
    apply String.eqb_eq in Hk; auto.
Qed.

Lemma native_run client version req q config t p :
  createGaslessNativePayment env client version req q config = (t, Ok p) ->
  NativeRun env client version req q config t p.
Proof.
  unfold createGaslessNativePayment. intros H.
  destruct (success q) eqn:Hs; [|discriminate H].
  destruct (data q) as [d|] eqn:Hd; [|discriminate H].
  run_inv H.
  match type of H with match ?x with _ => _ end = _ =>
    destruct x as [sig|] eqn:Hsig; [|discriminate H] end.
  apply mret_inv_ok in H as [<- ->]. cbn [app].
  eapply NativeRun_intro; eauto.
Qed.

(** Both builders reject an unusable quote before doing anything. *)
Lemma approval_invalid_quote client version req q config :
  success q = false \/ data q = None ->
  createGaslessApprovalPayment env client version req q config
  = ([], Throw invalid_quote_response).
Proof.
  unfold createGaslessApprovalPayment.
  intros [-> | ->]; [reflexivity|]. destruct (success q); reflexivity.
Qed.

Lemma native_invalid_quote client version req q config :
  success q = false \/ data q = None ->
  createGaslessNativePayment env client version req q config
  = ([], Throw invalid_quote_response).
Proof.
  unfold createGaslessNativePayment.
  intros [-> | ->]; [reflexivity|]. destruct (success q); reflexivity.
Qed.

End Runs.

(** The bytes of the transfer instruction. *)
(** ** Stepping through a run *)

Lemma lift_ok_bind {A B} (a : A) (f : A -> M B) : lift (Ok a) ≫= f = f a.
Proof. unfold lift. rewrite bind_ok. cbn. now destruct (f a). Qed.

Lemma lift_throw_bind {A B} (e : JsError) (f : A -> M B) :
  lift (Throw e) ≫= f = ([], Throw e).
Proof. reflexivity. Qed.

Lemma perform_ok_bind {A B} (ev : Event) (a : A) (f : A -> M B) :
  perform ev (Ok a) ≫= f = (ev :: trace (f a), outcome (f a)).
Proof. reflexivity. Qed.

Lemma perform_throw_bind {A B} (ev : Event) (e : JsError) (f : A -> M B) :
  perform ev (Throw e) ≫= f = ([ev], Throw e).
Proof. reflexivity. Qed.

Lemma run_eta {A} (m : M A) : m = (trace m, outcome m).
Proof. now destruct m. Qed.

(** One step of a run: case analysis on the reply that the next call of the
    source gets, or on the test that it makes. *)
Ltac run_step :=
  match goal with
  | |- context [if negb (String.eqb ?a ?b) && negb (String.eqb ?a ?c) then _ else _] =>
      destruct (negb (String.eqb a b) && negb (String.eqb a c)) eqn:?
  | |- context [if negb (exists_ ?m) then _ else _] =>
      destruct (exists_ m) eqn:?; cbn [negb]
  | |- context [match signature_of ?tx ?a with _ => _ end] =>
      destruct (signature_of tx a) eqn:?
  | |- context [perform ?ev ?r ≫= _] =>
      destruct r eqn:?; [rewrite perform_ok_bind | rewrite perform_throw_bind]
  | |- context [lift ?r ≫= _] =>
      destruct r eqn:?; [rewrite lift_ok_bind | rewrite lift_throw_bind]
  end; cbn [trace outcome fst snd throw].

(** Case analysis on a membership in a trace that is known event by event. *)
Ltac in_cases H :=
  cbn [In trace outcome fst snd throw mret M_ret] in H;
  repeat match type of H with
         | _ \/ _ => destruct H as [H|H]
         | False => destruct H
         end;
  try discriminate H.

(** Every exit of the approval builder. *)
Ltac approval_exits :=
  unfold createGaslessApprovalPayment;
  match goal with |- context [success ?q] =>
    destruct (success q) eqn:?; destruct (data q) eqn:? end;
  repeat run_step;
  cbn [trace outcome fst snd throw mret M_ret].

(** Every exit of the native-transfer builder. *)
Ltac native_exits :=
  unfold createGaslessNativePayment;
  match goal with |- context [success ?q] =>
    destruct (success q) eqn:?; destruct (data q) eqn:? end;
  repeat run_step;
  cbn [trace outcome fst snd throw mret M_ret].

Lemma transferInstructionData_bytes (lamports : Z) :
  transferInstructionData lamports
  = Ok ([2; 0; 0; 0] ++ le_bytes 8 (lamports mod 2 ^ 64)).
Proof. reflexivity. Qed.


(** ** Concrete runs *)

Example sample_approval_run :
  createGaslessApprovalPayment Sample.env Sample.wallet 1
    (Sample.requirements Sample.USDC "500000" None) (Sample.quote "500000") None
  = (Sample.approval_trace, Ok Sample.approval_payload).
Proof. vm_compute. reflexivity. Qed.

Example sample_native_run :
  createGaslessNativePayment Sample.env Sample.wallet 1
    (Sample.requirements NATIVE_SOL_ADDRESS "500000" None) (Sample.quote "500000") None
  = (Sample.native_trace [2; 0; 0; 0; 32; 161; 7; 0; 0; 0; 0; 0],
     Throw no_user_signature).
Proof. vm_compute. reflexivity. Qed.

(** ** Byte encodings *)

Lemma le_value_le_bytes (n : nat) (z : Z) :
  le_value (le_bytes n z) = z mod 2 ^ (8 * Z.of_nat n).
Proof.
  revert z. induction n as [|n IH]; intros z.
  - cbn. now rewrite Z.mod_1_r.
  - cbn [le_bytes le_value]. rewrite IH.
    change 255 with (Z.ones 8). rewrite Z.land_ones by lia.
    rewrite Z.shiftr_div_pow2 by lia.
    replace (8 * Z.of_nat (S n)) with (8 + 8 * Z.of_nat n) by lia.
    rewrite Z.pow_add_r by lia.
    rewrite Z.rem_mul_r by lia. reflexivity.
Qed.

Lemma length_le_bytes (n : nat) (z : Z) : length (le_bytes n z) = n.
Proof. revert z. induction n; intros; cbn; auto. Qed.

(** ** Traces of the native-transfer builder *)

(** Case analysis on every reply that a run depends on. *)
Ltac run_cases :=
  cbn -[BigInt transferInstructionData String.eqb];
  repeat (case_match; cbn -[BigInt transferInstructionData String.eqb] in *;
          simplify_eq; try reflexivity).

Lemma native_never_resolves env client version req q config :
  resolved_mints (trace (createGaslessNativePayment env client version req q config)) = [].
Proof.
  unfold createGaslessNativePayment.
  destruct (success q); [|reflexivity].
  destruct (data q); [|reflexivity].
  run_cases.
Qed.

(* ===================================================================== *)
(** ** Runs whose replies are known *)
(* ===================================================================== *)

Section Progress.

Variable env : Env.

(** The native-transfer builder, once the client, the amount and the
    blockhash are there: it asks for the blockhash, then asks the wallet to
    sign the transfer, and the outcome is decided by the wallet's reply. *)
Lemma native_progress client version req q config d rpc lamports lb :
  success q = true ->
  data q = Some d ->
  getRpcClient env (network req) (config_rpcUrl config) = Ok rpc ->
  BigInt (paymentAmount d) = Ok lamports ->
  getLatestBlockhash env rpc = Ok lb ->
  exists bytes msg,
    transferInstructionData lamports = Ok bytes /\
    msg = gaslessTransactionMessage (feePayerAddress d) lb
            (transferInstruction (signer_address client) (facilitatorAddress d) bytes) /\
    trace (createGaslessNativePayment env client version req q config)
      = [EvGetLatestBlockhash rpc; EvSign msg] /\
    outcome (createGaslessNativePayment env client version req q config)
      = match partiallySignTransactionMessageWithSigners env msg with
        | Throw e => Throw e
        | Ok tx =>
            match signature_of tx (signer_address client) with
            | None => Throw no_user_signature
            | Some sig =>
                Ok {| x402Version := version;
                      pp_scheme := scheme req;
                      pp_network := network req;
                      pp_payload := NativePayload
                        {| np_signature := base58_encode env sig;
                           np_transfer :=
                             {| transfer_owner := signer_address client;
                                transfer_destination := facilitatorAddress d;
                                transfer_value := paymentAmount d;
                                transfer_serializedTransaction :=
                                  getBase64EncodedWireTransaction env tx;
                                transfer_blockhash := lb_blockhash lb;
                                transfer_lastValidBlockHeight :=
                                  Number_of_BigInt (lb_lastValidBlockHeight lb) |} |} |}
            end
        end.
Proof.
  intros Hs Hd Hrpc Hbig Hlb.
  eexists _, _. split; [apply transferInstructionData_bytes|]. split; [reflexivity|].
  unfold createGaslessNativePayment. rewrite Hs, Hd. cbv beta iota zeta.
  rewrite Hrpc, lift_ok_bind, Hbig, lift_ok_bind.
  rewrite transferInstructionData_bytes, lift_ok_bind.
  rewrite Hlb, perform_ok_bind.
  match goal with |- context [perform _ ?r ≫= _] => destruct r as [tx|e] end.
  - rewrite perform_ok_bind.
    destruct (signature_of tx (signer_address client)); split; reflexivity.
  - rewrite perform_throw_bind. split; reflexivity.
Qed.


(** The message of every signing request of the native-transfer builder. *)
Lemma native_sign_request client version req q config m :
  In (EvSign m) (trace (createGaslessNativePayment env client version req q config)) ->
  exists d rpc lamports lb,
    success q = true /\
    data q = Some d /\
    getRpcClient env (network req) (config_rpcUrl config) = Ok rpc /\
    BigInt (paymentAmount d) = Ok lamports /\
    getLatestBlockhash env rpc = Ok lb /\
    m = gaslessTransactionMessage (feePayerAddress d) lb
          (transferInstruction (signer_address client) (facilitatorAddress d)
             ([2; 0; 0; 0] ++ le_bytes 8 (lamports mod 2 ^ 64))) /\
    trace (createGaslessNativePayment env client version req q config)
      = [EvGetLatestBlockhash rpc; EvSign m].
Proof.
  intros Hin.
  destruct (success q) eqn:Hs;
    [|rewrite native_invalid_quote in Hin by (now left); destruct Hin].
  destruct (data q) as [d|] eqn:Hd;
    [|rewrite native_invalid_quote in Hin by (now right); destruct Hin].
  destruct (getRpcClient env (network req) (config_rpcUrl config)) as [rpc|e] eqn:Hrpc;
    [|unfold createGaslessNativePayment in Hin; rewrite Hs, Hd, Hrpc in Hin; destruct Hin].
  destruct (BigInt (paymentAmount d)) as [lamports|e] eqn:Hbig;
    [|unfold createGaslessNativePayment in Hin; rewrite Hs, Hd, Hrpc in Hin;
      cbv beta iota zeta in Hin; rewrite lift_ok_bind, Hbig in Hin; destruct Hin].
  destruct (getLatestBlockhash env rpc) as [lb|e] eqn:Hlb.
  - destruct (native_progress client version req q config d rpc lamports lb
                Hs Hd Hrpc Hbig Hlb) as (bytes & msg & Hbytes & -> & Ht & _).
    rewrite transferInstructionData_bytes in Hbytes. injection Hbytes as <-.
    rewrite Ht in Hin |- *.
    destruct Hin as [Hin|[Hin|[]]]; [discriminate Hin|]. injection Hin as <-.
    exists d, rpc, lamports, lb. repeat split; auto.
  - unfold createGaslessNativePayment in Hin. rewrite Hs, Hd, Hrpc in Hin.
    cbv beta iota zeta in Hin.
    rewrite lift_ok_bind, Hbig, lift_ok_bind in Hin.
    rewrite transferInstructionData_bytes, lift_ok_bind, Hlb in Hin.
    destruct Hin as [Hin|[]]. discriminate Hin.
Qed.

(** The transfer of the native builder carries no signer: its accounts are
    plain addresses and its fee payer slot holds an address only. *)
Lemma native_message_unsigned feePayer lb from to bytes :
  attached_signers
    (gaslessTransactionMessage feePayer lb (transferInstruction from to bytes)) = [].
Proof. reflexivity. Qed.

(** With a library that signs only with the signers of the message, the
    native-transfer builder returns no payload. *)
Lemma native_run_unsigned client version req q config t p :
  signs_attached_only env ->
  createGaslessNativePayment env client version req q config = (t, Ok p) -> False.
Proof.
  intros Hsa H. apply native_run in H.
  destruct H as [d rpc lamports bytes lb tx sig Hs Hd Hrpc Hbig Hbytes Hlb Hsign Hsig].
  destruct (Hsa _ _ _ _ Hsign Hsig) as (s & Hin & _).
  rewrite native_message_unsigned in Hin. exact Hin.
Qed.

End Progress.

(** The concrete library signs only with the signers of the message. *)
Lemma slots_unsigned (l : list Address) (a : Address) (v : option (list Z)) :
  foldr (fun a sigs => <[a := None]> sigs) (∅ : gmap Address (option (list Z))) l !! a
    = Some v -> v = None.
Proof.
  induction l as [|b l IH]; cbn [foldr].
  - rewrite lookup_empty. discriminate.
  - rewrite lookup_insert_Some. intros [[_ <-]|[_ H]]; [reflexivity | exact (IH H)].
Qed.

Lemma signed_slots (l : list TransactionSigner) (base : gmap Address (option (list Z)))
    (a : Address) (sig : list Z) :
  (forall v, base !! a = Some v -> v = None) ->
  foldr (fun s sigs => <[signer_address s := Some (Sample.signature s)]> sigs) base l !! a
    = Some (Some sig) ->
  exists s, In s l /\ signer_address s = a.
Proof.
  intros Hbase. induction l as [|s l IH]; cbn [foldr].
  - intros H. apply Hbase in H. discriminate H.
  - rewrite lookup_insert_Some. intros [[<- _]|[_ H]].
    + exists s. split; [now left | reflexivity].
    + destruct (IH H) as (s' & Hin & Ha). exists s'. split; [now right | exact Ha].
Qed.

Lemma sample_signs_attached_only : signs_attached_only Sample.env.
Proof.
  intros m tx a sig H Hsig. cbn in H. unfold Sample.sign in H. injection H as <-.
  unfold signature_of in Hsig. cbn [tx_signatures] in Hsig.
  match type of Hsig with
  | match ?x with _ => _ end = _ => destruct x as [[sig'|]|] eqn:E; try discriminate Hsig
  end.
  injection Hsig as ->.
  eapply signed_slots; [|exact E].
  intros v. apply slots_unsigned.
Qed.

(* ===================================================================== *)
(** ** Quote validation in the two payload builders *)
(* ===================================================================== *)

(** C9.  [createGaslessApprovalPayment] and [createGaslessNativePayment]
    throw "Invalid quote response" whenever [quoteResponse.success] is false
    or [quoteResponse.data] is absent, with an empty trace: no RPC call and
    no signing request has been made.  Consequently a payload returned by
    either function comes from a quote with [success = true] and [data]
    present, and takes its amount and its facilitator address from that
    data, while the message that was signed has the quote's fee payer. *)
Theorem invalid_quote_response_rejected
    (env : Env) (client : TransactionSigner) (version : Z)
    (req : PaymentRequirements) (q : QuoteResponse) (config : option X402Config) :
  (success q = false \/ data q = None ->
     createGaslessApprovalPayment env client version req q config
       = ([], Throw invalid_quote_response) /\
     createGaslessNativePayment env client version req q config
       = ([], Throw invalid_quote_response)) /\
  (forall t p,
     createGaslessApprovalPayment env client version req q config = (t, Ok p) \/
     createGaslessNativePayment env client version req q config = (t, Ok p) ->
     success q = true /\
     exists d m,
       data q = Some d /\
       payload_value p = paymentAmount d /\
       payload_recipient p = facilitatorAddress d /\
       signed_messages t = [m] /\
       tm_feePayer m = Some (mkFeePayer (feePayerAddress d) None)).
Proof.
  split.
  - intros H. split.
    + now apply approval_invalid_quote.
    + now apply native_invalid_quote.
  - intros t p [H|H].
    + apply approval_run in H. destruct H. split; [assumption|].
      eexists _, _. repeat split; eauto.
    + apply native_run in H. destruct H. split; [assumption|].
      eexists _, _. repeat split; eauto.
Qed.

Lemma invalid_quote_response_rejected_witness :
  (success (mkQuoteResponse false None) = false \/
   data (mkQuoteResponse false None) = None) /\
  createGaslessApprovalPayment Sample.env Sample.wallet 1
    (Sample.requirements Sample.USDC "500000" None)
    (mkQuoteResponse false None) None = ([], Throw invalid_quote_response) /\
  createGaslessNativePayment Sample.env Sample.wallet 1
    (Sample.requirements Sample.USDC "500000" None)
    (mkQuoteResponse false None) None = ([], Throw invalid_quote_response).
Proof.
  split; [left; reflexivity|].
  apply (proj1 (invalid_quote_response_rejected Sample.env Sample.wallet 1
                  (Sample.requirements Sample.USDC "500000" None)
                  (mkQuoteResponse false None) None)).
  left. reflexivity.
Defined.

(* ===================================================================== *)
(** ** The delegated-spend payload *)
(* ===================================================================== *)



(** What the concrete library makes of the input that the source passes: the
    first account of the approve instruction, the source of the approval, is
    the program address and not the payer's token account, which the source
    passes under the key [account]. *)
Example sample_approve_source_account :
  exists ix,
    getApproveInstruction2022 Sample.env
      {| approve_account := Sample.tokenAccount;
         approve_delegate := Sample.facilitator;
         approve_owner := Sample.wallet;
         approve_amount := 500000 |} TOKEN_PROGRAM_ADDRESS = Ok ix /\
    map am_address (ix_accounts ix)
      = [TOKEN_PROGRAM_ADDRESS; Sample.facilitator; signer_address Sample.wallet] /\
    ~ In Sample.tokenAccount (map am_address (ix_accounts ix)).
Proof.
  eexists. split; [reflexivity|]. split; [reflexivity|].
  cbn. intros [H|[H|[H|[]]]]; discriminate H.
Qed.

(* ===================================================================== *)
(** ** Resolution of the owning token program *)
(* ===================================================================== *)

Lemma approval_unknown_program env client version req q config d rpc mint :
  success q = true ->
  data q = Some d ->
  getRpcClient env (network req) (config_rpcUrl config) = Ok rpc ->
  fetchMint env rpc (asset req) = Ok mint ->
  programAddress mint <> TOKEN_PROGRAM_ADDRESS ->
  programAddress mint <> TOKEN_2022_PROGRAM_ADDRESS ->
  createGaslessApprovalPayment env client version req q config
  = ([EvFetchMint rpc (asset req)], Throw unknown_token_program).
Proof.
  intros Hs Hd Hrpc Hmint H1 H2. unfold createGaslessApprovalPayment.
  apply String.eqb_neq in H1, H2.
  rewrite Hs, Hd, Hrpc. cbn -[String.eqb BigInt].
  rewrite Hmint. cbn -[String.eqb BigInt].
  rewrite H1, H2. reflexivity.
Qed.

(** C4, as the code has it.  The delegated-spend case looks up the mint of
    the asset before anything else, and when the program that owns the mint
    is neither the Token program nor Token-2022 it throws "Asset was not
    created by a known token program" right after that lookup, without
    building an instruction, asking for a signature or returning a payload;
    a successful run has looked the mint up first, found one of the two
    programs, and built its approve instruction for that program.  The
    native-transfer case never looks up a token program: as soon as the
    client, the amount and the blockhash are there it asks the wallet to sign
    a message whose one instruction is a System Program transfer from the
    payer to the facilitator, and every message that it submits is of this
    kind. *)
Theorem token_program_resolved_by_approval_only
    (env : Env) (client : TransactionSigner) (version : Z)
    (req : PaymentRequirements) (q : QuoteResponse) (config : option X402Config) :
  (forall d rpc mint,
     success q = true ->
     data q = Some d ->
     getRpcClient env (network req) (config_rpcUrl config) = Ok rpc ->
     fetchMint env rpc (asset req) = Ok mint ->
     programAddress mint <> TOKEN_PROGRAM_ADDRESS ->
     programAddress mint <> TOKEN_2022_PROGRAM_ADDRESS ->
     createGaslessApprovalPayment env client version req q config
     = ([EvFetchMint rpc (asset req)], Throw unknown_token_program)) /\
  (forall t p,
     createGaslessApprovalPayment env client version req q config = (t, Ok p) ->
     exists rpc mint t' input ix m,
       t = EvFetchMint rpc (asset req) :: t' /\
       fetchMint env rpc (asset req) = Ok mint /\
       (programAddress mint = TOKEN_PROGRAM_ADDRESS \/
        programAddress mint = TOKEN_2022_PROGRAM_ADDRESS) /\
       getApproveInstruction2022 env input (programAddress mint) = Ok ix /\
       signed_messages t' = [m] /\
       tm_instructions m = [ix]) /\
  resolved_mints
    (trace (createGaslessNativePayment env client version req q config)) = [] /\
  (forall d rpc lamports lb,
     success q = true ->
     data q = Some d ->
     getRpcClient env (network req) (config_rpcUrl config) = Ok rpc ->
     BigInt (paymentAmount d) = Ok lamports ->
     getLatestBlockhash env rpc = Ok lb ->
     exists ix,
       trace (createGaslessNativePayment env client version req q config)
       = [ EvGetLatestBlockhash rpc;
           EvSign {| tm_version := 0;
                     tm_feePayer := Some (mkFeePayer (feePayerAddress d) None);
                     tm_lifetime := Some lb;
                     tm_instructions := [ix] |} ] /\
       ix_programAddress ix = SYSTEM_PROGRAM_ADDRESS /\
       map am_address (ix_accounts ix)
         = [signer_address client; facilitatorAddress d]) /\
  (forall m,
     In (EvSign m)
        (trace (createGaslessNativePayment env client version req q config)) ->
     exists d ix,
       data q = Some d /\
       tm_instructions m = [ix] /\
       ix_programAddress ix = SYSTEM_PROGRAM_ADDRESS /\
       map am_address (ix_accounts ix)
         = [signer_address client; facilitatorAddress d]).
Proof.
  split; [|split; [|split; [|split]]].
  - intros d rpc mint. apply approval_unknown_program.
  - intros t p H. apply approval_run in H. destruct H.
    eexists rpc, mint, _, _, ix, _. repeat split; eauto.
  - apply native_never_resolves.
  - intros d rpc lamports lb Hs Hd Hrpc Hbig Hlb.
    destruct (native_progress env client version req q config d rpc lamports lb
                Hs Hd Hrpc Hbig Hlb) as (bytes & msg & _ & -> & Ht & _).
    eexists. split; [exact Ht|]. split; reflexivity.
  - intros m Hin. apply native_sign_request in Hin.
    destruct Hin as (d & rpc & lamports & lb & _ & Hd & _ & _ & _ & -> & _).
    eexists d, _. split; [exact Hd|]. repeat split.
Qed.

Lemma token_program_resolved_by_approval_only_witness :
  createGaslessApprovalPayment Sample.env Sample.wallet 1
    (Sample.requirements Sample.strayAsset "500000" None) (Sample.quote "500000") None
  = ([EvFetchMint Sample.rpc Sample.strayAsset], Throw unknown_token_program).
Proof.
  apply (proj1 (token_program_resolved_by_approval_only Sample.env Sample.wallet 1
                  (Sample.requirements Sample.strayAsset "500000" None)
                  (Sample.quote "500000") None)
           (mkQuoteData "500000" Sample.facilitator Sample.sponsor)
           Sample.rpc (mkMint Sample.strayProgram));
    try reflexivity; vm_compute; discriminate.
Defined.

(** C4 as stated fails on the native-transfer case.  For the native asset
    the node knows no mint at all, and still the transfer is built and
    submitted to the wallet, without any lookup of a token program.  And for
    an asset whose mint is owned by a program that is neither the Token
    program nor Token-2022, [createGaslessNativePayment] does not throw the
    error of an unknown token program: it builds the transfer, submits it to
    the wallet, and ends on another error. *)
Lemma native_skips_token_program_counterexample :
  (is_ok (fetchMint Sample.env Sample.rpc NATIVE_SOL_ADDRESS) = false /\
   createGaslessPaymentHeader Sample.env Wire.encodePayment Sample.wallet 1
     (Sample.requirements NATIVE_SOL_ADDRESS "500000" (Some Sample.quoted_extra))
     Sample.facilitator None
   = (Sample.native_trace [2; 0; 0; 0; 32; 161; 7; 0; 0; 0; 0; 0],
      Throw no_user_signature) /\
   resolved_mints (Sample.native_trace [2; 0; 0; 0; 32; 161; 7; 0; 0; 0; 0; 0]) = [] /\
   signed_messages (Sample.native_trace [2; 0; 0; 0; 32; 161; 7; 0; 0; 0; 0; 0])
   = [ gaslessTransactionMessage Sample.sponsor Sample.latestBlockhash
         (transferInstruction (signer_address Sample.wallet) Sample.facilitator
            [2; 0; 0; 0; 32; 161; 7; 0; 0; 0; 0; 0]) ]) /\
  (fetchMint Sample.env Sample.rpc Sample.strayAsset = Ok (mkMint Sample.strayProgram) /\
   Sample.strayProgram <> TOKEN_PROGRAM_ADDRESS /\
   Sample.strayProgram <> TOKEN_2022_PROGRAM_ADDRESS /\
   createGaslessNativePayment Sample.env Sample.wallet 1
     (Sample.requirements Sample.strayAsset "500000" None) (Sample.quote "500000") None
   = (Sample.native_trace [2; 0; 0; 0; 32; 161; 7; 0; 0; 0; 0; 0],
      Throw no_user_signature) /\
   no_user_signature <> unknown_token_program).
Proof.
  repeat split; try (vm_compute; reflexivity); vm_compute; discriminate.
Qed.

(* ===================================================================== *)
(** ** The native-transfer instruction *)
(* ===================================================================== *)

(** X19.  The message of every signing request of
    [createGaslessNativePayment], whether the call then succeeds or not:
    its one instruction targets the system program, with the payer's address
    as first account and [facilitatorAddress] as second, and its data is
    exactly 12 bytes: the little-endian 32-bit integer 2, followed by the
    little-endian 64-bit encoding of [BigInt(paymentAmount)] reduced modulo
    2^64, which is [BigInt(paymentAmount)] itself whenever that lies in the
    unsigned 64-bit range. *)
Lemma native_sign_request_layout
    (env : Env) (client : TransactionSigner) (version : Z)
    (req : PaymentRequirements) (q : QuoteResponse) (config : option X402Config)
    (m : TransactionMessage) :
  In (EvSign m) (trace (createGaslessNativePayment env client version req q config)) ->
  exists d lamports ix,
    data q = Some d /\
    BigInt (paymentAmount d) = Ok lamports /\
    tm_instructions m = [ix] /\
    ix_programAddress ix = SYSTEM_PROGRAM_ADDRESS /\
    map am_address (ix_accounts ix)
      = [signer_address client; facilitatorAddress d] /\
    length (ix_data ix) = 12%nat /\
    take 4 (ix_data ix) = le_bytes 4 2 /\
    drop 4 (ix_data ix) = le_bytes 8 (lamports mod 2 ^ 64) /\
    le_value (take 4 (ix_data ix)) = 2 /\
    le_value (drop 4 (ix_data ix)) = lamports mod 2 ^ 64 /\
    (0 <= lamports < 2 ^ 64 -> le_value (drop 4 (ix_data ix)) = lamports).
Proof.
  intros Hin. apply native_sign_request in Hin.
  destruct Hin as (d & rpc & lamports & lb & _ & Hd & _ & Hbig & _ & -> & _).
  assert (Hval : le_value (le_bytes 8 (lamports mod 2 ^ 64)) = lamports mod 2 ^ 64).
  { rewrite le_value_le_bytes. change (8 * Z.of_nat 8) with 64.
    apply Z.mod_mod. lia. }
  eexists d, lamports, _.
  split; [exact Hd|]. split; [exact Hbig|].
  do 7 (split; [reflexivity|]).
  split; [exact Hval|].
  intros Hr. etransitivity; [exact Hval|]. apply Z.mod_small. exact Hr.
Qed.

Lemma native_sign_request_layout_witness :
  In (EvSign (gaslessTransactionMessage Sample.sponsor Sample.latestBlockhash
                (transferInstruction (signer_address Sample.wallet) Sample.facilitator
                   [2; 0; 0; 0; 32; 161; 7; 0; 0; 0; 0; 0])))
     (trace (createGaslessNativePayment Sample.env Sample.wallet 1
               (Sample.requirements NATIVE_SOL_ADDRESS "500000" None)
               (Sample.quote "500000") None)) /\
  exists d lamports ix,
    data (Sample.quote "500000") = Some d /\
    BigInt (paymentAmount d) = Ok lamports /\
    tm_instructions
      (gaslessTransactionMessage Sample.sponsor Sample.latestBlockhash
         (transferInstruction (signer_address Sample.wallet) Sample.facilitator
            [2; 0; 0; 0; 32; 161; 7; 0; 0; 0; 0; 0])) = [ix] /\
    ix_programAddress ix = SYSTEM_PROGRAM_ADDRESS /\
    map am_address (ix_accounts ix)
      = [signer_address Sample.wallet; facilitatorAddress d] /\
    length (ix_data ix) = 12%nat /\
    take 4 (ix_data ix) = le_bytes 4 2 /\
    drop 4 (ix_data ix) = le_bytes 8 (lamports mod 2 ^ 64) /\
    le_value (take 4 (ix_data ix)) = 2 /\
    le_value (drop 4 (ix_data ix)) = lamports mod 2 ^ 64 /\
    (0 <= lamports < 2 ^ 64 -> le_value (drop 4 (ix_data ix)) = lamports).
Proof.
  assert (H : In (EvSign (gaslessTransactionMessage Sample.sponsor Sample.latestBlockhash
                            (transferInstruction (signer_address Sample.wallet)
                               Sample.facilitator
                               [2; 0; 0; 0; 32; 161; 7; 0; 0; 0; 0; 0])))
                 (trace (createGaslessNativePayment Sample.env Sample.wallet 1
                           (Sample.requirements NATIVE_SOL_ADDRESS "500000" None)
                           (Sample.quote "500000") None))).
  { vm_compute. tauto. }
  split; [exact H|].
  exact (native_sign_request_layout _ _ _ _ _ _ _ H).
Defined.


(* ===================================================================== *)
(** ** Selection of the payload case by the asset *)
(* ===================================================================== *)

(** The quote that [createGaslessPaymentHeader] rebuilds from the payment
    requirements. *)
Lemma gasless_header_dispatch env encodePayment client version req fac config feePayer :
  extra_get "feePayer" req = Some feePayer ->
  feePayer <> "" ->
  createGaslessPaymentHeader env encodePayment client version req fac config
  = let q := {| success := true;
                data := Some {| paymentAmount := maxAmountRequired req;
                                facilitatorAddress := fac;
                                feePayerAddress := feePayer |} |} in
    if String.eqb (asset req) NATIVE_SOL_ADDRESS
    then createGaslessNativePaymentHeader env encodePayment client version req q config
    else createGaslessApprovalPaymentHeader env encodePayment client version req q config.
Proof.
  intros He Hne. unfold createGaslessPaymentHeader. rewrite He.
  apply String.eqb_neq in Hne. rewrite Hne. reflexivity.
Qed.

Lemma gasless_header_fee_payer env encodePayment client version req fac config t h :
  createGaslessPaymentHeader env encodePayment client version req fac config = (t, Ok h) ->
  exists feePayer, extra_get "feePayer" req = Some feePayer /\ feePayer <> "".
Proof.
  unfold createGaslessPaymentHeader.
  destruct (extra_get "feePayer" req) as [fp|]; [|discriminate].
  destruct (String.eqb fp "") eqn:E; [discriminate|].
  intros _. exists fp. split; [reflexivity|]. now apply String.eqb_neq.
Qed.

(** A header function runs its builder and encodes the payload. *)
Lemma header_run {A B} (m : M A) (f : A -> B) :
  trace (m ≫= fun a => mret (f a)) = trace m /\
  outcome (m ≫= fun a => mret (f a))
  = match outcome m with
    | Ok a => Ok (f a)
    | Throw e => Throw e
    end.
Proof.
  destruct m as [t [a|e]]; cbn; [|split; reflexivity].
  rewrite app_nil_r. split; reflexivity.
Qed.



(** In the concrete environment the native case gets as far as the signing
    request for the transfer, and ends without a header: the transfer carries
    no signer, so the wallet's reply holds no signature of the payer. *)
Example sample_native_header :
  createGaslessPaymentHeader Sample.env Wire.encodePayment Sample.wallet 1
    (Sample.requirements NATIVE_SOL_ADDRESS "500000" (Some Sample.quoted_extra))
    Sample.facilitator None
  = (Sample.native_trace [2; 0; 0; 0; 32; 161; 7; 0; 0; 0; 0; 0],
     Throw no_user_signature).
Proof. vm_compute. reflexivity. Qed.

(* ===================================================================== *)
(** ** Missing quote data *)
(* ===================================================================== *)

Lemma falsy_cases (v : option string) :
  truthy v = false -> v = None \/ v = Some "".
Proof.
  destruct v as [s|]; [|auto]. cbn. intros H.
  apply negb_false_iff, String.eqb_eq in H. subst. auto.
Qed.

(** C1.  When [paymentRequirements.extra] carries no usable
    [facilitatorAddress] (it is absent, or empty, or [extra] itself is
    absent), [createPaymentHeader] throws its dedicated error with an empty
    trace.  When it carries no usable [feePayer],
    [createGaslessPaymentHeader] throws its dedicated error with an empty
    trace, whatever facilitator address it is given, and
    [createPaymentHeader] throws one of the two dedicated errors without any
    network or signing activity.  In each case no header is returned. *)
Theorem missing_quote_data_rejected
    (env : Env) (encodePayment : PaymentPayload -> string)
    (client : TransactionSigner) (version : Z)
    (req : PaymentRequirements) (config : option X402Config) :
  (truthy (extra_get "facilitatorAddress" req) = false ->
     createPaymentHeader env encodePayment client version req config
     = ([], Throw facilitator_address_required)) /\
  (truthy (extra_get "feePayer" req) = false ->
     (forall fac,
        createGaslessPaymentHeader env encodePayment client version req fac config
        = ([], Throw fee_payer_required)) /\
     (exists e,
        outcome (createPaymentHeader env encodePayment client version req config)
          = Throw e /\
        (e = facilitator_address_required \/ e = fee_payer_required) /\
        quiet (trace (createPaymentHeader env encodePayment client version req config))
          = true)).
Proof.
  split.
  - intros H. unfold createPaymentHeader.
    destruct (falsy_cases _ H) as [-> | ->]; reflexivity.
  - intros H.
    assert (Hg : forall fac,
               createGaslessPaymentHeader env encodePayment client version req fac config
               = ([], Throw fee_payer_required)).
    { intros fac. unfold createGaslessPaymentHeader.
      destruct (falsy_cases _ H) as [-> | ->]; reflexivity. }
    split; [exact Hg|].
    unfold createPaymentHeader.
    destruct (extra_get "facilitatorAddress" req) as [fa|].
    + destruct (String.eqb fa "").
      * exists facilitator_address_required. cbn. auto.
      * exists fee_payer_required. unfold perform. rewrite bind_ok, Hg. cbn. auto.
    + exists facilitator_address_required. cbn. auto.
Qed.

Lemma missing_quote_data_rejected_witness :
  (truthy (extra_get "facilitatorAddress"
             (Sample.requirements Sample.USDC "500000" None)) = false /\
   createPaymentHeader Sample.env Wire.encodePayment Sample.wallet 1
     (Sample.requirements Sample.USDC "500000" None) None
   = ([], Throw facilitator_address_required)) /\
  (truthy (extra_get "feePayer"
             (Sample.requirements Sample.USDC "500000"
                (Some {[ "facilitatorAddress" := Sample.facilitator ]}))) = false /\
   createGaslessPaymentHeader Sample.env Wire.encodePayment Sample.wallet 1
     (Sample.requirements Sample.USDC "500000"
        (Some {[ "facilitatorAddress" := Sample.facilitator ]}))
     Sample.facilitator None
   = ([], Throw fee_payer_required)).
Proof.
  split; (split; [vm_compute; reflexivity|]).
  - apply (proj1 (missing_quote_data_rejected Sample.env Wire.encodePayment Sample.wallet 1
                    (Sample.requirements Sample.USDC "500000" None) None)).
    vm_compute. reflexivity.
  - apply (proj2 (missing_quote_data_rejected Sample.env Wire.encodePayment Sample.wallet 1
                    (Sample.requirements Sample.USDC "500000"
                       (Some {[ "facilitatorAddress" := Sample.facilitator ]})) None)).
    vm_compute. reflexivity.
Defined.

Example sample_header_after_import :
  createPaymentHeader Sample.env Wire.encodePayment Sample.wallet 1
    (Sample.requirements Sample.USDC "500000"
       (Some {[ "facilitatorAddress" := Sample.facilitator ]})) None
  = ([EvImport "./gasless-client"], Throw fee_payer_required).
Proof. vm_compute. reflexivity. Qed.

(* ===================================================================== *)
(** ** The quote call of the facilitator client *)
(* ===================================================================== *)

Example sample_quote_call :
  getPaymentQuote Sample.http Sample.USDC "solana"
    "0x833589fCD6eDb6E08f4c7C32D4f71b54bdA02913" "base" "1000000"
    "https://mainnet.anyspend.com"
  = ([EvFetch (quoteHttpRequest Sample.USDC "solana"
                 "0x833589fCD6eDb6E08f4c7C32D4f71b54bdA02913" "base" "1000000"
                 "https://mainnet.anyspend.com")],
     Ok (Json.JObj
           [ ("success", Json.JBool true);
             ("data", Json.JObj [ ("paymentAmount", Json.JStr "500000");
                                  ("facilitatorAddress", Json.JStr Sample.facilitator);
                                  ("feePayerAddress", Json.JStr Sample.sponsor) ]) ])).
Proof. vm_compute. reflexivity. Qed.

Section Quote.

Context {JsValue : Type} (env : HttpEnv JsValue).

Lemma quote_trace a b c d e url :
  trace (getPaymentQuote env a b c d e url)
  = [EvFetch (quoteHttpRequest a b c d e url)].
Proof.
  unfold getPaymentQuote.
  destruct (fetch env (quoteHttpRequest a b c d e url)) as [r|m]; [|reflexivity].
  unfold perform. rewrite bind_ok. cbn [fst trace].
  destruct (negb (response_ok r)).
  - unfold response_text. destruct (resp_body r); reflexivity.
  - unfold response_json. destruct (resp_body r) as [s|m]; [|reflexivity].
    destruct (JSON_parse env s); reflexivity.
Qed.

Lemma quote_network_error a b c d e url m :
  fetch env (quoteHttpRequest a b c d e url) = NetworkError m ->
  outcome (getPaymentQuote env a b c d e url) = Throw (TypeError m).
Proof. intros H. unfold getPaymentQuote. rewrite H. reflexivity. Qed.

Lemma quote_rejected a b c d e url r text :
  fetch env (quoteHttpRequest a b c d e url) = Responded r ->
  response_ok r = false ->
  resp_body r = BodyText text ->
  outcome (getPaymentQuote env a b c d e url)
  = Throw (quote_failed (resp_status r) text).
Proof.
  intros H Hok Hb. unfold getPaymentQuote. rewrite H.
  unfold perform. rewrite bind_ok. rewrite Hok. cbn [negb].
  unfold response_text. rewrite Hb. reflexivity.
Qed.

Lemma quote_accepted a b c d e url r text v :
  fetch env (quoteHttpRequest a b c d e url) = Responded r ->
  response_ok r = true ->
  resp_body r = BodyText text ->
  JSON_parse env text = Ok v ->
  outcome (getPaymentQuote env a b c d e url) = Ok v.
Proof.
  intros H Hok Hb Hp. unfold getPaymentQuote. rewrite H.
  unfold perform. rewrite bind_ok. rewrite Hok. cbn [negb].
  unfold response_json. rewrite Hb, Hp. reflexivity.
Qed.

End Quote.

(** C7, as the code has it.  [getPaymentQuote] performs exactly one HTTP
    request: a POST to the facilitator URL followed by [/x402/quote], with
    the header [Content-Type: application/json] and, as body, the JSON text
    of the object with the members [srcTokenAddress], [srcNetwork],
    [dstTokenAddress], [dstNetwork] and [dstAmount], in this order, a text
    that parses back to that object.  When the response has a status from
    200 to 299 and its body parses as JSON, the call returns the parsed
    body. *)
Theorem quote_posts_request_and_returns_body
    {JsValue : Type} (env : HttpEnv JsValue)
    (srcTokenAddress : string) (srcNetwork : Network)
    (dstTokenAddress : string) (dstNetwork : Network) (dstAmount : string)
    (facilitatorUrl : string) :
  trace (getPaymentQuote env srcTokenAddress srcNetwork dstTokenAddress
           dstNetwork dstAmount facilitatorUrl)
  = [ EvFetch
        {| http_url := facilitatorUrl +:+ "/x402/quote";
           http_method := "POST";
           http_headers := [("Content-Type", "application/json")];
           http_body :=
             Json.stringify
               (Json.JObj [ ("srcTokenAddress", Json.JStr srcTokenAddress);
                            ("srcNetwork", Json.JStr srcNetwork);
                            ("dstTokenAddress", Json.JStr dstTokenAddress);
                            ("dstNetwork", Json.JStr dstNetwork);
                            ("dstAmount", Json.JStr dstAmount) ]) |} ] /\
  Json.parse
    (http_body (quoteHttpRequest srcTokenAddress srcNetwork dstTokenAddress
                  dstNetwork dstAmount facilitatorUrl))
  = Some (Json.JObj [ ("srcTokenAddress", Json.JStr srcTokenAddress);
                      ("srcNetwork", Json.JStr srcNetwork);
                      ("dstTokenAddress", Json.JStr dstTokenAddress);
                      ("dstNetwork", Json.JStr dstNetwork);
                      ("dstAmount", Json.JStr dstAmount) ]) /\
  (forall r text v,
     fetch env (quoteHttpRequest srcTokenAddress srcNetwork dstTokenAddress
                  dstNetwork dstAmount facilitatorUrl) = Responded r ->
     200 <= resp_status r <= 299 ->
     resp_body r = BodyText text ->
     JSON_parse env text = Ok v ->
     outcome (getPaymentQuote env srcTokenAddress srcNetwork dstTokenAddress
                dstNetwork dstAmount facilitatorUrl) = Ok v).
Proof.
  split; [|split].
  - apply quote_trace.
  - apply JsonFacts.parse_stringify.
  - intros r text v Hf Hs Hb Hp. eapply quote_accepted; eauto.
    unfold response_ok. apply andb_true_iff. split; apply Z.leb_le; lia.
Qed.

Lemma quote_posts_request_and_returns_body_witness :
  outcome (getPaymentQuote Sample.http Sample.USDC "solana"
             "0x833589fCD6eDb6E08f4c7C32D4f71b54bdA02913" "base" "1000000"
             "https://mainnet.anyspend.com")
  = Ok (Json.JObj
          [ ("success", Json.JBool true);
            ("data", Json.JObj [ ("paymentAmount", Json.JStr "500000");
                                 ("facilitatorAddress", Json.JStr Sample.facilitator);
                                 ("feePayerAddress", Json.JStr Sample.sponsor) ]) ]).
Proof.
  apply (proj2 (proj2 (quote_posts_request_and_returns_body Sample.http Sample.USDC
                         "solana" "0x833589fCD6eDb6E08f4c7C32D4f71b54bdA02913" "base"
                         "1000000" "https://mainnet.anyspend.com"))
           (mkResponse 200 (BodyText Sample.quote_body)) Sample.quote_body).
  - vm_compute. reflexivity.
  - cbn. lia.
  - reflexivity.
  - vm_compute. reflexivity.
Defined.

(** C7 as stated names the path [/quote]; the request goes to
    [/x402/quote] under the facilitator URL. *)
Lemma quote_path_counterexample :
  exists r,
    trace (getPaymentQuote Sample.http Sample.USDC "solana"
             "0x833589fCD6eDb6E08f4c7C32D4f71b54bdA02913" "base" "1000000"
             "https://mainnet.anyspend.com") = [EvFetch r] /\
    http_url r = "https://mainnet.anyspend.com/x402/quote" /\
    http_url r <> "https://mainnet.anyspend.com" +:+ "/quote".
Proof.
  eexists. split; [vm_compute; reflexivity|]. split; [reflexivity|].
  vm_compute. discriminate.
Qed.

(* ===================================================================== *)
(** ** Transport failures and rejections *)
(* ===================================================================== *)

(** C8.  In the quote call, a failure of the transport (the request gets no
    response) surfaces as the [TypeError] raised by [fetch], and a rejection
    by the facilitator (a response outside 200..299 with a body) surfaces as
    an [Error] whose message starts with "Failed to get payment quote: " and
    carries the status and the body.  The two outcomes are never equal,
    whatever the two calls, networks, statuses, bodies and messages are,
    and neither is a returned value. *)
Theorem transport_failure_distinct_from_rejection
    {JsValue : Type} (env1 env2 : HttpEnv JsValue)
    (a1 b1 c1 d1 e1 url1 a2 b2 c2 d2 e2 url2 : string)
    (message : string) (r : Response) (text : string) :
  fetch env1 (quoteHttpRequest a1 b1 c1 d1 e1 url1) = NetworkError message ->
  fetch env2 (quoteHttpRequest a2 b2 c2 d2 e2 url2) = Responded r ->
  response_ok r = false ->
  resp_body r = BodyText text ->
  outcome (getPaymentQuote env1 a1 b1 c1 d1 e1 url1)
    = Throw (mkJsError "TypeError" message) /\
  outcome (getPaymentQuote env2 a2 b2 c2 d2 e2 url2)
    = Throw (mkJsError "Error"
               ("Failed to get payment quote: " +:+ string_of_Z (resp_status r)
                +:+ " " +:+ text)) /\
  outcome (getPaymentQuote env1 a1 b1 c1 d1 e1 url1)
    <> outcome (getPaymentQuote env2 a2 b2 c2 d2 e2 url2).
Proof.
  intros H1 H2 Hok Hb.
  rewrite (quote_network_error env1 _ _ _ _ _ _ _ H1).
  rewrite (quote_rejected env2 _ _ _ _ _ _ _ _ H2 Hok Hb).
  repeat split. unfold TypeError, quote_failed, Error. intros [= Hname _].
Qed.

Lemma transport_failure_distinct_from_rejection_witness :
  outcome (getPaymentQuote Sample.http Sample.USDC "solana"
             "0x833589fCD6eDb6E08f4c7C32D4f71b54bdA02913" "base" "1000000"
             "https://facilitator.invalid")
    = Throw (mkJsError "TypeError" "fetch failed") /\
  outcome (getPaymentQuote Sample.http Sample.USDC "solana"
             "0x833589fCD6eDb6E08f4c7C32D4f71b54bdA02913" "ethereum" "1000000"
             "https://mainnet.anyspend.com")
    = Throw (mkJsError "Error"
               ("Failed to get payment quote: " +:+ string_of_Z 400
                +:+ " " +:+ "unsupported pair")) /\
  outcome (getPaymentQuote Sample.http Sample.USDC "solana"
             "0x833589fCD6eDb6E08f4c7C32D4f71b54bdA02913" "base" "1000000"
             "https://facilitator.invalid")
    <> outcome (getPaymentQuote Sample.http Sample.USDC "solana"
                  "0x833589fCD6eDb6E08f4c7C32D4f71b54bdA02913" "ethereum" "1000000"
                  "https://mainnet.anyspend.com").
Proof.
  apply (transport_failure_distinct_from_rejection Sample.http Sample.http
           Sample.USDC "solana" "0x833589fCD6eDb6E08f4c7C32D4f71b54bdA02913"
           "base" "1000000" "https://facilitator.invalid"
           Sample.USDC "solana" "0x833589fCD6eDb6E08f4c7C32D4f71b54bdA02913"
           "ethereum" "1000000" "https://mainnet.anyspend.com"
           "fetch failed" (mkResponse 400 (BodyText "unsupported pair"))
           "unsupported pair"); vm_compute; reflexivity.
Defined.

(* ===================================================================== *)
(** ** The request lifecycle of the resource server *)
(* ===================================================================== *)

Section CoreLifecycle.

Import ProtocolCore.

Variable accepts : list PaymentRequirements.
Variable decodePayment : string -> option PaymentPayload.
Variable verify : PaymentPayload -> PaymentRequirements -> Reply VerifyResult.
Variable settle : PaymentPayload -> PaymentRequirements -> Reply SettleResult.

Abbreviation step := (ProtocolCore.step accepts decodePayment verify settle).
Abbreviation lifecycle := (ProtocolCore.lifecycle verify).

Lemma lifecycle_step st st' :
  lifecycle st -> step st st' -> lifecycle st'.
Proof.
  intros Hinv Hstep. destruct Hstep; unfold ProtocolCore.lifecycle in *;
    cbn [phase log] in *.
  - reflexivity.
  - left. reflexivity.
  - left. reflexivity.
  - reflexivity.
  - subst l. cbn. split; [reflexivity|].
    match goal with H : verify _ _ = _ |- _ => rewrite H end. assumption.
  - subst l. right. exists p, r. split; [reflexivity|].
    match goal with H : verify _ _ = _ |- _ => rewrite H end. assumption.
  - subst l. right. exists p, r. split; [reflexivity|].
    match goal with H : verify _ _ = _ |- _ => rewrite H end. reflexivity.
  - destruct Hinv as [-> Hv]. split; [reflexivity | assumption].
  - destruct Hinv as [-> Hv]. split; [reflexivity | assumption].
Qed.

Lemma lifecycle_reachable header st :
  rtc step (mkState (Received header) []) st -> lifecycle st.
Proof.
  revert st. apply rtc_ind_r.
  - reflexivity.
  - intros y z _ Hstep Hy. eapply lifecycle_step; eassumption.
Qed.

End CoreLifecycle.

(** C5.  In every state that the core can reach while it handles a request,
    the resource has been served only after a [verify] call that the
    facilitator answered with success; the calls of the request were made
    in the order verify, serve, settle, each at most once; and after a
    [verify] call that did not succeed the log holds that call alone:
    neither the resource was served nor [settle] called. *)
Theorem served_only_after_successful_verify
    (accepts : list PaymentRequirements)
    (decodePayment : string -> option PaymentPayload)
    (verify : PaymentPayload -> PaymentRequirements
              -> ProtocolCore.Reply ProtocolCore.VerifyResult)
    (settle : PaymentPayload -> PaymentRequirements
              -> ProtocolCore.Reply ProtocolCore.SettleResult)
    (header : option string) (st : ProtocolCore.State) :
  rtc (ProtocolCore.step accepts decodePayment verify settle)
      (ProtocolCore.mkState (ProtocolCore.Received header) []) st ->
  (forall res, In (ProtocolCore.ServeResource res) (ProtocolCore.log st) ->
     exists p r v rest,
       ProtocolCore.log st
         = ProtocolCore.CallVerify p r :: ProtocolCore.ServeResource res :: rest /\
       verify p r = ProtocolCore.Answered v /\
       ProtocolCore.isValid v = true /\
       (rest = [] \/ rest = [ProtocolCore.CallSettle p r])) /\
  (forall p r, In (ProtocolCore.CallSettle p r) (ProtocolCore.log st) ->
     ProtocolCore.log st
       = [ ProtocolCore.CallVerify p r;
           ProtocolCore.ServeResource (resource r);
           ProtocolCore.CallSettle p r ]) /\
  (forall p r, In (ProtocolCore.CallVerify p r) (ProtocolCore.log st) ->
     ProtocolCore.verified_ok (verify p r) = false ->
     ProtocolCore.log st = [ProtocolCore.CallVerify p r]).
Proof.
  intros Hreach. apply lifecycle_reachable in Hreach.
  unfold ProtocolCore.lifecycle in Hreach.
  assert (Hok : forall p r, ProtocolCore.verified_ok (verify p r) = true ->
            exists v, verify p r = ProtocolCore.Answered v /\
                      ProtocolCore.isValid v = true).
  { intros p r. destruct (verify p r) as [v|]; cbn; [|discriminate]. eauto. }
  destruct st as [ph lg]. cbn [ProtocolCore.phase ProtocolCore.log] in *.
  destruct ph as [h | acc | e | p r | p r | p r | p r s].
  - subst lg. repeat split; intros; contradiction.
  - subst lg. repeat split; intros; contradiction.
  - destruct Hreach as [-> | (p & r & -> & Hv)].
    + repeat split; intros; contradiction.
    + split; [|split].
      * intros res [H|[]]. discriminate H.
      * intros p' r' [H|[]]. discriminate H.
      * intros p' r' [H|[]] _. now injection H as <- <-.
  - subst lg. repeat split; intros; contradiction.
  - destruct Hreach as [-> Hv]. split; [|split].
    + intros res [H|[]]. discriminate H.
    + intros p' r' [H|[]]. discriminate H.
    + intros p' r' [H|[]] _. now injection H as <- <-.
  - destruct Hreach as [-> Hv]. destruct (Hok _ _ Hv) as (v & Hv1 & Hv2).
    split; [|split].
    + intros res [H|[H|[]]]; [discriminate H|]. injection H as <-.
      exists p, r, v, []. auto.
    + intros p' r' [H|[H|[]]]; discriminate H.
    + intros p' r' [H|[H|[]]] Hf; [|discriminate H].
      injection H as <- <-. congruence.
  - destruct Hreach as [-> Hv]. destruct (Hok _ _ Hv) as (v & Hv1 & Hv2).
    split; [|split].
    + intros res [H|[H|[H|[]]]]; [discriminate H| |discriminate H].
      injection H as <-. exists p, r, v, [ProtocolCore.CallSettle p r]. auto.
    + intros p' r' [H|[H|[H|[]]]]; [discriminate H|discriminate H|].
      now injection H as <- <-.
    + intros p' r' [H|[H|[H|[]]]] Hf; [|discriminate H|discriminate H].
      injection H as <- <-. congruence.
Qed.

Lemma served_only_after_successful_verify_witness :
  let verify := fun (_ : PaymentPayload) (_ : PaymentRequirements) =>
    ProtocolCore.Answered (ProtocolCore.mkVerifyResult true None) in
  let settle := fun (p : PaymentPayload) (r : PaymentRequirements) =>
    ProtocolCore.Answered
      (ProtocolCore.mkSettleResult true "5VERv8NMvzbJMEkV8xnrLkEaWRtSz9CosKDYjCJjBRnb"
         (pp_network p) Sample.wallet.(signer_address) None) in
  let r := Sample.requirements Sample.USDC "500000" (Some Sample.quoted_extra) in
  let p := Sample.approval_payload in
  let final :=
    ProtocolCore.mkState (ProtocolCore.Settled p r (settle p r))
      [ ProtocolCore.CallVerify p r;
        ProtocolCore.ServeResource (resource r);
        ProtocolCore.CallSettle p r ] in
  rtc (ProtocolCore.step [r] (fun _ => Some p) verify settle)
      (ProtocolCore.mkState (ProtocolCore.Received (Some "eyJ4NDAyVmVyc2lvbiI6MX0=")) [])
      final /\
  exists p' r' v rest,
    ProtocolCore.log final
      = ProtocolCore.CallVerify p' r' :: ProtocolCore.ServeResource (resource r) :: rest /\
    verify p' r' = ProtocolCore.Answered v /\
    ProtocolCore.isValid v = true /\
    (rest = [] \/ rest = [ProtocolCore.CallSettle p' r']).
Proof.
  cbv zeta.
  assert (Hrun :
    rtc (ProtocolCore.step
           [Sample.requirements Sample.USDC "500000" (Some Sample.quoted_extra)]
           (fun _ => Some Sample.approval_payload)
           (fun _ _ => ProtocolCore.Answered (ProtocolCore.mkVerifyResult true None))
           (fun p _ =>
              ProtocolCore.Answered
                (ProtocolCore.mkSettleResult true
                   "5VERv8NMvzbJMEkV8xnrLkEaWRtSz9CosKDYjCJjBRnb"
                   (pp_network p) Sample.wallet.(signer_address) None)))
      (ProtocolCore.mkState (ProtocolCore.Received (Some "eyJ4NDAyVmVyc2lvbiI6MX0=")) [])
      (ProtocolCore.mkState
         (ProtocolCore.Settled Sample.approval_payload
            (Sample.requirements Sample.USDC "500000" (Some Sample.quoted_extra))
            (ProtocolCore.Answered
               (ProtocolCore.mkSettleResult true
                  "5VERv8NMvzbJMEkV8xnrLkEaWRtSz9CosKDYjCJjBRnb"
                  "solana" Sample.wallet.(signer_address) None)))
         [ ProtocolCore.CallVerify Sample.approval_payload
             (Sample.requirements Sample.USDC "500000" (Some Sample.quoted_extra));
           ProtocolCore.ServeResource "https://api.example.com/premium";
           ProtocolCore.CallSettle Sample.approval_payload
             (Sample.requirements Sample.USDC "500000" (Some Sample.quoted_extra)) ])).
  { eapply rtc_l.
    { eapply ProtocolCore.step_match; reflexivity. }
    eapply rtc_l.
    { eapply (ProtocolCore.step_verify_ok _ _ _ _ _ _ _ []); reflexivity. }
    eapply rtc_l.
    { apply ProtocolCore.step_serve. }
    eapply rtc_l.
    { apply ProtocolCore.step_settle. }
    apply rtc_refl. }
  split; [exact Hrun|].
  apply (proj1 (served_only_after_successful_verify _ _ _ _ _ _ Hrun)).
  cbn. auto.
Defined.

(* ===================================================================== *)
(** ** The wire encoding *)
(* ===================================================================== *)

Lemma fromJSON_toJSON (p : PaymentPayload) : Wire.fromJSON (Wire.toJSON p) = Some p.
Proof.
  destruct p as [v s n [[sig []] | [sig []] | [sig []]]]; reflexivity.
Qed.

Lemma decodePayment_steps (header text : string) (j : Json.json) :
  Base64.decode header = Some text ->
  Json.parse text = Some j ->
  Wire.decodePayment header = Wire.fromJSON j.
Proof.
  intros Hd Hp. unfold Wire.decodePayment. rewrite Hd. cbn [mbind option_bind].
  rewrite Hp. reflexivity.
Qed.

(** C6.  Decoding the wire encoding of a payment payload returns the
    payload, for each of the three payload shapes and whatever its strings
    and numbers are: the header value is the base64 of the JSON text of the
    payload, the decoder undoes the base64, parses the JSON text and reads
    the payload back from the parsed object. *)
Theorem decode_encode_payment (p : PaymentPayload) :
  Wire.decodePayment (Wire.encodePayment p) = Some p.
Proof.
  unfold Wire.encodePayment.
  rewrite (decodePayment_steps _ _ _
             (Base64Facts.decode_encode (Json.stringify (Wire.toJSON p)))
             (JsonFacts.parse_stringify (Wire.toJSON p))).
  apply fromJSON_toJSON.
Qed.

(** The header of a gasless approval decodes to the payload that
    [createGaslessApprovalPayment] built. *)
Lemma approval_header_decodes env client version req q config t header :
  createGaslessApprovalPaymentHeader env Wire.encodePayment client version req q config
    = (t, Ok header) ->
  exists p,
    createGaslessApprovalPayment env client version req q config = (t, Ok p) /\
    Wire.decodePayment header = Some p.
Proof.
  unfold createGaslessApprovalPaymentHeader. intros H.
  apply bind_inv_ok in H as (t1 & p & t2 & Hrun & Hret & ->).
  apply mret_inv_ok in Hret as [<- ->]. rewrite app_nil_r.
  exists p. split; [exact Hrun | apply decode_encode_payment].
Qed.

Example sample_header_round_trip :
  Wire.decodePayment (Wire.encodePayment Sample.approval_payload)
  = Some Sample.approval_payload.
Proof. vm_compute. reflexivity. Qed.

(* ===================================================================== *)
(** * Further properties of the sources *)
(* ===================================================================== *)

(* ===================================================================== *)
(** ** What a run of the approval builder has checked before it signs *)
(* ===================================================================== *)

(** X1.  Whenever [createGaslessApprovalPayment] has asked the wallet to
    sign a message, whether the call then succeeds or not, the quote was
    usable, the mint of the asset is owned by the Token or the Token-2022
    program, the associated token account derived from the asset, the
    payer's address and that program (with the derivation of the program
    that owns the mint) exists on the node, the amount is an integer
    literal, the message is the one built from the quote's fee payer, the
    latest blockhash and the approve instruction for that account, and the
    trace is the mint lookup, the lookup of that account, the blockhash
    request and this one signing request, in this order, all on the client
    made for the network of the requirements. *)
Theorem approval_signs_only_after_checks
    (env : Env) (client : TransactionSigner) (version : Z)
    (req : PaymentRequirements) (q : QuoteResponse) (config : option X402Config)
    (msg : TransactionMessage) :
  In (EvSign msg)
     (trace (createGaslessApprovalPayment env client version req q config)) ->
  exists d rpc mint (pda : Address * Z) amount ix lb,
    success q = true /\
    data q = Some d /\
    getRpcClient env (network req) (config_rpcUrl config) = Ok rpc /\
    fetchMint env rpc (asset req) = Ok mint /\
    (programAddress mint = TOKEN_PROGRAM_ADDRESS \/
     programAddress mint = TOKEN_2022_PROGRAM_ADDRESS) /\
    (let seeds := mkPdaSeeds (asset req) (signer_address client) (programAddress mint) in
     if String.eqb (programAddress mint) TOKEN_PROGRAM_ADDRESS
     then findAssociatedTokenPda env seeds
     else findAssociatedTokenPda2022 env seeds) = Ok pda /\
    (exists m, fetchEncodedAccount env rpc (fst pda) = Ok m /\ exists_ m = true) /\
    BigInt (paymentAmount d) = Ok amount /\
    getApproveInstruction2022 env
      (mkApproveInput (fst pda) (facilitatorAddress d) client amount)
      (programAddress mint) = Ok ix /\
    getLatestBlockhash env rpc = Ok lb /\
    msg = gaslessTransactionMessage (feePayerAddress d) lb ix /\
    trace (createGaslessApprovalPayment env client version req q config)
    = [ EvFetchMint rpc (asset req);
        EvFetchEncodedAccount rpc (fst pda);
        EvGetLatestBlockhash rpc;
        EvSign msg ].
Proof.
  unfold createGaslessApprovalPayment.
  destruct (success q) eqn:Hs; [|destruct (data q); intros []].
  destruct (data q) as [d|] eqn:Hd; [|intros []].
  run_step; [|intros []].
  run_step; [|intros [H|[]]; discriminate H].
  run_step; [intros [H|[]]; discriminate H|].
  run_step; [|intros [H|[]]; discriminate H].
  run_step; [|intros [H|[H|[]]]; discriminate H].
  run_step; [|intros [H|[H|[]]]; discriminate H].
  run_step; [|intros [H|[H|[]]]; discriminate H].
  run_step; [|intros [H|[H|[]]]; discriminate H].
  run_step; [|intros [H|[H|[H|[]]]]; discriminate H].
  match goal with H : _ && _ = false |- _ =>
    apply andb_false_iff in H as [H|H]; apply negb_false_iff in H;
    apply String.eqb_eq in H end;
  (match goal with
   | Hrpc : getRpcClient env _ _ = Ok ?rpc,
     Hmint : fetchMint env ?rpc _ = Ok ?mint,
     Hpda : _ = Ok ?pda,
     Hacc : fetchEncodedAccount env ?rpc (fst ?pda) = Ok ?m,
     Hbig : BigInt _ = Ok ?amount,
     Hix : getApproveInstruction2022 env _ _ = Ok ?ix,
     Hlb : getLatestBlockhash env ?rpc = Ok ?lb |- _ =>
       assert (Hsigned : forall (t : list Event),
                 In (EvSign msg)
                    (EvFetchMint rpc (asset req)
                     :: EvFetchEncodedAccount rpc (fst pda)
                     :: EvGetLatestBlockhash rpc
                     :: EvSign (gaslessTransactionMessage (feePayerAddress d) lb ix)
                     :: t) ->
                 t = [] ->
                 msg = gaslessTransactionMessage (feePayerAddress d) lb ix)
         by (intros t [H|[H|[H|[H|H]]]] ->; solve [discriminate H | now injection H | destruct H]);
       run_step; [run_step|]; cbn [trace outcome fst snd throw mret M_ret];
       intros Hin; pose proof (Hsigned [] Hin eq_refl) as ->;
       exists d, rpc, mint, pda, amount, ix, lb;
       repeat split; eauto; exact Hpda
   end).
Qed.

Lemma approval_signs_only_after_checks_witness :
  In (EvSign (gaslessTransactionMessage Sample.sponsor Sample.latestBlockhash
                Sample.approval_instruction))
     (trace (createGaslessApprovalPayment Sample.env Sample.wallet 1
               (Sample.requirements Sample.USDC "500000" None)
               (Sample.quote "500000") None)) /\
  exists d rpc mint (pda : Address * Z) amount ix lb,
    success (Sample.quote "500000") = true /\
    data (Sample.quote "500000") = Some d /\
    getRpcClient Sample.env (network (Sample.requirements Sample.USDC "500000" None))
      (config_rpcUrl None) = Ok rpc /\
    fetchMint Sample.env rpc (asset (Sample.requirements Sample.USDC "500000" None))
      = Ok mint /\
    (programAddress mint = TOKEN_PROGRAM_ADDRESS \/
     programAddress mint = TOKEN_2022_PROGRAM_ADDRESS) /\
    (let seeds := mkPdaSeeds (asset (Sample.requirements Sample.USDC "500000" None))
                    (signer_address Sample.wallet) (programAddress mint) in
     if String.eqb (programAddress mint) TOKEN_PROGRAM_ADDRESS
     then findAssociatedTokenPda Sample.env seeds
     else findAssociatedTokenPda2022 Sample.env seeds) = Ok pda /\
    (exists m, fetchEncodedAccount Sample.env rpc (fst pda) = Ok m /\ exists_ m = true) /\
    BigInt (paymentAmount d) = Ok amount /\
    getApproveInstruction2022 Sample.env
      (mkApproveInput (fst pda) (facilitatorAddress d) Sample.wallet amount)
      (programAddress mint) = Ok ix /\
    getLatestBlockhash Sample.env rpc = Ok lb /\
    gaslessTransactionMessage Sample.sponsor Sample.latestBlockhash
      Sample.approval_instruction
    = gaslessTransactionMessage (feePayerAddress d) lb ix /\
    trace (createGaslessApprovalPayment Sample.env Sample.wallet 1
             (Sample.requirements Sample.USDC "500000" None)
             (Sample.quote "500000") None)
    = [ EvFetchMint rpc (asset (Sample.requirements Sample.USDC "500000" None));
        EvFetchEncodedAccount rpc (fst pda);
        EvGetLatestBlockhash rpc;
        EvSign (gaslessTransactionMessage Sample.sponsor Sample.latestBlockhash
                  Sample.approval_instruction) ].
Proof.
  assert (H : In (EvSign (gaslessTransactionMessage Sample.sponsor
                            Sample.latestBlockhash Sample.approval_instruction))
                 (trace (createGaslessApprovalPayment Sample.env Sample.wallet 1
                           (Sample.requirements Sample.USDC "500000" None)
                           (Sample.quote "500000") None))).
  { vm_compute. tauto. }
  split; [exact H|].
  exact (approval_signs_only_after_checks _ _ _ _ _ _ _ H).
Defined.

(* ===================================================================== *)
(** ** Exits of the two builders *)
(* ===================================================================== *)


(** X2.  Whenever [createGaslessApprovalPayment] has looked up a token
    account and the node answered that it does not exist, the call throws
    "User does not have a token account for this asset" and its whole trace
    is the mint lookup followed by that account lookup: no blockhash is
    requested and nothing is signed. *)
Theorem approval_without_token_account
    (env : Env) (client : TransactionSigner) (version : Z)
    (req : PaymentRequirements) (q : QuoteResponse) (config : option X402Config)
    (rpc : RpcClient) (account : Address) (m : MaybeEncodedAccount) :
  In (EvFetchEncodedAccount rpc account)
     (trace (createGaslessApprovalPayment env client version req q config)) ->
  fetchEncodedAccount env rpc account = Ok m ->
  exists_ m = false ->
  createGaslessApprovalPayment env client version req q config
  = ([EvFetchMint rpc (asset req); EvFetchEncodedAccount rpc account],
     Throw no_token_account).
Proof.
  approval_exits; intros Hin Hacc Hex; in_cases Hin;
    injection Hin as <- <-; congruence.
Qed.

Lemma approval_without_token_account_witness :
  In (EvFetchEncodedAccount Sample.rpc Sample.tokenAccount)
     (trace (createGaslessApprovalPayment Scenarios.env_without_account Sample.wallet 1
               (Sample.requirements Sample.USDC "500000" None)
               (Sample.quote "500000") None)) /\
  createGaslessApprovalPayment Scenarios.env_without_account Sample.wallet 1
    (Sample.requirements Sample.USDC "500000" None) (Sample.quote "500000") None
  = ([EvFetchMint Sample.rpc Sample.USDC;
      EvFetchEncodedAccount Sample.rpc Sample.tokenAccount],
     Throw no_token_account).
Proof.
  assert (H : In (EvFetchEncodedAccount Sample.rpc Sample.tokenAccount)
                 (trace (createGaslessApprovalPayment Scenarios.env_without_account
                           Sample.wallet 1
                           (Sample.requirements Sample.USDC "500000" None)
                           (Sample.quote "500000") None))).
  { vm_compute. tauto. }
  split; [exact H|].
  apply (approval_without_token_account Scenarios.env_without_account Sample.wallet 1
           (Sample.requirements Sample.USDC "500000" None) (Sample.quote "500000") None
           Sample.rpc Sample.tokenAccount (mkMaybeAccount false) H);
    reflexivity.
Defined.

(** X3.  In both builders, whenever the wallet was asked to sign a message
    and its reply holds no signature under the payer's address (the entry
    is missing, or it is [null]), the call throws "Failed to get user's
    signature from transaction": no payload is returned. *)
Theorem unsigned_reply_rejected
    (env : Env) (client : TransactionSigner) (version : Z)
    (req : PaymentRequirements) (q : QuoteResponse) (config : option X402Config)
    (run : M PaymentPayload) (msg : TransactionMessage) (tx : Transaction) :
  run = createGaslessApprovalPayment env client version req q config \/
  run = createGaslessNativePayment env client version req q config ->
  In (EvSign msg) (trace run) ->
  partiallySignTransactionMessageWithSigners env msg = Ok tx ->
  signature_of tx (signer_address client) = None ->
  outcome run = Throw no_user_signature.
Proof.
  intros [-> | ->]; revert msg tx.
  - approval_exits; intros msg tx Hin Hsign Hsig; in_cases Hin;
      injection Hin as <-; congruence.
  - native_exits; intros msg tx Hin Hsign Hsig; in_cases Hin;
      injection Hin as <-; congruence.
Qed.

Lemma unsigned_reply_rejected_witness :
  outcome (createGaslessNativePayment Scenarios.env_unsigned Sample.wallet 1
             (Sample.requirements NATIVE_SOL_ADDRESS "500000" None)
             (Sample.quote "500000") None)
  = Throw no_user_signature.
Proof.
  apply (unsigned_reply_rejected Scenarios.env_unsigned Sample.wallet 1
           (Sample.requirements NATIVE_SOL_ADDRESS "500000" None)
           (Sample.quote "500000") None _
           (gaslessTransactionMessage Sample.sponsor Sample.latestBlockhash
              (transferInstruction (signer_address Sample.wallet) Sample.facilitator
                 [2; 0; 0; 0; 32; 161; 7; 0; 0; 0; 0; 0]))
           (mkTransaction
              (gaslessTransactionMessage Sample.sponsor Sample.latestBlockhash
                 (transferInstruction (signer_address Sample.wallet) Sample.facilitator
                    [2; 0; 0; 0; 32; 161; 7; 0; 0; 0; 0; 0]))
              {[ Sample.sponsor := None ]})).
  - right. reflexivity.
  - vm_compute. tauto.
  - reflexivity.
  - vm_compute. reflexivity.
Defined.

(** X4.  When the quoted amount is not an integer literal, so that
    [BigInt(paymentAmount)] throws, neither builder asks for a blockhash or
    for a signature, and neither returns a payload; the native-transfer
    builder has then done nothing at all outside the process. *)
Theorem malformed_amount_never_signed
    (env : Env) (client : TransactionSigner) (version : Z)
    (req : PaymentRequirements) (q : QuoteResponse) (config : option X402Config)
    (d : QuoteData) (e : JsError) :
  data q = Some d ->
  BigInt (paymentAmount d) = Throw e ->
  (let run := createGaslessApprovalPayment env client version req q config in
   signed_messages (trace run) = [] /\
   (forall rpc, ~ In (EvGetLatestBlockhash rpc) (trace run)) /\
   is_ok (outcome run) = false) /\
  (let run := createGaslessNativePayment env client version req q config in
   trace run = [] /\ is_ok (outcome run) = false).
Proof.
  intros Hd Hbig. cbv zeta. split.
  - revert Hd Hbig. approval_exits; intros Hd Hbig; simplify_eq;
      try congruence;
      (split; [reflexivity|]; split; [|reflexivity]);
      intros rpc Hin; in_cases Hin.
  - revert Hd Hbig. native_exits; intros Hd Hbig; simplify_eq;
      try congruence; split; reflexivity.
Qed.

Lemma malformed_amount_never_signed_witness :
  trace (createGaslessNativePayment Sample.env Sample.wallet 1
           (Sample.requirements NATIVE_SOL_ADDRESS "0.5" None)
           (Sample.quote "0.5") None) = [] /\
  is_ok (outcome (createGaslessNativePayment Sample.env Sample.wallet 1
                    (Sample.requirements NATIVE_SOL_ADDRESS "0.5" None)
                    (Sample.quote "0.5") None)) = false.
Proof.
  apply (proj2 (malformed_amount_never_signed Sample.env Sample.wallet 1
                  (Sample.requirements NATIVE_SOL_ADDRESS "0.5" None)
                  (Sample.quote "0.5") None
                  (mkQuoteData "0.5" Sample.facilitator Sample.sponsor)
                  (mkJsError "SyntaxError" "Cannot convert 0.5 to a BigInt")
                  eq_refl eq_refl)).
Defined.

(** X5.  Whatever the replies are, a run of [createGaslessNativePayment]
    does at most two things outside the process, in this order: one request
    for the latest blockhash, then one signing request.  It never looks up
    a mint or an account, and it never signs without a blockhash. *)
Theorem native_trace_shape
    (env : Env) (client : TransactionSigner) (version : Z)
    (req : PaymentRequirements) (q : QuoteResponse) (config : option X402Config) :
  let t := trace (createGaslessNativePayment env client version req q config) in
  t = [] \/
  (exists rpc, t = [EvGetLatestBlockhash rpc]) \/
  (exists rpc msg, t = [EvGetLatestBlockhash rpc; EvSign msg]).
Proof.
  cbv zeta. native_exits; eauto.
Qed.

(** X6.  When no RPC client can be made for the network of the payment
    requirements, both builders throw the error of [getRpcClient] and have
    done nothing outside the process. *)
Theorem no_rpc_client_no_activity
    (env : Env) (client : TransactionSigner) (version : Z)
    (req : PaymentRequirements) (q : QuoteResponse) (config : option X402Config)
    (d : QuoteData) (e : JsError) :
  success q = true ->
  data q = Some d ->
  getRpcClient env (network req) (config_rpcUrl config) = Throw e ->
  createGaslessApprovalPayment env client version req q config = ([], Throw e) /\
  createGaslessNativePayment env client version req q config = ([], Throw e).
Proof.
  intros Hs Hd Hrpc. split.
  - unfold createGaslessApprovalPayment. rewrite Hs, Hd, Hrpc. reflexivity.
  - unfold createGaslessNativePayment. rewrite Hs, Hd, Hrpc. reflexivity.
Qed.

Lemma no_rpc_client_no_activity_witness :
  createGaslessApprovalPayment Sample.env Sample.wallet 1
    (mkPaymentRequirements "exact" "base" Sample.USDC
       "0x209693Bc6afc0C5328bA36FaF03C514EF312287C" "500000"
       "https://api.example.com/premium" None None None None)
    (Sample.quote "500000") None
  = ([], Throw (Error "Invalid network")) /\
  createGaslessNativePayment Sample.env Sample.wallet 1
    (mkPaymentRequirements "exact" "base" Sample.USDC
       "0x209693Bc6afc0C5328bA36FaF03C514EF312287C" "500000"
       "https://api.example.com/premium" None None None None)
    (Sample.quote "500000") None
  = ([], Throw (Error "Invalid network")).
Proof.
  apply (no_rpc_client_no_activity Sample.env Sample.wallet 1
           (mkPaymentRequirements "exact" "base" Sample.USDC
              "0x209693Bc6afc0C5328bA36FaF03C514EF312287C" "500000"
              "https://api.example.com/premium" None None None None)
           (Sample.quote "500000") None
           (mkQuoteData "500000" Sample.facilitator Sample.sponsor));
    reflexivity.
Defined.

(* ===================================================================== *)
(** ** From the payment requirements to the header *)
(* ===================================================================== *)

Lemma payload_of_approval_run env client version req q config t p :
  ApprovalRun env client version req q config t p ->
  exists d m,
    data q = Some d /\
    x402Version p = version /\ pp_scheme p = scheme req /\
    pp_network p = network req /\
    payload_value p = paymentAmount d /\
    payload_recipient p = facilitatorAddress d /\
    signed_messages t = [m] /\
    tm_feePayer m = Some (mkFeePayer (feePayerAddress d) None).
Proof. intros []. eexists _, _. repeat split; eauto. Qed.

Lemma payload_of_native_run env client version req q config t p :
  NativeRun env client version req q config t p ->
  exists d m,
    data q = Some d /\
    x402Version p = version /\ pp_scheme p = scheme req /\
    pp_network p = network req /\
    payload_value p = paymentAmount d /\
    payload_recipient p = facilitatorAddress d /\
    signed_messages t = [m] /\
    tm_feePayer m = Some (mkFeePayer (feePayerAddress d) None).
Proof. intros []. eexists _, _. repeat split; eauto. Qed.

(** X7.  A header returned by [createPaymentHeader] is built from the
    payment requirements alone: [extra.facilitatorAddress] and
    [extra.feePayer] are both present and not empty, the first activity is
    the import of the gasless client, exactly one message is signed, with
    [extra.feePayer] in its fee payer slot, and the header is the encoding of
    a payload that carries the given protocol version, the scheme and the
    network of the requirements, [maxAmountRequired] as its amount and
    [extra.facilitatorAddress] as its recipient. *)
Theorem payment_header_from_requirements
    (env : Env) (encodePayment : PaymentPayload -> string)
    (client : TransactionSigner) (version : Z)
    (req : PaymentRequirements) (config : option X402Config)
    (t : list Event) (header : string) :
  createPaymentHeader env encodePayment client version req config = (t, Ok header) ->
  exists fac feePayer p m t',
    extra_get "facilitatorAddress" req = Some fac /\ fac <> "" /\
    extra_get "feePayer" req = Some feePayer /\ feePayer <> "" /\
    t = EvImport "./gasless-client" :: t' /\
    header = encodePayment p /\
    x402Version p = version /\
    pp_scheme p = scheme req /\
    pp_network p = network req /\
    payload_value p = maxAmountRequired req /\
    payload_recipient p = fac /\
    signed_messages t = [m] /\
    tm_feePayer m = Some (mkFeePayer feePayer None).
Proof.
  unfold createPaymentHeader. intros H.
  destruct (extra_get "facilitatorAddress" req) as [fac|]; [|discriminate H].
  destruct (String.eqb fac "") eqn:Hfac; [discriminate H|].
  apply String.eqb_neq in Hfac.
  rewrite perform_ok_bind in H. injection H as Ht Hout.
  pose proof (run_eta (createGaslessPaymentHeader env encodePayment client version
                         req fac config)) as Hg.
  rewrite Hout in Hg.
  remember (trace (createGaslessPaymentHeader env encodePayment client version
                     req fac config)) as t' eqn:Et. clear Et Hout. subst t.
  destruct (gasless_header_fee_payer _ _ _ _ _ _ _ _ _ Hg) as (fp & He & Hne).
  rewrite (gasless_header_dispatch _ _ _ _ _ _ _ _ He Hne) in Hg. cbv zeta in Hg.
  assert (Hp : exists p d m,
            header = encodePayment p /\
            Some {| paymentAmount := maxAmountRequired req;
                    facilitatorAddress := fac;
                    feePayerAddress := fp |} = Some d /\
            x402Version p = version /\ pp_scheme p = scheme req /\
            pp_network p = network req /\
            payload_value p = paymentAmount d /\
            payload_recipient p = facilitatorAddress d /\
            signed_messages t' = [m] /\
            tm_feePayer m = Some (mkFeePayer (feePayerAddress d) None)).
  { destruct (String.eqb (asset req) NATIVE_SOL_ADDRESS).
    - unfold createGaslessNativePaymentHeader in Hg.
      apply bind_inv_ok in Hg as (t1 & p & t2 & Hrun & Hret & ->).
      apply mret_inv_ok in Hret as [<- ->]. rewrite app_nil_r.
      apply native_run, payload_of_native_run in Hrun.
      destruct Hrun as (d & m & Hrun). exists p, d, m. tauto.
    - unfold createGaslessApprovalPaymentHeader in Hg.
      apply bind_inv_ok in Hg as (t1 & p & t2 & Hrun & Hret & ->).
      apply mret_inv_ok in Hret as [<- ->]. rewrite app_nil_r.
      apply approval_run, payload_of_approval_run in Hrun.
      destruct Hrun as (d & m & Hrun). exists p, d, m. tauto. }
  destruct Hp as (p & d & m & -> & [= <-] & Hv & Hs & Hn & Hval & Hrec & Hm & Hfp).
  exists fac, fp, p, m, t'. repeat split; auto.
Qed.

Lemma payment_header_from_requirements_witness :
  createPaymentHeader Sample.env Wire.encodePayment Sample.wallet 1
    (Sample.requirements Sample.USDC "500000" (Some Sample.quoted_extra)) None
  = (EvImport "./gasless-client" :: Sample.approval_trace,
     Ok (Wire.encodePayment Sample.approval_payload)) /\
  exists fac feePayer p m t',
    extra_get "facilitatorAddress"
      (Sample.requirements Sample.USDC "500000" (Some Sample.quoted_extra)) = Some fac /\
    fac <> "" /\
    extra_get "feePayer"
      (Sample.requirements Sample.USDC "500000" (Some Sample.quoted_extra))
      = Some feePayer /\
    feePayer <> "" /\
    EvImport "./gasless-client" :: Sample.approval_trace
      = EvImport "./gasless-client" :: t' /\
    Wire.encodePayment Sample.approval_payload = Wire.encodePayment p /\
    x402Version p = 1 /\
    pp_scheme p = scheme (Sample.requirements Sample.USDC "500000"
                            (Some Sample.quoted_extra)) /\
    pp_network p = network (Sample.requirements Sample.USDC "500000"
                              (Some Sample.quoted_extra)) /\
    payload_value p = maxAmountRequired (Sample.requirements Sample.USDC "500000"
                                           (Some Sample.quoted_extra)) /\
    payload_recipient p = fac /\
    signed_messages (EvImport "./gasless-client" :: Sample.approval_trace) = [m] /\
    tm_feePayer m = Some (mkFeePayer feePayer None).
Proof.
  split; [vm_compute; reflexivity|].
  apply (payment_header_from_requirements Sample.env Wire.encodePayment Sample.wallet 1
           (Sample.requirements Sample.USDC "500000" (Some Sample.quoted_extra)) None).
  vm_compute. reflexivity.
Defined.

(* ===================================================================== *)
(** ** More on the quote call *)
(* ===================================================================== *)

(** X8.  [getPaymentQuote] returns a value only when the facilitator
    responded with a status from 200 to 299 and a readable body that parses
    as JSON, and the value is that parsed body: no other response, and no
    failure of the network, ever yields a quote. *)
Theorem quote_returned_only_from_success
    {JsValue : Type} (env : HttpEnv JsValue)
    (srcTokenAddress : string) (srcNetwork : Network)
    (dstTokenAddress : string) (dstNetwork : Network) (dstAmount : string)
    (facilitatorUrl : string) (v : JsValue) :
  outcome (getPaymentQuote env srcTokenAddress srcNetwork dstTokenAddress
             dstNetwork dstAmount facilitatorUrl) = Ok v ->
  exists r text,
    fetch env (quoteHttpRequest srcTokenAddress srcNetwork dstTokenAddress
                 dstNetwork dstAmount facilitatorUrl) = Responded r /\
    200 <= resp_status r <= 299 /\
    resp_body r = BodyText text /\
    JSON_parse env text = Ok v.
Proof.
  unfold getPaymentQuote.
  destruct (fetch env _) as [r|m] eqn:Hf; [|discriminate].
  rewrite perform_ok_bind. cbn [outcome snd].
  destruct (response_ok r) eqn:Hok; cbn [negb].
  - unfold response_json. destruct (resp_body r) as [text|m] eqn:Hb; [|discriminate].
    destruct (JSON_parse env text) as [v'|e] eqn:Hp; [|discriminate].
    rewrite lift_ok_bind. intros [= <-].
    exists r, text. repeat split; auto;
      unfold response_ok in Hok; apply andb_true_iff in Hok as [H1 H2];
      apply Z.leb_le in H1, H2; lia.
  - unfold response_text. destruct (resp_body r); discriminate.
Qed.

Lemma quote_returned_only_from_success_witness :
  exists r text,
    fetch Sample.http
      (quoteHttpRequest Sample.USDC "solana"
         "0x833589fCD6eDb6E08f4c7C32D4f71b54bdA02913" "base" "1000000"
         "https://mainnet.anyspend.com") = Responded r /\
    200 <= resp_status r <= 299 /\
    resp_body r = BodyText text /\
    JSON_parse Sample.http text
    = Ok (Json.JObj
            [ ("success", Json.JBool true);
              ("data", Json.JObj [ ("paymentAmount", Json.JStr "500000");
                                   ("facilitatorAddress", Json.JStr Sample.facilitator);
                                   ("feePayerAddress", Json.JStr Sample.sponsor) ]) ]).
Proof.
  apply (quote_returned_only_from_success Sample.http Sample.USDC "solana"
           "0x833589fCD6eDb6E08f4c7C32D4f71b54bdA02913" "base" "1000000"
           "https://mainnet.anyspend.com").
  vm_compute. reflexivity.
Defined.

(** X9.  What [getPaymentQuote] throws once a response has arrived.  When
    the body cannot be read, the [TypeError] of the read, whatever the
    status is; when a response with a status from 200 to 299 has a body that
    is not JSON, the error of the parser; and when the status is outside
    200..299, an [Error] that carries the status and the body text, even if
    that body would parse as a quote. *)
Theorem quote_errors_after_response
    {JsValue : Type} (env : HttpEnv JsValue)
    (srcTokenAddress : string) (srcNetwork : Network)
    (dstTokenAddress : string) (dstNetwork : Network) (dstAmount : string)
    (facilitatorUrl : string) (r : Response) :
  fetch env (quoteHttpRequest srcTokenAddress srcNetwork dstTokenAddress
               dstNetwork dstAmount facilitatorUrl) = Responded r ->
  let result := outcome (getPaymentQuote env srcTokenAddress srcNetwork
                           dstTokenAddress dstNetwork dstAmount facilitatorUrl) in
  (forall m, resp_body r = BodyFailed m -> result = Throw (TypeError m)) /\
  (forall text e,
     200 <= resp_status r <= 299 ->
     resp_body r = BodyText text ->
     JSON_parse env text = Throw e ->
     result = Throw e) /\
  (forall text,
     resp_status r < 200 \/ 299 < resp_status r ->
     resp_body r = BodyText text ->
     result = Throw (Error ("Failed to get payment quote: "
                            +:+ string_of_Z (resp_status r) +:+ " " +:+ text))).
Proof.
  intros Hf. cbv zeta. unfold getPaymentQuote. rewrite Hf.
  rewrite perform_ok_bind. cbn [outcome snd].
  split; [|split].
  - intros m Hb. unfold response_text, response_json. rewrite Hb.
    destruct (negb (response_ok r)); reflexivity.
  - intros text e Hs Hb Hp.
    assert (Hok : response_ok r = true).
    { unfold response_ok. apply andb_true_iff. split; apply Z.leb_le; lia. }
    rewrite Hok. cbn [negb]. unfold response_json. rewrite Hb, Hp. reflexivity.
  - intros text Hs Hb.
    assert (Hok : response_ok r = false).
    { unfold response_ok. apply andb_false_iff.
      destruct Hs; [left; apply Z.leb_gt | right; apply Z.leb_gt]; lia. }
    rewrite Hok. cbn [negb]. unfold response_text. rewrite Hb. reflexivity.
Qed.

Lemma quote_errors_after_response_witness :
  outcome (getPaymentQuote Sample.http Sample.USDC "solana"
             "0x833589fCD6eDb6E08f4c7C32D4f71b54bdA02913" "base" "1000000"
             "https://mainnet.anyspend.com/v2")
  = Throw (Error ("Failed to get payment quote: " +:+ string_of_Z 404
                  +:+ " " +:+ "Not Found")).
Proof.
  apply (proj2 (proj2 (quote_errors_after_response Sample.http Sample.USDC "solana"
                         "0x833589fCD6eDb6E08f4c7C32D4f71b54bdA02913" "base"
                         "1000000" "https://mainnet.anyspend.com/v2"
                         (mkResponse 404 (BodyText "Not Found")) eq_refl))
           "Not Found").
  - right. cbn. lia.
  - reflexivity.
Defined.

(** X10.  The body of the quote request determines the request: two calls
    send the same body only when their five fields are equal, whatever
    characters the fields hold (quotes, backslashes and control characters
    are escaped). *)
Theorem quote_body_determines_request
    (a b c d e url a' b' c' d' e' url' : string) :
  http_body (quoteHttpRequest a b c d e url)
    = http_body (quoteHttpRequest a' b' c' d' e' url') ->
  a = a' /\ b = b' /\ c = c' /\ d = d' /\ e = e'.
Proof.
  unfold quoteHttpRequest. cbn [http_body]. intros H.
  apply (f_equal Json.parse) in H.
  rewrite !JsonFacts.parse_stringify in H.
  unfold quoteRequest in H. injection H as -> -> -> -> ->. auto.
Qed.

Lemma quote_body_determines_request_witness :
  Sample.USDC = Sample.USDC /\ "solana" = "solana" /\
  "0x833589fCD6eDb6E08f4c7C32D4f71b54bdA02913"
    = "0x833589fCD6eDb6E08f4c7C32D4f71b54bdA02913" /\
  "base" = "base" /\ "1000000" = "1000000".
Proof.
  apply (quote_body_determines_request Sample.USDC "solana"
           "0x833589fCD6eDb6E08f4c7C32D4f71b54bdA02913" "base" "1000000"
           "https://mainnet.anyspend.com"
           Sample.USDC "solana"
           "0x833589fCD6eDb6E08f4c7C32D4f71b54bdA02913" "base" "1000000"
           "https://x402.org/facilitator").
  reflexivity.
Defined.

(* ===================================================================== *)
(** ** The validity anchor of a payload *)
(* ===================================================================== *)

(** [Number(h)] is [h] for every integer below 2^53 in absolute value. *)
Lemma Number_of_BigInt_exact (z : Z) :
  - 2 ^ 53 < z < 2 ^ 53 -> Number_of_BigInt z = z.
Proof.
  intros Hz. unfold Number_of_BigInt.
  destruct (Z.eqb_spec (Z.abs z) 0) as [E|E]; [reflexivity|].
  assert (Hlog : Z.log2 (Z.abs z) < 53).
  { apply Z.log2_lt_pow2; lia. }
  destruct (Z.leb_spec (Z.log2 (Z.abs z) + 1) 53); [reflexivity | lia].
Qed.

(** X11.  A payload returned by either builder reports the validity anchor
    of the very message that was signed: the node answered the one
    blockhash request of the run with some blockhash and height, the signed
    message has exactly that lifetime, the payload carries that blockhash,
    and it carries that height unchanged whenever the height is below 2^53
    (the conversion to a JavaScript number is then exact). *)
Theorem payload_reports_signed_lifetime
    (env : Env) (client : TransactionSigner) (version : Z)
    (req : PaymentRequirements) (q : QuoteResponse) (config : option X402Config)
    (t : list Event) (p : PaymentPayload) :
  createGaslessApprovalPayment env client version req q config = (t, Ok p) \/
  createGaslessNativePayment env client version req q config = (t, Ok p) ->
  exists rpc lb m,
    In (EvGetLatestBlockhash rpc) t /\
    getLatestBlockhash env rpc = Ok lb /\
    signed_messages t = [m] /\
    tm_lifetime m = Some lb /\
    payload_blockhash p = Some (lb_blockhash lb) /\
    payload_lastValidBlockHeight p
      = Some (Number_of_BigInt (lb_lastValidBlockHeight lb)) /\
    (- 2 ^ 53 < lb_lastValidBlockHeight lb < 2 ^ 53 ->
     payload_lastValidBlockHeight p = Some (lb_lastValidBlockHeight lb)).
Proof.
  intros [H|H].
  - apply approval_run in H. destruct H.
    eexists rpc, lb, _. repeat split; eauto.
    + cbn. auto.
    + intros Hh. cbn. now rewrite Number_of_BigInt_exact.
  - apply native_run in H. destruct H.
    eexists rpc, lb, _. repeat split; eauto.
    + cbn. auto.
    + intros Hh. cbn. now rewrite Number_of_BigInt_exact.
Qed.

Lemma payload_reports_signed_lifetime_witness :
  exists rpc lb m,
    In (EvGetLatestBlockhash rpc) Sample.approval_trace /\
    getLatestBlockhash Sample.env rpc = Ok lb /\
    signed_messages Sample.approval_trace = [m] /\
    tm_lifetime m = Some lb /\
    payload_blockhash Sample.approval_payload = Some (lb_blockhash lb) /\
    payload_lastValidBlockHeight Sample.approval_payload
      = Some (Number_of_BigInt (lb_lastValidBlockHeight lb)) /\
    (- 2 ^ 53 < lb_lastValidBlockHeight lb < 2 ^ 53 ->
     payload_lastValidBlockHeight Sample.approval_payload
       = Some (lb_lastValidBlockHeight lb)).
Proof.
  apply (payload_reports_signed_lifetime Sample.env Sample.wallet 1
           (Sample.requirements Sample.USDC "500000" None) (Sample.quote "500000") None).
  left. vm_compute. reflexivity.
Defined.

(** Above 2^53 the reported height can differ from the height of the node. *)
Example height_rounded_above_2_53 :
  Number_of_BigInt 9007199254740993 = 9007199254740992.
Proof. reflexivity. Qed.

(* ===================================================================== *)
(** ** Decimal amounts *)
(* ===================================================================== *)

Lemma digits_acc_pos (d : Decimal.uint) (acc : positive) :
  digits_acc 10 (NilEmpty.string_of_uint d) (Z.pos acc)
  = Some (Z.pos (Pos.of_uint_acc d acc)).
Proof.
  revert acc.
  induction d; intros acc; cbn [NilEmpty.string_of_uint digits_acc Pos.of_uint_acc];
    [reflexivity | ..];
    match goal with
    | |- context [digit_val 10 ?c] =>
        let v := eval vm_compute in (digit_val 10 c) in
        change (digit_val 10 c) with v; cbv iota
    end;
    match goal with
    | |- digits_acc _ _ ?a = Some (Z.pos (Pos.of_uint_acc _ ?b)) =>
        replace a with (Z.pos b) by lia
    end; apply IHd.
Qed.

Lemma digits_acc_uint (d : Decimal.uint) :
  digits_acc 10 (NilEmpty.string_of_uint d) 0 = Some (Z.of_uint d).
Proof.
  unfold Z.of_uint.
  induction d; cbn [NilEmpty.string_of_uint digits_acc Pos.of_uint];
    [reflexivity | ..];
    match goal with
    | |- context [digit_val 10 ?c] =>
        let v := eval vm_compute in (digit_val 10 c) in
        change (digit_val 10 c) with v; cbv iota
    end;
    [exact IHd | ..];
    match goal with
    | |- digits_acc _ _ ?a = _ =>
        let v := eval vm_compute in a in change a with v
    end; rewrite digits_acc_pos; reflexivity.
Qed.

Lemma rtrim_uint (d : Decimal.uint) :
  rtrim (NilEmpty.string_of_uint d) = NilEmpty.string_of_uint d.
Proof.
  induction d; cbn [NilEmpty.string_of_uint rtrim]; [reflexivity | ..];
    rewrite IHd; destruct (NilEmpty.string_of_uint d); reflexivity.
Qed.

Lemma trim_uint (d : Decimal.uint) :
  trim (NilEmpty.string_of_uint d) = NilEmpty.string_of_uint d.
Proof.
  unfold trim. destruct d; cbn [NilEmpty.string_of_uint ltrim];
    [reflexivity | ..];
    match goal with
    | |- context [is_ws ?c] =>
        let v := eval vm_compute in (is_ws c) in change (is_ws c) with v; cbv iota
    end;
    match goal with
    | |- rtrim (String ?c (NilEmpty.string_of_uint ?d)) = _ =>
        first [ exact (rtrim_uint (D0 d)) | exact (rtrim_uint (D1 d))
              | exact (rtrim_uint (D2 d)) | exact (rtrim_uint (D3 d))
              | exact (rtrim_uint (D4 d)) | exact (rtrim_uint (D5 d))
              | exact (rtrim_uint (D6 d)) | exact (rtrim_uint (D7 d))
              | exact (rtrim_uint (D8 d)) | exact (rtrim_uint (D9 d)) ]
    end.
Qed.

(** A decimal numeral in normal form starts with [0] only if it is [0]. *)
Lemma unorm_D0 (d : Decimal.uint) : unorm (D0 d) = D0 d -> d = Nil.
Proof.
  unfold unorm. cbn [nzhead]. intros H.
  pose proof (nzhead_nonzero d d) as N.
  destruct (nzhead d) eqn:E; congruence.
Qed.

Lemma unorm_to_uint (p : positive) : unorm (Pos.to_uint p) = Pos.to_uint p.
Proof.
  rewrite <- DecimalPos.Unsigned.to_of, DecimalPos.Unsigned.of_to. reflexivity.
Qed.

Lemma parse_bigint_uint (d : Decimal.uint) :
  unorm d = d -> parse_bigint (NilEmpty.string_of_uint d) = Some (Z.of_uint d).
Proof.
  intros N. unfold parse_bigint. rewrite trim_uint.
  destruct d.
  - discriminate N.
  - apply unorm_D0 in N. subst d. reflexivity.
  - apply (digits_acc_uint (D1 d)).
  - apply (digits_acc_uint (D2 d)).
  - apply (digits_acc_uint (D3 d)).
  - apply (digits_acc_uint (D4 d)).
  - apply (digits_acc_uint (D5 d)).
  - apply (digits_acc_uint (D6 d)).
  - apply (digits_acc_uint (D7 d)).
  - apply (digits_acc_uint (D8 d)).
  - apply (digits_acc_uint (D9 d)).
Qed.

Lemma parse_bigint_neg (d : Decimal.uint) :
  d <> Nil ->
  parse_bigint (String "-" (NilEmpty.string_of_uint d)) = Some (- Z.of_uint d).
Proof.
  intros N. unfold parse_bigint, trim. cbn [ltrim].
  change (is_ws "-") with false. cbv iota.
  cbn [rtrim]. rewrite rtrim_uint.
  assert (E : exists c r, NilEmpty.string_of_uint d = String c r).
  { destruct d; [congruence | ..]; cbn; eauto. }
  destruct E as (c & r & E). rewrite E.
  cbv iota. rewrite <- E.
  unfold digits. rewrite E, <- E. rewrite digits_acc_uint. reflexivity.
Qed.

(** [BigInt] reads the decimal text of an integer back as that integer. *)
Lemma BigInt_string_of_Z (n : Z) : BigInt (string_of_Z n) = Ok n.
Proof.
  unfold BigInt, string_of_Z.
  assert (E : parse_bigint (NilEmpty.string_of_int (Z.to_int n)) = Some n);
    [| now rewrite E].
  destruct n as [|p|p]; [reflexivity | |].
  - cbn [Z.to_int NilEmpty.string_of_int].
    rewrite parse_bigint_uint.
    + f_equal. change (Z.of_int (Z.to_int (Z.pos p)) = Z.pos p). apply DecimalZ.of_to.
    + apply unorm_to_uint.
  - cbn [Z.to_int NilEmpty.string_of_int].
    rewrite parse_bigint_neg.
    + f_equal. change (Z.of_int (Z.to_int (Z.neg p)) = Z.neg p). apply DecimalZ.of_to.
    + apply DecimalPos.Unsigned.to_uint_nonnil.
Qed.

(** X12.  When the quote states the amount as the decimal text of an
    integer [n], both builders work with exactly [n].  For [n] in the
    unsigned 64-bit range, every message that the native-transfer builder
    submits to the wallet has one instruction whose data is the index 2
    followed by the little-endian 64-bit encoding of [n], which reads back as
    [n], and the builder does submit that message as soon as the client and
    the blockhash are there (the amount always parses).  A successful run of
    the delegated-spend builder has asked for an approve instruction of
    amount [n], has signed that instruction, and states the amount in its
    payload as the same decimal text. *)
Theorem decimal_amount_carried_exactly
    (env : Env) (client : TransactionSigner) (version : Z)
    (req : PaymentRequirements) (q : QuoteResponse) (config : option X402Config)
    (d : QuoteData) (n : Z) :
  data q = Some d ->
  paymentAmount d = string_of_Z n ->
  (forall m,
     0 <= n < 2 ^ 64 ->
     In (EvSign m)
        (trace (createGaslessNativePayment env client version req q config)) ->
     exists ix,
       tm_instructions m = [ix] /\
       ix_data ix = [2; 0; 0; 0] ++ le_bytes 8 n /\
       le_value (drop 4 (ix_data ix)) = n) /\
  (forall rpc lb,
     0 <= n < 2 ^ 64 ->
     success q = true ->
     getRpcClient env (network req) (config_rpcUrl config) = Ok rpc ->
     getLatestBlockhash env rpc = Ok lb ->
     trace (createGaslessNativePayment env client version req q config)
     = [ EvGetLatestBlockhash rpc;
         EvSign (gaslessTransactionMessage (feePayerAddress d) lb
                   (transferInstruction (signer_address client) (facilitatorAddress d)
                      ([2; 0; 0; 0] ++ le_bytes 8 n))) ]) /\
  (forall t p,
     createGaslessApprovalPayment env client version req q config = (t, Ok p) ->
     exists account program m ix,
       getApproveInstruction2022 env
         {| approve_account := account;
            approve_delegate := facilitatorAddress d;
            approve_owner := client;
            approve_amount := n |} program = Ok ix /\
       signed_messages t = [m] /\
       tm_instructions m = [ix] /\
       payload_value p = string_of_Z n).
Proof.
  intros Hd Hn.
  assert (Hbig : BigInt (paymentAmount d) = Ok n)
    by (rewrite Hn; apply BigInt_string_of_Z).
  split; [|split].
  - intros m Hr Hin. apply native_sign_request in Hin.
    destruct Hin as (d' & rpc & lamports & lb & _ & Hd' & _ & Hbig' & _ & -> & _).
    assert (d' = d) as -> by congruence.
    assert (lamports = n) as -> by congruence.
    rewrite Z.mod_small by exact Hr.
    eexists. split; [reflexivity|]. split; [reflexivity|].
    change (le_value (le_bytes 8 n) = n).
    rewrite le_value_le_bytes. change (8 * Z.of_nat 8) with 64.
    now apply Z.mod_small.
  - intros rpc lb Hr Hs Hrpc Hlb.
    destruct (native_progress env client version req q config d rpc n lb
                Hs Hd Hrpc Hbig Hlb) as (bytes & msg & Hbytes & -> & Ht & _).
    rewrite transferInstructionData_bytes in Hbytes. injection Hbytes as <-.
    rewrite Z.mod_small in Ht by exact Hr. exact Ht.
  - intros t p H. apply approval_run in H.
    destruct H as [d' rpc mint pda amount ix lb tx sig Hs Hd' Hrpc Hmint Hprog
      Hpda Hacc Hbig' Hix].
    assert (d' = d) as -> by congruence.
    assert (amount = n) as -> by congruence.
    exists (fst pda), (programAddress mint). eexists _, ix.
    split; [exact Hix|]. split; [reflexivity|]. split; [reflexivity|].
    exact Hn.
Qed.

Lemma decimal_amount_carried_exactly_witness :
  (exists ix,
     tm_instructions
       (gaslessTransactionMessage Sample.sponsor Sample.latestBlockhash
          (transferInstruction (signer_address Sample.wallet) Sample.facilitator
             [2; 0; 0; 0; 32; 161; 7; 0; 0; 0; 0; 0])) = [ix] /\
     ix_data ix = [2; 0; 0; 0] ++ le_bytes 8 500000 /\
     le_value (drop 4 (ix_data ix)) = 500000) /\
  (exists account program m ix,
     getApproveInstruction2022 Sample.env
       {| approve_account := account;
          approve_delegate := Sample.facilitator;
          approve_owner := Sample.wallet;
          approve_amount := 500000 |} program = Ok ix /\
     signed_messages Sample.approval_trace = [m] /\
     tm_instructions m = [ix] /\
     payload_value Sample.approval_payload = string_of_Z 500000).
Proof.
  split.
  - apply (proj1 (decimal_amount_carried_exactly Sample.env Sample.wallet 1
                    (Sample.requirements NATIVE_SOL_ADDRESS "500000" None)
                    (Sample.quote "500000") None
                    {| paymentAmount := "500000";
                       facilitatorAddress := Sample.facilitator;
                       feePayerAddress := Sample.sponsor |} 500000 eq_refl eq_refl)).
    + lia.
    + vm_compute. tauto.
  - apply (proj2 (proj2 (decimal_amount_carried_exactly Sample.env Sample.wallet 1
                    (Sample.requirements Sample.USDC "500000" None)
                    (Sample.quote "500000") None
                    {| paymentAmount := "500000";
                       facilitatorAddress := Sample.facilitator;
                       feePayerAddress := Sample.sponsor |} 500000 eq_refl eq_refl))
             Sample.approval_trace Sample.approval_payload).
    vm_compute. reflexivity.
Defined.

(* ===================================================================== *)
(** ** What the header depends on *)
(* ===================================================================== *)

(** X13.  The payment header and the requests made for it depend on the
    payment requirements only through [scheme], [network], [asset],
    [maxAmountRequired], [extra.facilitatorAddress] and [extra.feePayer]:
    two requirements that agree on these give the same run of
    [createPaymentHeader], whatever their [payTo], [resource] and source
    fields are. *)
Theorem header_ignores_other_requirement_fields
    (env : Env) (encodePayment : PaymentPayload -> string)
    (client : TransactionSigner) (version : Z)
    (req req' : PaymentRequirements) (config : option X402Config) :
  scheme req = scheme req' ->
  network req = network req' ->
  asset req = asset req' ->
  maxAmountRequired req = maxAmountRequired req' ->
  extra_get "facilitatorAddress" req = extra_get "facilitatorAddress" req' ->
  extra_get "feePayer" req = extra_get "feePayer" req' ->
  createPaymentHeader env encodePayment client version req config
  = createPaymentHeader env encodePayment client version req' config.
Proof.
  intros Hs Hn Ha Hm Hf Hp.
  unfold createPaymentHeader, createGaslessPaymentHeader,
    createGaslessNativePaymentHeader, createGaslessApprovalPaymentHeader,
    createGaslessNativePayment, createGaslessApprovalPayment.
  cbv zeta. cbn [success data].
  rewrite Hs, Hn, Ha, Hm, Hf, Hp. reflexivity.
Qed.

Lemma header_ignores_other_requirement_fields_witness :
  createPaymentHeader Sample.env Wire.encodePayment Sample.wallet 1
    (Sample.requirements Sample.USDC "500000" (Some Sample.quoted_extra)) None
  = createPaymentHeader Sample.env Wire.encodePayment Sample.wallet 1
      {| scheme := "exact";
         network := "solana";
         asset := Sample.USDC;
         payTo := "0x0000000000000000000000000000000000000001";
         maxAmountRequired := "500000";
         resource := "https://api.example.com/other";
         srcNetwork := Some "base";
         srcTokenAddress := None;
         srcAmountRequired := Some "1";
         extra := Some (<["decimals" := "6"]> Sample.quoted_extra) |} None.
Proof.
  apply header_ignores_other_requirement_fields; vm_compute; reflexivity.
Defined.

(* ===================================================================== *)
(** ** The paywall follows the network of the payer *)
(* ===================================================================== *)

(** X14.  For a cross-chain requirement (a non-empty [srcNetwork]) the
    paywall is selected by the network the user pays from, whatever the
    destination [network] is: an EVM source gives the EVM paywall, also when
    the source counts as a Solana network too; a source that is only a Solana
    network gives the Solana paywall; any other source gives the notice of an
    unsupported network.  The selected paywall receives the chosen
    requirement unchanged. *)
Theorem paywall_follows_source_network
    {R : Type} (choose : R -> bool -> option PaymentRequirements)
    (isEvm isSvm : string -> bool)
    (x402 : X402Window R) (pr : PaymentRequirements) (src : string) :
  choose (x402_paymentRequirements x402) (default true (x402_testnet x402)) = Some pr ->
  srcNetwork pr = Some src ->
  src <> "" ->
  (isEvm src = true -> PaywallApp choose isEvm isSvm x402 = EvmPaywall pr) /\
  (isEvm src = false -> isSvm src = true ->
   PaywallApp choose isEvm isSvm x402 = SolanaPaywall pr) /\
  (isEvm src = false -> isSvm src = false ->
   PaywallApp choose isEvm isSvm x402 = UnsupportedView) /\
  (forall pr',
     PaywallApp choose isEvm isSvm x402 = EvmPaywall pr' \/
     PaywallApp choose isEvm isSvm x402 = SolanaPaywall pr' -> pr' = pr).
Proof.
  intros Hc Hs Hne. unfold PaywallApp. rewrite Hc. cbv zeta.
  unfold or_else. rewrite Hs.
  apply String.eqb_neq in Hne. rewrite Hne.
  repeat split.
  - now intros ->.
  - now intros -> ->.
  - now intros -> ->.
  - intros pr'. destruct (isEvm src), (isSvm src); intros [H|H]; congruence.
Qed.

Lemma paywall_follows_source_network_witness :
  PaywallApp (fun l _ => head l) (String.eqb "base") (String.eqb "solana")
    (mkX402Window None [Scenarios.cross_chain_requirement])
  = EvmPaywall Scenarios.cross_chain_requirement.
Proof.
  apply (proj1 (paywall_follows_source_network
                  (fun l _ => head l) (String.eqb "base") (String.eqb "solana")
                  (mkX402Window None [Scenarios.cross_chain_requirement])
                  Scenarios.cross_chain_requirement "base"
                  eq_refl eq_refl ltac:(discriminate))).
  reflexivity.
Defined.

(** Without a source network, or with an empty one, the destination
    network decides. *)
Lemma paywall_same_chain
    {R : Type} (choose : R -> bool -> option PaymentRequirements)
    (isEvm isSvm : string -> bool) (x402 : X402Window R) (pr : PaymentRequirements) :
  choose (x402_paymentRequirements x402) (default true (x402_testnet x402)) = Some pr ->
  srcNetwork pr = None \/ srcNetwork pr = Some "" ->
  PaywallApp choose isEvm isSvm x402
  = if isEvm (network pr) then EvmPaywall pr
    else if isSvm (network pr) then SolanaPaywall pr
    else UnsupportedView.
Proof.
  intros Hc Hs. unfold PaywallApp. rewrite Hc. cbv zeta. unfold or_else.
  destruct Hs as [-> | ->]; reflexivity.
Qed.

(* ===================================================================== *)
(** ** The displayed amounts *)
(* ===================================================================== *)

Module PriceInfoFacts.
Import PriceInfo.

Lemma digit_val_char (c : ascii) (v : Z) :
  digit_val 10 c = Some v -> 0 <= v < 10 /\ c = digit_char v.
Proof.
  intros H.
  destruct c as [[] [] [] [] [] [] [] []]; vm_compute in H; try discriminate H;
    injection H as <-; (split; [lia | reflexivity]).
Qed.

(** A string of digits is the fixed-width expansion of its value. *)
Lemma digits_acc_fixed (s : string) (a v : Z) :
  digits_acc 10 s a = Some v ->
  0 <= a ->
  s = fixed_digits (String.length s) v /\ v / 10 ^ Z.of_nat (String.length s) = a.
Proof.
  revert a. induction s as [|c r IH]; intros a H Ha.
  - cbn in H. injection H as <-. split; [reflexivity|]. cbn. apply Z.div_1_r.
  - cbn [digits_acc] in H.
    destruct (digit_val 10 c) as [z|] eqn:E; [|discriminate H].
    apply digit_val_char in E as [Hz ->].
    apply IH in H as [Hs Hv]; [|lia].
    cbn [String.length fixed_digits]. split.
    + rewrite Hv. rewrite Z.add_comm, Z.mod_add by lia.
      rewrite Z.mod_small by lia. f_equal. exact Hs.
    + rewrite Nat2Z.inj_succ, Z.pow_succ_r by lia.
      rewrite Z.mul_comm, <- Z.div_div by lia.
      rewrite Hv. rewrite Z.add_comm, Z.div_add by lia.
      rewrite Z.div_small by lia. reflexivity.
Qed.

Lemma digits_acc_zeros (k : nat) (s : string) :
  digits_acc 10 (zeros k +:+ s) 0 = digits_acc 10 s 0.
Proof. induction k as [|k IH]; [reflexivity | exact IH]. Qed.

Lemma length_zeros_append (k : nat) (s : string) :
  String.length (zeros k +:+ s) = (k + String.length s)%nat.
Proof. induction k as [|k IH]; cbn; [reflexivity | now rewrite <- IH]. Qed.

Lemma digits_string_of_pos (p : positive) :
  digits_acc 10 (string_of_Z (Z.pos p)) 0 = Some (Z.pos p).
Proof.
  unfold string_of_Z. cbn [Z.to_int NilEmpty.string_of_int].
  rewrite digits_acc_uint. f_equal.
  change (Z.of_int (Z.to_int (Z.pos p)) = Z.pos p). apply DecimalZ.of_to.
Qed.

(** The decimal text of a positive integer does not start with [0]. *)
Lemma string_of_pos_head (p : positive) :
  exists c r, string_of_Z (Z.pos p) = String c r /\ c <> "0"%char.
Proof.
  unfold string_of_Z. cbn [Z.to_int NilEmpty.string_of_int].
  pose proof (unorm_to_uint p) as N.
  pose proof (DecimalPos.Unsigned.to_uint_nonzero p) as Z0.
  destruct (Pos.to_uint p) as [|u|u|u|u|u|u|u|u|u|u] eqn:E.
  - discriminate N.
  - apply unorm_D0 in N. subst u. now contradiction Z0.
  - cbn. eexists _, _. split; [reflexivity | discriminate].
  - cbn. eexists _, _. split; [reflexivity | discriminate].
  - cbn. eexists _, _. split; [reflexivity | discriminate].
  - cbn. eexists _, _. split; [reflexivity | discriminate].
  - cbn. eexists _, _. split; [reflexivity | discriminate].
  - cbn. eexists _, _. split; [reflexivity | discriminate].
  - cbn. eexists _, _. split; [reflexivity | discriminate].
  - cbn. eexists _, _. split; [reflexivity | discriminate].
  - cbn. eexists _, _. split; [reflexivity | discriminate].
Qed.

(** A positive integer below 10^d has at most [d] digits. *)
Lemma length_string_of_Z (f : Z) (d : nat) :
  0 < f < 10 ^ Z.of_nat d -> (String.length (string_of_Z f) <= d)%nat.
Proof.
  intros [Hpos Hlt]. destruct f as [|p|p]; try lia.
  destruct (string_of_pos_head p) as (c & r & E & Hc).
  pose proof (digits_string_of_pos p) as Hv.
  apply digits_acc_fixed in Hv as [Hs _]; [|lia].
  rewrite E in Hs |- *. cbn [String.length fixed_digits] in Hs |- *.
  injection Hs as Hhead _.
  set (n := Z.of_nat (String.length r)) in *.
  assert (Hn : 0 <= n) by (unfold n; lia).
  assert (Hq : Z.pos p / 10 ^ n <> 0).
  { intros Hq. rewrite Hq in Hhead. apply Hc. exact Hhead. }
  assert (Hge : 10 ^ n <= Z.pos p).
  { destruct (Z.lt_ge_cases (Z.pos p) (10 ^ n)) as [Hlt'|]; [|assumption].
    exfalso. apply Hq. apply Z.div_small. lia. }
  assert (Hnd : n < Z.of_nat d).
  { apply (Z.pow_lt_mono_r_iff 10); lia. }
  unfold n in Hnd. lia.
Qed.

(** The padded fraction is the fixed-width expansion of the remainder. *)
Lemma padStart_fixed (f : Z) (d : nat) :
  0 < f < 10 ^ Z.of_nat d ->
  padStart d (string_of_Z f) = fixed_digits d f.
Proof.
  intros Hf. pose proof (length_string_of_Z f d Hf) as Hlen.
  unfold padStart.
  set (s := zeros (d - String.length (string_of_Z f)) +:+ string_of_Z f).
  assert (Hl : String.length s = d).
  { unfold s. rewrite length_zeros_append. lia. }
  assert (Hv : digits_acc 10 s 0 = Some f).
  { unfold s. rewrite digits_acc_zeros.
    destruct f as [|p|p]; try lia. apply digits_string_of_pos. }
  apply digits_acc_fixed in Hv as [Hs _]; [|lia].
  now rewrite Hl in Hs.
Qed.

Lemma slice_fixed (k w : nat) (v : Z) :
  slice k (fixed_digits (k + w) v) = fixed_digits k (v / 10 ^ Z.of_nat w).
Proof.
  unfold slice. induction k as [|k IH]; [now destruct (fixed_digits _ _)|].
  cbn [Nat.add fixed_digits substring]. rewrite IH. f_equal. f_equal. f_equal.
  rewrite Z.div_div by lia. rewrite <- Z.pow_add_r by lia.
  rewrite Nat2Z.inj_add. f_equal. f_equal. lia.
Qed.

(** The six characters kept of the padded fraction. *)
Lemma displayDecimals_digits (f : Z) (d : nat) :
  (6 <= d)%nat ->
  0 < f < 10 ^ Z.of_nat d ->
  slice 6 (padStart d (string_of_Z f)) = fixed_digits 6 (f / 10 ^ Z.of_nat (d - 6)).
Proof.
  intros Hd Hf. rewrite padStart_fixed by exact Hf.
  replace d with (6 + (d - 6))%nat at 1 by lia. apply slice_fixed.
Qed.

Lemma maxPriceStr_fraction (pow10 : nat -> Res Z) (amount : Z) (d : nat) :
  pow10 d = Ok (10 ^ Z.of_nat d) ->
  0 < Z.rem amount (10 ^ Z.of_nat d) ->
  maxPriceStr pow10 amount d
  = Ok (string_of_Z (Z.quot amount (10 ^ Z.of_nat d)) +:+
        ("." +:+ strip_zeros
                   (slice 6 (padStart d (string_of_Z (Z.rem amount (10 ^ Z.of_nat d))))))).
Proof.
  intros Hp Hr. unfold maxPriceStr. rewrite Hp.
  assert (H10 : 0 < 10 ^ Z.of_nat d) by (apply Z.pow_pos_nonneg; lia).
  destruct (Z.eqb_spec (10 ^ Z.of_nat d) 0) as [E|_]; [lia|].
  cbv zeta. apply Z.ltb_lt in Hr. rewrite Hr. reflexivity.
Qed.

Lemma rem_bounds (amount : Z) (d : nat) :
  0 < Z.rem amount (10 ^ Z.of_nat d) ->
  0 < amount /\
  Z.rem amount (10 ^ Z.of_nat d) = amount mod 10 ^ Z.of_nat d /\
  Z.quot amount (10 ^ Z.of_nat d) = amount / 10 ^ Z.of_nat d /\
  Z.rem amount (10 ^ Z.of_nat d) < 10 ^ Z.of_nat d.
Proof.
  intros Hr.
  assert (H10 : 0 < 10 ^ Z.of_nat d) by (apply Z.pow_pos_nonneg; lia).
  assert (Ha : 0 < amount).
  { destruct (Z.lt_trichotomy amount 0) as [Hn|[->|Hp]]; [| |assumption].
    - pose proof (Z.rem_nonpos amount (10 ^ Z.of_nat d)). lia.
    - rewrite Z.rem_0_l in Hr; lia. }
  rewrite Z.rem_mod_nonneg, Z.quot_div_nonneg by lia.
  pose proof (Z.mod_pos_bound amount (10 ^ Z.of_nat d) H10). lia.
Qed.

End PriceInfoFacts.

(** X15.  The displayed amount keeps the first six decimals of the
    fraction and drops the rest without rounding.  For a token with at least
    six decimals whose power of ten the engine gives exactly, an amount with
    a positive remainder is shown as its integer part, a point, and the six
    digits of [k] with the zeros at the end removed, where [k], between 0 and
    999999, is the remainder counted in millionths of a unit and rounded
    down: the amount lies between the shown value and the shown value plus
    one millionth. *)
Theorem displayed_fraction_truncated
    (pow10 : nat -> Res Z) (amount : Z) (d : nat) :
  pow10 d = Ok (10 ^ Z.of_nat d) ->
  (6 <= d)%nat ->
  0 < Z.rem amount (10 ^ Z.of_nat d) ->
  exists k,
    PriceInfo.maxPriceStr pow10 amount d
    = Ok (string_of_Z (Z.quot amount (10 ^ Z.of_nat d)) +:+
          ("." +:+ PriceInfo.strip_zeros (PriceInfo.fixed_digits 6 k))) /\
    0 <= k < 10 ^ 6 /\
    Z.quot amount (10 ^ Z.of_nat d) * 10 ^ Z.of_nat d + k * 10 ^ Z.of_nat (d - 6)
      <= amount
      < Z.quot amount (10 ^ Z.of_nat d) * 10 ^ Z.of_nat d
        + (k + 1) * 10 ^ Z.of_nat (d - 6).
Proof.
  intros Hp Hd Hr.
  destruct (PriceInfoFacts.rem_bounds amount d Hr) as (Ha & Hrem & Hquot & Hlt).
  exists (Z.rem amount (10 ^ Z.of_nat d) / 10 ^ Z.of_nat (d - 6)).
  rewrite (PriceInfoFacts.maxPriceStr_fraction pow10 amount d Hp Hr).
  rewrite PriceInfoFacts.displayDecimals_digits by (try assumption; lia).
  split; [reflexivity|].
  set (f := Z.rem amount (10 ^ Z.of_nat d)) in *.
  set (u := 10 ^ Z.of_nat (d - 6)).
  assert (Hu : 0 < u) by (apply Z.pow_pos_nonneg; lia).
  assert (Hsplit : 10 ^ Z.of_nat d = 10 ^ 6 * u).
  { unfold u. rewrite <- Z.pow_add_r by lia. f_equal. lia. }
  assert (Hdiv : amount = Z.quot amount (10 ^ Z.of_nat d) * 10 ^ Z.of_nat d + f).
  { unfold f. pose proof (Z.quot_rem' amount (10 ^ Z.of_nat d)). lia. }
  pose proof (Z.div_mod f u ltac:(lia)) as Hf.
  pose proof (Z.mod_pos_bound f u Hu) as Hm.
  split.
  - split; [apply Z.div_pos; lia|].
    apply Z.div_lt_upper_bound; [lia|]. rewrite Z.mul_comm, <- Hsplit. exact Hlt.
  - split; nia.
Qed.

Lemma displayed_fraction_truncated_witness :
  exists k,
    PriceInfo.maxPriceStr PriceInfo.exact_pow10 1234567890123456789 18
    = Ok (string_of_Z (Z.quot 1234567890123456789 (10 ^ Z.of_nat 18)) +:+
          ("." +:+ PriceInfo.strip_zeros (PriceInfo.fixed_digits 6 k))) /\
    0 <= k < 10 ^ 6 /\
    Z.quot 1234567890123456789 (10 ^ Z.of_nat 18) * 10 ^ Z.of_nat 18
      + k * 10 ^ Z.of_nat (18 - 6)
      <= 1234567890123456789
      < Z.quot 1234567890123456789 (10 ^ Z.of_nat 18) * 10 ^ Z.of_nat 18
        + (k + 1) * 10 ^ Z.of_nat (18 - 6).
Proof.
  apply (displayed_fraction_truncated PriceInfo.exact_pow10 1234567890123456789 18).
  - reflexivity.
  - lia.
  - vm_compute. reflexivity.
Defined.

Example displayed_amount_sample :
  PriceInfo.maxPriceStr PriceInfo.exact_pow10 1234567890123456789 18 = Ok "1.234567" /\
  PriceInfo.maxPriceStr PriceInfo.exact_pow10 1999999900000000000 18 = Ok "1.999999" /\
  PriceInfo.maxPriceStr PriceInfo.exact_pow10 2500000 6 = Ok "2.5" /\
  PriceInfo.maxPriceStr PriceInfo.exact_pow10 3000000 6 = Ok "3".
Proof. repeat split; vm_compute; reflexivity. Qed.

(** X16.  An amount whose fraction is positive but below one millionth of
    a unit is shown with a point and no decimal after it: the six characters
    kept of the fraction are all zeros, and they are all removed. *)
Theorem dust_fraction_shows_bare_point
    (pow10 : nat -> Res Z) (amount : Z) (d : nat) :
  pow10 d = Ok (10 ^ Z.of_nat d) ->
  (6 <= d)%nat ->
  0 < Z.rem amount (10 ^ Z.of_nat d) < 10 ^ Z.of_nat (d - 6) ->
  PriceInfo.maxPriceStr pow10 amount d
  = Ok (string_of_Z (Z.quot amount (10 ^ Z.of_nat d)) +:+ ".").
Proof.
  intros Hp Hd [Hr Hsmall].
  destruct (PriceInfoFacts.rem_bounds amount d Hr) as (Ha & Hrem & Hquot & Hlt).
  rewrite (PriceInfoFacts.maxPriceStr_fraction pow10 amount d Hp Hr).
  rewrite PriceInfoFacts.displayDecimals_digits by (try assumption; lia).
  rewrite Z.div_small by lia. reflexivity.
Qed.

Lemma dust_fraction_shows_bare_point_witness :
  PriceInfo.maxPriceStr PriceInfo.exact_pow10 2000000000000000001 18 = Ok "2.".
Proof.
  apply (dust_fraction_shows_bare_point PriceInfo.exact_pow10 2000000000000000001 18).
  - reflexivity.
  - lia.
  - vm_compute. split; reflexivity.
Defined.

(* ===================================================================== *)
(** ** The order of the requests of the delegated-spend builder *)
(* ===================================================================== *)

(** X17.  Whatever the replies are, the requests of a run of
    [createGaslessApprovalPayment] are an initial part of: the lookup of the
    mint of the asset, the lookup of one token account, the request for the
    latest blockhash, one signing request.  All of them go to the one RPC
    client made for the network of the requirements; no request is repeated
    and none is made out of this order. *)
Theorem approval_trace_shape
    (env : Env) (client : TransactionSigner) (version : Z)
    (req : PaymentRequirements) (q : QuoteResponse) (config : option X402Config) :
  let t := trace (createGaslessApprovalPayment env client version req q config) in
  t = [] \/
  exists rpc,
    getRpcClient env (network req) (config_rpcUrl config) = Ok rpc /\
    (t = [EvFetchMint rpc (asset req)] \/
     exists account,
       t = [EvFetchMint rpc (asset req); EvFetchEncodedAccount rpc account] \/
       t = [EvFetchMint rpc (asset req); EvFetchEncodedAccount rpc account;
            EvGetLatestBlockhash rpc] \/
       exists msg,
         t = [EvFetchMint rpc (asset req); EvFetchEncodedAccount rpc account;
              EvGetLatestBlockhash rpc; EvSign msg]).
Proof.
  cbv zeta. approval_exits; eauto 10.
Qed.

(* ===================================================================== *)
(** ** The native transfer carries no signer *)
(* ===================================================================== *)

(** X18.  The transfer instruction of [createGaslessNativePayment] names
    the payer with role 0 and attaches no signer object, and the fee payer
    slot holds an address only, so the message that is submitted carries no
    signer at all.  With a library that signs only with the signers of the
    message, the wallet's reply therefore never holds the payer's signature:
    the builder never returns a payload, every run in which the wallet
    replies ends on "Failed to get user's signature from transaction", and
    [createGaslessPaymentHeader] returns no header for the native asset. *)
Theorem native_transfer_never_returns
    (env : Env) (encodePayment : PaymentPayload -> string)
    (client : TransactionSigner) (version : Z)
    (req : PaymentRequirements) (q : QuoteResponse) (fac : string)
    (config : option X402Config) :
  signs_attached_only env ->
  is_ok (outcome (createGaslessNativePayment env client version req q config)) = false /\
  (forall m tx,
     In (EvSign m)
        (trace (createGaslessNativePayment env client version req q config)) ->
     partiallySignTransactionMessageWithSigners env m = Ok tx ->
     attached_signers m = [] /\
     signature_of tx (signer_address client) = None /\
     outcome (createGaslessNativePayment env client version req q config)
     = Throw no_user_signature) /\
  (asset req = NATIVE_SOL_ADDRESS ->
   is_ok (outcome (createGaslessPaymentHeader env encodePayment client version req
                     fac config)) = false).
Proof.
  intros Hsa.
  assert (Hnever : forall req' q',
             is_ok (outcome (createGaslessNativePayment env client version req' q'
                               config)) = false).
  { intros req' q'.
    destruct (createGaslessNativePayment env client version req' q' config)
      as [t [p|e]] eqn:E; [|reflexivity].
    exfalso. exact (native_run_unsigned env _ _ _ _ _ _ _ Hsa E). }
  split; [apply Hnever|]. split.
  - intros m tx Hin Hsign.
    apply native_sign_request in Hin.
    destruct Hin as (d & rpc & lamports & lb & Hs & Hd & Hrpc & Hbig & Hlb & -> & _).
    assert (Hnone : signature_of tx (signer_address client) = None).
    { destruct (signature_of tx (signer_address client)) as [sig|] eqn:Hsig;
        [|reflexivity].
      destruct (Hsa _ _ _ _ Hsign Hsig) as (s & Hin & _).
      rewrite native_message_unsigned in Hin. destruct Hin. }
    split; [apply native_message_unsigned|]. split; [exact Hnone|].
    destruct (native_progress env client version req q config d rpc lamports lb
                Hs Hd Hrpc Hbig Hlb) as (bytes & msg & Hbytes & -> & _ & Ho).
    rewrite transferInstructionData_bytes in Hbytes.
    assert (bytes = [2; 0; 0; 0] ++ le_bytes 8 (lamports mod 2 ^ 64)) as ->
      by congruence.
    rewrite Ho, Hsign, Hnone. reflexivity.
  - intros Hnat. unfold createGaslessPaymentHeader.
    destruct (extra_get "feePayer" req) as [fp|]; [|reflexivity].
    destruct (String.eqb fp ""); [reflexivity|].
    apply String.eqb_eq in Hnat. rewrite Hnat.
    unfold createGaslessNativePaymentHeader.
    match goal with |- context [?m ≫= _] =>
      destruct (header_run m encodePayment) as [_ Ho]; rewrite Ho;
      pose proof (Hnever req _ : is_ok (outcome m) = false) as Hm;
      destruct (outcome m); [discriminate Hm | reflexivity]
    end.
Qed.

Lemma native_transfer_never_returns_witness :
  is_ok (outcome (createGaslessNativePayment Sample.env Sample.wallet 1
                    (Sample.requirements NATIVE_SOL_ADDRESS "500000" None)
                    (Sample.quote "500000") None)) = false /\
  (forall m tx,
     In (EvSign m)
        (trace (createGaslessNativePayment Sample.env Sample.wallet 1
                  (Sample.requirements NATIVE_SOL_ADDRESS "500000" None)
                  (Sample.quote "500000") None)) ->
     partiallySignTransactionMessageWithSigners Sample.env m = Ok tx ->
     attached_signers m = [] /\
     signature_of tx (signer_address Sample.wallet) = None /\
     outcome (createGaslessNativePayment Sample.env Sample.wallet 1
                (Sample.requirements NATIVE_SOL_ADDRESS "500000" None)
                (Sample.quote "500000") None)
     = Throw no_user_signature) /\
  (asset (Sample.requirements NATIVE_SOL_ADDRESS "500000" None) = NATIVE_SOL_ADDRESS ->
   is_ok (outcome (createGaslessPaymentHeader Sample.env Wire.encodePayment
                     Sample.wallet 1
                     (Sample.requirements NATIVE_SOL_ADDRESS "500000" None)
                     Sample.facilitator None)) = false).
Proof.
  exact (native_transfer_never_returns Sample.env Wire.encodePayment Sample.wallet 1
           (Sample.requirements NATIVE_SOL_ADDRESS "500000" None)
           (Sample.quote "500000") Sample.facilitator None
           sample_signs_attached_only).
Defined.
